(** * Signal-Scanner: a shallow embedding of [device_comm_full.py]

    The program scans for Wi-Fi access points, classic Bluetooth and BLE
    devices, tries a minimal exchange with what it found, and stores the
    results as timestamped JSON files.  Everything it does is sequencing of
    calls into the operating system and into third-party libraries, so the
    embedding is a state-and-exception monad over an explicit [World]
    (clock, file system, log, console, issued external actions, registered
    scheduler jobs) and an [Env] of oracles that answer the external calls.

    Python values are modelled as far as the program uses them: [int] as
    [Z], [str] as [string] (one character per code point below 256),
    lists as [list], dictionaries as association lists in insertion order,
    exceptions as values of [exn].  Only subclasses of [Exception] are
    modelled: interrupts are not.

    Three libraries are modelled by what they compute rather than left to
    the oracles, because properties of the program depend on it: the
    encoder and decoder of [json] ([dumps], [loads]), the job queue of
    [schedule] ([schedule_every_hours_do], [run_pending]) and a few
    built-ins ([os.path.join], [str.replace], [str.strip], [int], list
    indexing).  Time is the time the program asks to pass: the clock moves
    with [time.sleep] only.

    The functions of the file are embedded, from [timestamp] to [main].
    The statements of the module body are not: creating [BASE_DIR],
    [logging.basicConfig] and the [if __name__ == "__main__"] block.  What
    [basicConfig] does, and which of the records below reach [debug.log],
    depends on what the imported libraries did to the [logging] module
    when they were loaded, and the file does not say.  The [log] of a
    world is therefore the sequence of records the program hands to
    [logging], in the order of the calls. *)

From Stdlib Require Import ZArith String Ascii List Lia Bool.
From Stdlib Require Import Decimal DecimalString DecimalFacts DecimalPos DecimalN DecimalZ.
From stdpp Require Import gmap strings.
Import ListNotations.
Open Scope string_scope.

(** ** Python values that reach [json.dump] *)

#[warnings="-register-all"]
Inductive pyval : Type :=
| PNone
| PBool (b : bool)
| PInt (z : Z)
| PStr (s : string)
| PList (l : list pyval)
| PDict (l : list (string * pyval)).

(** ** Exceptions *)

Inductive exn_class := IndexError | ValueError | OSError | OtherError.

Record exn := mkExn { exn_cls : exn_class; exn_msg : string }.

Inductive result (A : Type) : Type :=
| Ok (a : A)
| Raise (e : exn).
Arguments Ok {A} a.
Arguments Raise {A} e.

(** ** Records handed over by the libraries *)

(** A [pywifi] scan result. *)
Record Profile := mkProfile
  { ssid : string; bssid : string; signal : Z; freq : Z }.

(** A [bleak] device; [name] may be [None]. *)
Record BLEDevice := mkBLE
  { address : string; name : option string; rssi : Z }.

(** The [CompletedProcess] of [subprocess.run]. *)
Record CompletedProcess := mkProc
  { returncode : Z; stdout : string; stderr : string }.

(** ** Records built by the program (dictionaries with fixed keys) *)

Record WiFiRecord := mkWiFi
  { wSSID : string; wBSSID : string; wSignal : Z; wFrequency : Z;
    wTimestamp : string }.

Record BtRecord := mkBt
  { bAddress : string; bName : string; bType : string; bTimestamp : string }.

Record BleRecord := mkBleRec
  { eAddress : string; eName : string; eRSSI : Z; eType : string;
    eTimestamp : string }.

Record BtComm := mkBtComm
  { cTo : string; cSent : string; cReceived : string; cTime : string }.

Record WifiComm := mkWifiComm
  { pTarget : string; pStatus : string; pStdout : string; pStderr : string;
    pTime : string }.

Definition wifi_to_py (r : WiFiRecord) : pyval :=
  PDict [("SSID", PStr (wSSID r)); ("BSSID", PStr (wBSSID r));
         ("Signal", PInt (wSignal r)); ("Frequency", PInt (wFrequency r));
         ("Timestamp", PStr (wTimestamp r))].

Definition bt_to_py (r : BtRecord) : pyval :=
  PDict [("Address", PStr (bAddress r)); ("Name", PStr (bName r));
         ("Type", PStr (bType r)); ("Timestamp", PStr (bTimestamp r))].

Definition ble_to_py (r : BleRecord) : pyval :=
  PDict [("Address", PStr (eAddress r)); ("Name", PStr (eName r));
         ("RSSI", PInt (eRSSI r)); ("Type", PStr (eType r));
         ("Timestamp", PStr (eTimestamp r))].

Definition btcomm_to_py (r : BtComm) : pyval :=
  PDict [("to", PStr (cTo r)); ("sent", PStr (cSent r));
         ("received", PStr (cReceived r)); ("time", PStr (cTime r))].

Definition wificomm_to_py (r : WifiComm) : pyval :=
  PDict [("target", PStr (pTarget r)); ("status", PStr (pStatus r));
         ("stdout", PStr (pStdout r)); ("stderr", PStr (pStderr r));
         ("time", PStr (pTime r))].

(** ** The environment: one oracle per external call

    Every oracle takes the number of environment interactions made so far,
    so that the same call may be answered differently at different
    moments.  [None] in an [option exn] means the call returned normally. *)

Record Env := mkEnv
  { base_dir : string;                       (* os.path.expanduser("~/.scanner_logs") *)
    utcnow_iso : nat -> string;              (* datetime.utcnow().isoformat() *)
    os_makedirs : nat -> string -> option exn;
    file_open_w : nat -> string -> option exn;
    (* writing [content] to the open file: [None] when all of it is
       written, [Some (k, e)] when [e] is raised after [k] characters *)
    file_write : nat -> string -> string -> option (nat * exn);
    pywifi_interfaces : nat -> result (list string);
    iface_scan : nat -> string -> option exn;
    iface_scan_results : nat -> string -> result (list Profile);
    bt_discover_devices : nat -> result (list (string * string));
    ble_discover : nat -> result (list BLEDevice);
    rfcomm_socket : nat -> option exn;
    rfcomm_connect : nat -> string -> Z -> option exn;
    rfcomm_send : nat -> string -> string -> option exn;
    rfcomm_recv : nat -> string -> Z -> result string;
    rfcomm_close : nat -> string -> option exn;
    subprocess_run : nat -> list string -> result CompletedProcess;
    stdin_input : nat -> string -> result string }.

(** ** The world *)

Inductive level := DEBUG | INFO | ERROR | CRITICAL.

(** External actions the program issues, in the order it issues them. *)
Inductive event :=
| EvMakedirs (path : string)
| EvOpenW (path : string)
| EvWifiScan (iface : string)
| EvWifiResults (iface : string)
| EvBtDiscover
| EvBleDiscover
| EvRfcommConnect (addr : string) (channel : Z)
| EvRfcommSend (addr : string) (msg : string)
| EvRfcommRecv (addr : string) (bufsize : Z)
| EvRfcommClose (addr : string)
| EvSubprocess (argv : list string)
| EvInput (prompt : string).

(** What [schedule] can be asked to run. *)
Inductive job_func := JobScanAndCommunicate.

(** A job of the [schedule] module: its period and the time it is due. *)
Record Job := mkJob { period : nat; next_run : nat; job_fn : job_func }.

Record World := mkWorld
  { clock : nat;                     (* seconds, advanced by time.sleep *)
    tick : nat;                      (* environment interactions so far *)
    fs : gmap string string;         (* path -> file content *)
    log : list (level * string);     (* records handed to logging, oldest first *)
    console : list string;           (* printed lines, oldest first *)
    trace : list event;              (* oldest first *)
    jobs : list Job }.               (* schedule's default scheduler *)

(** ** The monad: state over [World], with exceptions *)

Definition M (A : Type) : Type := World -> result A * World.

Definition ret {A} (a : A) : M A := fun w => (Ok a, w).

Definition bind {A B} (m : M A) (k : A -> M B) : M B :=
  fun w => match m w with
           | (Ok a, w') => k a w'
           | (Raise e, w') => (Raise e, w')
           end.

Definition raise {A} (e : exn) : M A := fun w => (Raise e, w).

(** [try: m  except Exception as e: h e] *)
Definition try_except {A} (m : M A) (h : exn -> M A) : M A :=
  fun w => match m w with
           | (Ok a, w') => (Ok a, w')
           | (Raise e, w') => h e w'
           end.

Declare Scope py_scope.
Delimit Scope py_scope with py.
Notation "'let!' x ':=' c1 'in' c2" := (bind c1 (fun x => c2))
  (at level 10, x name, c1 at level 100, c2 at level 200) : py_scope.
Notation "c1 ;; c2" := (bind c1 (fun _ => c2))
  (at level 100, right associativity) : py_scope.
Open Scope py_scope.

Definition set_clock (c : nat) (w : World) : World :=
  mkWorld c (tick w) (fs w) (log w) (console w) (trace w) (jobs w).
Definition set_tick (t : nat) (w : World) : World :=
  mkWorld (clock w) t (fs w) (log w) (console w) (trace w) (jobs w).
Definition set_fs (f : gmap string string) (w : World) : World :=
  mkWorld (clock w) (tick w) f (log w) (console w) (trace w) (jobs w).
Definition set_log (l : list (level * string)) (w : World) : World :=
  mkWorld (clock w) (tick w) (fs w) l (console w) (trace w) (jobs w).
Definition set_console (c : list string) (w : World) : World :=
  mkWorld (clock w) (tick w) (fs w) (log w) c (trace w) (jobs w).
Definition set_trace (t : list event) (w : World) : World :=
  mkWorld (clock w) (tick w) (fs w) (log w) (console w) t (jobs w).
Definition set_jobs (j : list Job) (w : World) : World :=
  mkWorld (clock w) (tick w) (fs w) (log w) (console w) (trace w) j.

Definition logging (lv : level) (msg : string) : M unit :=
  fun w => (Ok tt, set_log (log w ++ [(lv, msg)]) w).

Definition print (line : string) : M unit :=
  fun w => (Ok tt, set_console (console w ++ [line]) w).

Definition sleep (n : nat) : M unit :=
  fun w => (Ok tt, set_clock (clock w + n) w).

(** Asking the environment: the event is recorded, the oracle is read at
    the current tick, and the tick advances. *)
Definition ask {A} (ev : option event) (oracle : nat -> result A) : M A :=
  fun w =>
    let w1 := set_trace (trace w ++ match ev with Some e => [e] | None => [] end) w in
    (oracle (tick w), set_tick (S (tick w)) w1).

(** A pure computation that may raise. *)
Definition of_result {A} (r : result A) : M A := fun w => (r, w).

Definition lift_opt (o : option exn) : result unit :=
  match o with None => Ok tt | Some e => Raise e end.

(** The double quote character. *)
Abbreviation dquote := ("034"%char) (only parsing).

(** ** Python built-ins the program uses *)

Definition starts_with_slash (s : string) : bool :=
  match s with String "/" _ => true | _ => false end.

Fixpoint ends_with_slash (s : string) : bool :=
  match s with
  | EmptyString => false
  | String c EmptyString => Ascii.eqb c "/"
  | String _ s' => ends_with_slash s'
  end.

(** [os.path.join(a, b)] on POSIX. *)
Definition path_join (a b : string) : string :=
  if starts_with_slash b then b
  else if orb (String.eqb a "") (ends_with_slash a) then a +:+ b
  else a +:+ "/" +:+ b.

(** [s.replace(old, new)] for one-character [old] and [new]. *)
Fixpoint replace_char (old new : ascii) (s : string) : string :=
  match s with
  | EmptyString => EmptyString
  | String c s' =>
      String (if Ascii.eqb c old then new else c) (replace_char old new s')
  end.

(** The characters [str.strip()] removes, among those below 256. *)
Definition is_space (c : ascii) : bool :=
  let n := nat_of_ascii c in
  (orb (andb (9 <=? n) (n <=? 13))
       (orb (andb (28 <=? n) (n <=? 32)) (orb (n =? 133) (n =? 160))))%nat.

Fixpoint lstrip (s : string) : string :=
  match s with
  | String c s' => if is_space c then lstrip s' else s
  | EmptyString => EmptyString
  end.

Fixpoint rstrip (s : string) : string :=
  match s with
  | EmptyString => EmptyString
  | String c s' =>
      match rstrip s' with
      | EmptyString => if is_space c then EmptyString else String c EmptyString
      | r => String c r
      end
  end.

Definition strip (s : string) : string := rstrip (lstrip s).

(** [str(n)] and [repr(n)] of an [int]. *)
Definition str_of_Z (z : Z) : string :=
  DecimalString.NilZero.string_of_int (Z.to_int z).

(** [l[i]]: a negative index counts from the end. *)
Definition py_index {A} (l : list A) (i : Z) : result A :=
  let n := Z.of_nat (length l) in
  let j := (if i <? 0 then i + n else i)%Z in
  if (j <? 0)%Z then Raise (mkExn IndexError "list index out of range")
  else match nth_error l (Z.to_nat j) with
       | Some x => Ok x
       | None => Raise (mkExn IndexError "list index out of range")
       end.

Definition is_digit (c : ascii) : bool :=
  let n := nat_of_ascii c in (andb (48 <=? n) (n <=? 57))%nat.

Definition digit_val (c : ascii) : Z := Z.of_nat (nat_of_ascii c - 48).

(** The digits of an [int] literal after its sign: digits, with single
    underscores allowed between two digits.  [acc] is the value read so
    far, [prev] tells whether the previous character was a digit. *)
Fixpoint int_digits (s : string) (acc : Z) (prev : bool) : option Z :=
  match s with
  | EmptyString => if prev then Some acc else None
  | String c s' =>
      if is_digit c then int_digits s' (10 * acc + digit_val c)%Z true
      else if Ascii.eqb c "_" then
        if prev then
          match s' with
          | String d _ => if is_digit d then int_digits s' acc false else None
          | EmptyString => None
          end
        else None
      else None
  end.

(** [int(s)] for a [str] in base 10: surrounding white space is dropped,
    one sign is allowed. *)
Definition py_int (s : string) : result Z :=
  let bad := Raise (mkExn ValueError
                     ("invalid literal for int() with base 10: '" +:+ s +:+ "'")) in
  match strip s with
  | String "-" t =>
      match int_digits t 0 false with Some v => Ok (- v)%Z | None => bad end
  | String "+" t =>
      match int_digits t 0 false with Some v => Ok v | None => bad end
  | t => match int_digits t 0 false with Some v => Ok v | None => bad end
  end.

(** ** [json.dump(data, f, indent=4)]

    The text the pure-Python encoder produces with [indent=4] and the
    default [ensure_ascii=True]. *)

Definition hex_digit (n : nat) : ascii :=
  if (n <? 10)%nat then ascii_of_nat (48 + n) else ascii_of_nat (87 + n).

Definition escape_char (c : ascii) : string :=
  let n := nat_of_ascii c in
  if Ascii.eqb c dquote then (String "\" (String dquote EmptyString))
  else if Ascii.eqb c "\" then "\\"
  else if (n =? 10)%nat then "\n"
  else if (n =? 13)%nat then "\r"
  else if (n =? 9)%nat then "\t"
  else if (n =? 8)%nat then "\b"
  else if (n =? 12)%nat then "\f"
  else if (andb (32 <=? n) (n <=? 126))%nat then String c EmptyString
  else String "\" (String "u" (String "0" (String "0"
         (String (hex_digit (n / 16)) (String (hex_digit (n mod 16)) EmptyString))))).

Fixpoint escape_body (s : string) : string :=
  match s with
  | EmptyString => EmptyString
  | String c s' => escape_char c +:+ escape_body s'
  end.

Definition encode_string (s : string) : string :=
  String dquote (escape_body s +:+ String dquote EmptyString).

Fixpoint spaces (n : nat) : string :=
  match n with O => EmptyString | S n' => String " " (spaces n') end.

(** The line break and indentation before an item at nesting [lvl]. *)
Definition newline_indent (lvl : nat) : string :=
  String "010" (spaces (4 * lvl)).

Fixpoint join_items (sep : string) (items : list string) : string :=
  match items with
  | [] => EmptyString
  | [x] => x
  | x :: rest => x +:+ sep +:+ join_items sep rest
  end.

Fixpoint dumps_at (lvl : nat) (v : pyval) : string :=
  match v with
  | PNone => "null"
  | PBool true => "true"
  | PBool false => "false"
  | PInt z => str_of_Z z
  | PStr s => encode_string s
  | PList [] => "[]"
  | PList l =>
      "[" +:+ newline_indent (S lvl)
      +:+ join_items ("," +:+ newline_indent (S lvl))
            ((fix items (l : list pyval) : list string :=
                match l with
                | [] => []
                | x :: r => dumps_at (S lvl) x :: items r
                end) l)
      +:+ newline_indent lvl +:+ "]"
  | PDict [] => "{}"
  | PDict l =>
      "{" +:+ newline_indent (S lvl)
      +:+ join_items ("," +:+ newline_indent (S lvl))
            ((fix members (l : list (string * pyval)) : list string :=
                match l with
                | [] => []
                | (k, x) :: r =>
                    (encode_string k +:+ ": " +:+ dumps_at (S lvl) x) :: members r
                end) l)
      +:+ newline_indent lvl +:+ "}"
  end.

Definition dumps (v : pyval) : string := dumps_at 0 v.

(** ** The program *)

Fixpoint mapM {A B} (f : A -> M B) (l : list A) : M (list B) :=
  match l with
  | [] => ret []
  | x :: r => let! y := f x in let! ys := mapM f r in ret (y :: ys)
  end.

Section Program.

Variable E : Env.

Definition BASE_DIR : string := base_dir E.

Definition timestamp : M string :=
  ask None (fun t => Ok (utcnow_iso E t)).

(** [with open(filename, 'w') as f: json.dump(data, f, indent=4)]:
    opening truncates the file, then the text is written. *)
Definition open_and_dump (filename : string) (data : pyval) : M unit :=
  ask (Some (EvOpenW filename)) (fun t => lift_opt (file_open_w E t filename)) ;;
  (fun w => (Ok tt, set_fs (<[filename := ""]> (fs w)) w)) ;;
  fun w =>
    let content := dumps data in
    match file_write E (tick w) filename content with
    | None =>
        (Ok tt, set_tick (S (tick w)) (set_fs (<[filename := content]> (fs w)) w))
    | Some (k, e) =>
        (Raise e, set_tick (S (tick w))
                    (set_fs (<[filename := String.substring 0 k content]> (fs w)) w))
    end.

Definition write_json (data : pyval) (subdir prefix : string) : M unit :=
  let folder := path_join BASE_DIR subdir in
  ask (Some (EvMakedirs folder)) (fun t => lift_opt (os_makedirs E t folder)) ;;
  let! ts := timestamp in
  let filename :=
    path_join folder (prefix +:+ "_" +:+ replace_char ":" "-" ts +:+ ".json") in
  try_except
    (open_and_dump filename data ;;
     logging INFO ("Saved to " +:+ filename))
    (fun e => logging ERROR ("JSON write error: " +:+ exn_msg e)).

Definition scan_wifi : M (list WiFiRecord) :=
  let! ifaces := ask None (pywifi_interfaces E) in
  let! iface := (of_result (py_index ifaces 0)) in
  ask (Some (EvWifiScan iface)) (fun t => lift_opt (iface_scan E t iface)) ;;
  sleep 5 ;;
  let! results :=
    ask (Some (EvWifiResults iface)) (fun t => iface_scan_results E t iface) in
  let! data :=
    mapM (fun net =>
            let! ts := timestamp in
            ret (mkWiFi (ssid net) (bssid net) (signal net) (freq net) ts))
         results in
  write_json (PList (map wifi_to_py data)) "wifi_scans" "wifi" ;;
  ret data.

Definition scan_bluetooth_classic : M (list BtRecord) :=
  try_except
    (let! devices := ask (Some EvBtDiscover) (bt_discover_devices E) in
     let! data :=
       mapM (fun d : string * string =>
               let! ts := timestamp in
               ret (mkBt (fst d) (snd d) "Classic" ts))
            devices in
     write_json (PList (map bt_to_py data)) "bt_scans" "classic" ;;
     ret data)
    (fun e =>
       logging ERROR ("Bluetooth Classic scan error: " +:+ exn_msg e) ;;
       ret []).

Definition scan_bluetooth_ble : M (list BleRecord) :=
  try_except
    (let! devices := ask (Some EvBleDiscover) (ble_discover E) in
     let! data :=
       mapM (fun d =>
               let! ts := timestamp in
               ret (mkBleRec (address d)
                      (match name d with
                       | Some n => if String.eqb n "" then "Unknown" else n
                       | None => "Unknown"
                       end)
                      (rssi d) "BLE" ts))
            devices in
     write_json (PList (map ble_to_py data)) "bt_scans" "ble" ;;
     ret data)
    (fun e =>
       logging ERROR ("BLE scan error: " +:+ exn_msg e) ;;
       ret []).

(** The [try] block of [communicate_bluetooth]. *)
Definition communicate_bluetooth_try (addr : string) : M (option BtComm) :=
  print ("[+] Connecting to " +:+ addr +:+ " via RFCOMM...") ;;
  ask None (fun t => lift_opt (rfcomm_socket E t)) ;;
  ask (Some (EvRfcommConnect addr 1))
      (fun t => lift_opt (rfcomm_connect E t addr 1)) ;;
  let msg := String.append "Hello Bluetooth Device!" (String "010" "") in
  ask (Some (EvRfcommSend addr msg))
      (fun t => lift_opt (rfcomm_send E t addr msg)) ;;
  print ("[>] Sent: " +:+ strip msg) ;;
  let! response :=
    ask (Some (EvRfcommRecv addr 1024)) (fun t => rfcomm_recv E t addr 1024) in
  print ("[<] Received: " +:+ response) ;;
  ask (Some (EvRfcommClose addr)) (fun t => lift_opt (rfcomm_close E t addr)) ;;
  let! ts := timestamp in
  ret (Some (mkBtComm addr (strip msg) (strip response) ts)).

Definition communicate_bluetooth (addr : string) : M (option BtComm) :=
  try_except (communicate_bluetooth_try addr)
    (fun e =>
       logging ERROR ("Bluetooth comm error: " +:+ exn_msg e) ;;
       ret None).

Definition ping_argv (bssid_or_ip : string) : list string :=
  ["ping"; "-c"; "2"; bssid_or_ip].

(** The [try] block of [communicate_wifi]. *)
Definition communicate_wifi_try (bssid_or_ip : string) : M (option WifiComm) :=
  print ("[+] Pinging " +:+ bssid_or_ip +:+ "...") ;;
  let! result :=
    ask (Some (EvSubprocess (ping_argv bssid_or_ip)))
        (fun t => subprocess_run E t (ping_argv bssid_or_ip)) in
  let success := (returncode result =? 0)%Z in
  let! ts := timestamp in
  ret (Some (mkWifiComm bssid_or_ip
               (if success then "reachable" else "unreachable")
               (stdout result) (stderr result) ts)).

Definition communicate_wifi (bssid_or_ip : string) : M (option WifiComm) :=
  try_except (communicate_wifi_try bssid_or_ip)
    (fun e =>
       logging ERROR ("Wi-Fi ping error: " +:+ exn_msg e) ;;
       ret None).

(** The first loop of [auto_communicate]; [bt_results] is the list built
    so far. *)
Fixpoint bt_loop (bt_classic : list BtRecord) (bt_results : list BtComm)
  : M (list BtComm) :=
  match bt_classic with
  | [] => ret bt_results
  | device :: rest =>
      let! result := communicate_bluetooth (bAddress device) in
      match result with
      | Some r => bt_loop rest (bt_results ++ [r])
      | None => bt_loop rest bt_results
      end
  end.

(** The second loop of [auto_communicate]. *)
Fixpoint wifi_loop (wifi_list : list WiFiRecord) (wifi_results : list WifiComm)
  : M (list WifiComm) :=
  match wifi_list with
  | [] => ret wifi_results
  | ap :: rest =>
      if negb (String.eqb (wBSSID ap) "") then
        let! result := communicate_wifi (wBSSID ap) in
        match result with
        | Some r => wifi_loop rest (wifi_results ++ [r])
        | None => wifi_loop rest wifi_results
        end
      else wifi_loop rest wifi_results
  end.

(** The Bluetooth half of [auto_communicate]: loop, then persist. *)
Definition bt_comm_phase (bt_classic : list BtRecord) : M unit :=
  let! bt_results := bt_loop bt_classic [] in
  write_json (PList (map btcomm_to_py bt_results)) "comm_logs" "bt_comm".

(** The Wi-Fi half of [auto_communicate]. *)
Definition wifi_comm_phase (wifi_list : list WiFiRecord) : M unit :=
  let! wifi_results := wifi_loop wifi_list [] in
  write_json (PList (map wificomm_to_py wifi_results)) "comm_logs" "wifi_comm".

Definition auto_communicate (bt_classic : list BtRecord)
    (wifi_list : list WiFiRecord) : M unit :=
  bt_comm_phase bt_classic ;;
  wifi_comm_phase wifi_list.

(** [for i, x in enumerate(l): print(f"{i+1}. {a(x)} - {b(x)}")] *)
Fixpoint print_menu {A} (a b : A -> string) (i : nat) (l : list A) : M unit :=
  match l with
  | [] => ret tt
  | x :: r =>
      print (str_of_Z (Z.of_nat i + 1) +:+ ". " +:+ a x +:+ " - " +:+ b x) ;;
      print_menu a b (S i) r
  end.

Definition input (prompt : string) : M string :=
  ask (Some (EvInput prompt)) (fun t => stdin_input E t prompt).

Definition interactive_terminal (bt_classic : list BtRecord)
    (wifi_list : list WiFiRecord) : M unit :=
  print (String "010" "[MANUAL CONTROL]") ;;
  print "1. Talk to Bluetooth Device" ;;
  print "2. Ping Wi-Fi BSSID/IP" ;;
  print "3. Exit" ;;
  let! choice := input ">> Choose: " in
  if String.eqb choice "1" then
    print_menu bName bAddress 0 bt_classic ;;
    let! s := input "Select device #: " in
    let! n := (of_result (py_int s)) in
    let sel := (n - 1)%Z in
    let! dev := (of_result (py_index bt_classic sel)) in
    communicate_bluetooth (bAddress dev) ;;
    ret tt
  else if String.eqb choice "2" then
    print_menu wSSID wBSSID 0 wifi_list ;;
    let! s := input "Select Wi-Fi #: " in
    let! n := (of_result (py_int s)) in
    let sel := (n - 1)%Z in
    let! net := (of_result (py_index wifi_list sel)) in
    communicate_wifi (wBSSID net) ;;
    ret tt
  else
    print "Exiting manual mode.".

Definition scan_and_communicate (interactive : bool) : M unit :=
  logging INFO "Starting full scan & communication cycle" ;;
  let! wifi_list := scan_wifi in
  let! bt_classic := scan_bluetooth_classic in
  scan_bluetooth_ble ;;
  auto_communicate bt_classic wifi_list ;;
  if interactive then interactive_terminal bt_classic wifi_list else ret tt.

(** *** The [schedule] module, as far as the program uses it

    [every(n).hours.do(f)] appends a job that is due one period from now.
    [run_pending()] collects the jobs that are due, sorts them by due time
    and runs them in that order; after each run the job is due one period
    from the moment the run ended. *)

Definition run_job_func (f : job_func) : M unit :=
  match f with
  | JobScanAndCommunicate => scan_and_communicate false
  end.

Definition schedule_every_hours_do (n : nat) (f : job_func) : M unit :=
  fun w =>
    (Ok tt, set_jobs (jobs w ++ [mkJob (n * 3600) (clock w + n * 3600) f]) w).

Fixpoint insert_by_due (x : nat * Job) (l : list (nat * Job)) : list (nat * Job) :=
  match l with
  | [] => [x]
  | y :: r =>
      if (next_run (snd y) <=? next_run (snd x))%nat then y :: insert_by_due x r
      else x :: y :: r
  end.

Fixpoint sort_by_due (l : list (nat * Job)) : list (nat * Job) :=
  match l with
  | [] => []
  | x :: r => insert_by_due x (sort_by_due r)
  end.

Fixpoint enumerate_from {A} (i : nat) (l : list A) : list (nat * A) :=
  match l with
  | [] => []
  | x :: r => (i, x) :: enumerate_from (S i) r
  end.

(** The due jobs, with their positions in the job list, sorted. *)
Definition runnable_jobs (w : World) : list (nat * Job) :=
  sort_by_due
    (List.filter (fun ij : nat * Job => (next_run (snd ij) <=? clock w)%nat)
            (enumerate_from 0 (jobs w))).

Definition reschedule (i : nat) : M unit :=
  fun w =>
    (Ok tt,
     set_jobs
       (match jobs w !! i with
        | Some j => <[i := mkJob (period j) (clock w + period j) (job_fn j)]> (jobs w)
        | None => jobs w
        end) w).

Fixpoint run_jobs (l : list (nat * Job)) : M unit :=
  match l with
  | [] => ret tt
  | (i, j) :: r => run_job_func (job_fn j) ;; reschedule i ;; run_jobs r
  end.

Definition run_pending : M unit :=
  fun w => run_jobs (runnable_jobs w) w.

(** [n] rounds of the body of [while True]. *)
Fixpoint poll_loop (n : nat) : M unit :=
  match n with
  | O => ret tt
  | S n' => run_pending ;; sleep 1 ;; poll_loop n'
  end.

(** [hourly_scheduler()] never returns; [hourly_scheduler n] is its run up
    to the end of the [n]-th round of the loop. *)
Definition hourly_scheduler (n : nat) : M unit :=
  schedule_every_hours_do 1 JobScanAndCommunicate ;;
  logging INFO "Hourly auto-scan running. Ctrl+C to stop." ;;
  poll_loop n.

Definition usage : string :=
  String "010"
   ("Linux Device Communicator v2" +:+ String "010"
   ("Usage:" +:+ String "010"
   ("  python3 device_comm_full.py --once      # Run one scan and try to communicate" +:+ String "010"
   ("  python3 device_comm_full.py --manual    # Run + manual target selection" +:+ String "010"
   ("  python3 device_comm_full.py --hourly    # Continuous scanning every hour" +:+ String "010"
   ("  Output: ~/.scanner_logs + debug.log" +:+ String "010"
    "        ")))))).

Definition in_argv (flag : string) (argv : list string) : bool :=
  existsb (String.eqb flag) argv.

Definition main (argv : list string) (rounds : nat) : M unit :=
  if in_argv "--once" argv then scan_and_communicate false
  else if in_argv "--manual" argv then scan_and_communicate true
  else if in_argv "--hourly" argv then hourly_scheduler rounds
  else print usage.

End Program.

(** ** [json.load]: reading a file back

    The decoder of the [json] module on the texts above: the pure-Python
    scanner with its default settings, restricted to the values of
    [pyval].  [None] stands for every input the decoder rejects, and for
    the values outside [pyval] (floats, characters above 255). *)

Definition is_json_ws (c : ascii) : bool :=
  orb (orb (Ascii.eqb c " ") (Ascii.eqb c "009"))
      (orb (Ascii.eqb c "010") (Ascii.eqb c "013")).

Fixpoint skip_ws (s : string) : string :=
  match s with
  | String c s' => if is_json_ws c then skip_ws s' else s
  | EmptyString => EmptyString
  end.

Definition hex_val (c : ascii) : option nat :=
  let n := nat_of_ascii c in
  if (andb (48 <=? n) (n <=? 57))%nat then Some (n - 48)
  else if (andb (97 <=? n) (n <=? 102))%nat then Some (n - 87)
  else if (andb (65 <=? n) (n <=? 70))%nat then Some (n - 55)
  else None.

Definition hex4 (a b c d : ascii) : option nat :=
  match hex_val a, hex_val b, hex_val c, hex_val d with
  | Some x, Some y, Some z, Some t => Some (((x * 16 + y) * 16 + z) * 16 + t)
  | _, _, _, _ => None
  end.

(** The character a backslash escape other than [\u] stands for. *)
Definition unescape (c : ascii) : option ascii :=
  if Ascii.eqb c dquote then Some dquote
  else if Ascii.eqb c "\" then Some "\"%char
  else if Ascii.eqb c "/" then Some "/"%char
  else if Ascii.eqb c "b" then Some "008"%char
  else if Ascii.eqb c "f" then Some "012"%char
  else if Ascii.eqb c "n" then Some "010"%char
  else if Ascii.eqb c "r" then Some "013"%char
  else if Ascii.eqb c "t" then Some "009"%char
  else None.

Definition cons_fst (c : ascii) (r : option (string * string))
  : option (string * string) :=
  match r with
  | Some (s, rest) => Some (String c s, rest)
  | None => None
  end.

(** [scanstring]: the text after an opening quote, up to the closing one. *)
Fixpoint scanstring (s : string) : option (string * string) :=
  match s with
  | EmptyString => None
  | String c r =>
      if Ascii.eqb c dquote then Some (EmptyString, r)
      else if Ascii.eqb c "\" then
        match r with
        | String e r' =>
            if Ascii.eqb e "u" then
              match r' with
              | String h1 (String h2 (String h3 (String h4 r''))) =>
                  match hex4 h1 h2 h3 h4 with
                  | Some n =>
                      if (n <? 256)%nat then cons_fst (ascii_of_nat n) (scanstring r'')
                      else None
                  | None => None
                  end
              | _ => None
              end
            else
              match unescape e with
              | Some ch => cons_fst ch (scanstring r')
              | None => None
              end
        | EmptyString => None
        end
      else if (nat_of_ascii c <? 32)%nat then None
      else cons_fst c (scanstring r)
  end.

(** The longest prefix of digits, and what follows it. *)
Fixpoint span_digits (s : string) : string * string :=
  match s with
  | String c r =>
      if is_digit c then let (d, rest) := span_digits r in (String c d, rest)
      else (EmptyString, s)
  | EmptyString => (EmptyString, EmptyString)
  end.

(** What follows the integer part decides between [int] and [float]. *)
Definition float_follows (s : string) : bool :=
  match s with
  | String c _ => orb (Ascii.eqb c ".") (orb (Ascii.eqb c "e") (Ascii.eqb c "E"))
  | EmptyString => false
  end.

(** The integer part of a number: [0] or a digit from 1 to 9 and more
    digits. *)
Definition scan_uint (s : string) : option (Decimal.uint * string) :=
  match s with
  | String "0" r => Some (Decimal.D0 Decimal.Nil, r)
  | String c _ =>
      if is_digit c then
        let (ds, rest) := span_digits s in
        match NilEmpty.uint_of_string ds with
        | Some d => Some (d, rest)
        | None => None
        end
      else None
  | EmptyString => None
  end.

Definition scan_number (s : string) : option (Z * string) :=
  let signed (neg : bool) (t : string) :=
    match scan_uint t with
    | Some (d, rest) =>
        if float_follows rest then None
        else Some (if neg then Z.of_int (Decimal.Neg d)
                   else Z.of_int (Decimal.Pos d), rest)
    | None => None
    end in
  match s with
  | String "-" t => signed true t
  | _ => signed false s
  end.

(** [d[k] = v] on an insertion-ordered dictionary. *)
Fixpoint dict_set (k : string) (v : pyval) (d : list (string * pyval))
  : list (string * pyval) :=
  match d with
  | [] => [(k, v)]
  | (k', v') :: r =>
      if String.eqb k' k then (k', v) :: r else (k', v') :: dict_set k v r
  end.

(** [dict(pairs)] *)
Definition dict_of_pairs (pairs : list (string * pyval)) : list (string * pyval) :=
  fold_left (fun d kv => dict_set (fst kv) (snd kv) d) pairs [].

(** [s] without the prefix [p], when it starts with [p]. *)
Fixpoint strip_prefix (p s : string) : option string :=
  match p with
  | EmptyString => Some s
  | String a p' =>
      match s with
      | String b s' => if Ascii.eqb a b then strip_prefix p' s' else None
      | EmptyString => None
      end
  end.

(** [scan_once] with the array and object loops; [fuel] bounds the number
    of nested calls. *)
Fixpoint scan_once (fuel : nat) (s : string) {struct fuel}
  : option (pyval * string) :=
  match fuel with
  | O => None
  | S f =>
      match s with
      | EmptyString => None
      | String c r =>
          if Ascii.eqb c dquote then
            match scanstring r with
            | Some (str, rest) => Some (PStr str, rest)
            | None => None
            end
          else if Ascii.eqb c "{" then
            match skip_ws r with
            | String c' r' =>
                if Ascii.eqb c' "}" then Some (PDict [], r')
                else
                  match scan_members f (String c' r') with
                  | Some (pairs, rest) => Some (PDict (dict_of_pairs pairs), rest)
                  | None => None
                  end
            | EmptyString => None
            end
          else if Ascii.eqb c "[" then
            match skip_ws r with
            | String c' r' =>
                if Ascii.eqb c' "]" then Some (PList [], r')
                else
                  match scan_items f (String c' r') with
                  | Some (vs, rest) => Some (PList vs, rest)
                  | None => None
                  end
            | EmptyString => None
            end
          else
            match strip_prefix "null" s with
            | Some rest => Some (PNone, rest)
            | None =>
                match strip_prefix "true" s with
                | Some rest => Some (PBool true, rest)
                | None =>
                    match strip_prefix "false" s with
                    | Some rest => Some (PBool false, rest)
                    | None =>
                        match scan_number s with
                        | Some (z, rest) => Some (PInt z, rest)
                        | None => None
                        end
                    end
                end
            end
      end
  end

with scan_items (fuel : nat) (s : string) {struct fuel}
  : option (list pyval * string) :=
  match fuel with
  | O => None
  | S f =>
      match scan_once f s with
      | Some (v, rest) =>
          match skip_ws rest with
          | String c r =>
              if Ascii.eqb c "]" then Some ([v], r)
              else if Ascii.eqb c "," then
                match scan_items f (skip_ws r) with
                | Some (vs, rest') => Some (v :: vs, rest')
                | None => None
                end
              else None
          | EmptyString => None
          end
      | None => None
      end
  end

with scan_members (fuel : nat) (s : string) {struct fuel}
  : option (list (string * pyval) * string) :=
  match fuel with
  | O => None
  | S f =>
      match s with
      | String q r =>
          if Ascii.eqb q dquote then
            match scanstring r with
            | Some (key, rest) =>
                match skip_ws rest with
                | String c r1 =>
                    if Ascii.eqb c ":" then
                      match scan_once f (skip_ws r1) with
                      | Some (v, rest1) =>
                          match skip_ws rest1 with
                          | String c' r2 =>
                              if Ascii.eqb c' "}" then Some ([(key, v)], r2)
                              else if Ascii.eqb c' "," then
                                match scan_members f (skip_ws r2) with
                                | Some (ps, rest2) => Some ((key, v) :: ps, rest2)
                                | None => None
                                end
                              else None
                          | EmptyString => None
                          end
                      | None => None
                      end
                    else None
                | EmptyString => None
                end
            | None => None
            end
          else None
      | EmptyString => None
      end
  end.

(** [json.loads(s)]: one value, surrounded by white space only. *)
Definition loads (s : string) : option pyval :=
  match scan_once (S (String.length s)) (skip_ws s) with
  | Some (v, rest) =>
      match skip_ws rest with
      | EmptyString => Some v
      | _ => None
      end
  | None => None
  end.

(** Nested calls the decoder makes to read a value back. *)
Fixpoint need (v : pyval) : nat :=
  match v with
  | PList l =>
      S ((fix go (l : list pyval) : nat :=
            match l with [] => 0 | x :: r => S (need x + go r) end) l)
  | PDict l =>
      S ((fix go (l : list (string * pyval)) : nat :=
            match l with [] => 0 | (_, x) :: r => S (need x + go r) end) l)
  | _ => 1
  end.

(** Dictionaries have pairwise distinct keys. *)
Fixpoint wf_pyval (v : pyval) : Prop :=
  match v with
  | PList l =>
      (fix all (l : list pyval) : Prop :=
         match l with [] => True | x :: r => wf_pyval x /\ all r end) l
  | PDict l =>
      List.NoDup (map fst l) /\
      (fix all (l : list (string * pyval)) : Prop :=
         match l with [] => True | (_, x) :: r => wf_pyval x /\ all r end) l
  | _ => True
  end.

(** ** Observations on a world *)

Definition cycle_banner : string := "Starting full scan & communication cycle".

Definition is_cycle_start (entry : level * string) : bool :=
  match entry with
  | (INFO, m) => String.eqb m cycle_banner
  | _ => false
  end.

(** How many scan-and-communicate cycles the log shows as started. *)
Definition cycles_started (w : World) : nat :=
  length (List.filter is_cycle_start (log w)).

(** The targets of the [ping -c 2] processes among some events. *)
Fixpoint ping_targets (evs : list event) : list string :=
  match evs with
  | [] => []
  | EvSubprocess ["ping"; "-c"; "2"; t] :: r => t :: ping_targets r
  | _ :: r => ping_targets r
  end.

Definition is_bt_discover (ev : event) : bool :=
  match ev with EvBtDiscover | EvBleDiscover => true | _ => false end.

(** ** Sample environments and worlds *)

Definition world0 : World := mkWorld 0 0 ∅ [] [] [] [].

(** A host on which every call succeeds and nothing is in range. *)
Definition calm_env : Env :=
  mkEnv "/home/user/.scanner_logs"
        (fun _ => "2024-05-06T07:08:09.123456")
        (fun _ _ => None) (fun _ _ => None) (fun _ _ _ => None)
        (fun _ => Ok ["wlan0"]) (fun _ _ => None) (fun _ _ => Ok [])
        (fun _ => Ok []) (fun _ => Ok [])
        (fun _ => None) (fun _ _ _ => None) (fun _ _ _ => None)
        (fun _ _ _ => Ok "ok") (fun _ _ => None)
        (fun _ _ => Ok (mkProc 1 "" "Destination Host Unreachable"))
        (fun _ _ => Ok "3").

(** Replacing one oracle of an environment. *)
Definition with_interfaces (f : nat -> result (list string)) (E : Env) : Env :=
  mkEnv (base_dir E) (utcnow_iso E) (os_makedirs E) (file_open_w E)
        (file_write E) f (iface_scan E) (iface_scan_results E)
        (bt_discover_devices E) (ble_discover E) (rfcomm_socket E)
        (rfcomm_connect E) (rfcomm_send E) (rfcomm_recv E) (rfcomm_close E)
        (subprocess_run E) (stdin_input E).

Definition with_open (f : nat -> string -> option exn) (E : Env) : Env :=
  mkEnv (base_dir E) (utcnow_iso E) (os_makedirs E) f
        (file_write E) (pywifi_interfaces E) (iface_scan E)
        (iface_scan_results E) (bt_discover_devices E) (ble_discover E)
        (rfcomm_socket E) (rfcomm_connect E) (rfcomm_send E) (rfcomm_recv E)
        (rfcomm_close E) (subprocess_run E) (stdin_input E).

Definition with_connect (f : nat -> string -> Z -> option exn) (E : Env) : Env :=
  mkEnv (base_dir E) (utcnow_iso E) (os_makedirs E) (file_open_w E)
        (file_write E) (pywifi_interfaces E) (iface_scan E)
        (iface_scan_results E) (bt_discover_devices E) (ble_discover E)
        (rfcomm_socket E) f (rfcomm_send E) (rfcomm_recv E)
        (rfcomm_close E) (subprocess_run E) (stdin_input E).

Definition with_subprocess (f : nat -> list string -> result CompletedProcess)
    (E : Env) : Env :=
  mkEnv (base_dir E) (utcnow_iso E) (os_makedirs E) (file_open_w E)
        (file_write E) (pywifi_interfaces E) (iface_scan E)
        (iface_scan_results E) (bt_discover_devices E) (ble_discover E)
        (rfcomm_socket E) (rfcomm_connect E) (rfcomm_send E) (rfcomm_recv E)
        (rfcomm_close E) f (stdin_input E).

Definition with_input (f : nat -> string -> result string) (E : Env) : Env :=
  mkEnv (base_dir E) (utcnow_iso E) (os_makedirs E) (file_open_w E)
        (file_write E) (pywifi_interfaces E) (iface_scan E)
        (iface_scan_results E) (bt_discover_devices E) (ble_discover E)
        (rfcomm_socket E) (rfcomm_connect E) (rfcomm_send E) (rfcomm_recv E)
        (rfcomm_close E) (subprocess_run E) f.

(** The same host without any Wi-Fi interface. *)
Definition no_wifi_env : Env :=
  with_interfaces (fun _ => Ok []) calm_env.

(** A host on which no file can be opened for writing. *)
Definition read_only_env : Env :=
  with_open (fun _ _ => Some (mkExn OSError "[Errno 30] Read-only file system"))
            calm_env.

(** A host whose Bluetooth peers refuse the connection. *)
Definition bt_down_env : Env :=
  with_connect (fun _ _ _ => Some (mkExn OSError "[Errno 112] Host is down"))
               calm_env.

(** A host without a [ping] program. *)
Definition no_ping_env : Env :=
  with_subprocess
    (fun _ _ => Raise (mkExn OSError "[Errno 2] No such file or directory: 'ping'"))
    calm_env.

(** The lines [print_menu] prints. *)
Fixpoint menu_lines {A} (a b : A -> string) (i : nat) (l : list A) : list string :=
  match l with
  | [] => []
  | x :: r =>
      (str_of_Z (Z.of_nat i + 1) +:+ ". " +:+ a x +:+ " - " +:+ b x)
        :: menu_lines a b (S i) r
  end.

(** The four lines of the manual-control banner. *)
Definition banner_lines : list string :=
  [String "010" "[MANUAL CONTROL]"; "1. Talk to Bluetooth Device";
   "2. Ping Wi-Fi BSSID/IP"; "3. Exit"].

(** The world in which the selected target is contacted: the banner and
    the menu are on the console, and the two prompts have been answered. *)
Definition after_selection (lines : list string) (prompt : string) (w : World)
  : World :=
  mkWorld (clock w) (S (S (tick w))) (fs w) (log w)
          (console w ++ banner_lines ++ lines)
          (trace w ++ [EvInput ">> Choose: "; EvInput prompt]) (jobs w).

(** A host whose user picks the Bluetooth menu and types [0]. *)
Definition pick_zero_env : Env :=
  with_input (fun t _ => Ok (match t with O => "1" | _ => "0" end)) calm_env.

(** A host whose user picks the Bluetooth menu and types [7]. *)
Definition pick_seven_env : Env :=
  with_input (fun t _ => Ok (match t with O => "1" | _ => "7" end)) calm_env.

Definition two_phones : list BtRecord :=
  [mkBt "00:11:22:33:44:55" "phone" "Classic" "2024-05-06T07:08:09.000001";
   mkBt "66:77:88:99:AA:BB" "watch" "Classic" "2024-05-06T07:08:09.000002"].

(** A world that already holds one scan file. *)
Definition world_with_file : World :=
  mkWorld 0 0 (<["/home/user/.scanner_logs/bt_scans/classic_x.json" := "[]"]> ∅)
          [] [] [] [].
Definition two_aps : list WiFiRecord :=
  [mkWiFi "home" "aa:bb:cc:dd:ee:ff" (-40) 2412 "2024-05-06T07:08:09.000003";
   mkWiFi "hidden" "" (-70) 5180 "2024-05-06T07:08:09.000004"].

(** Whether a character occurs in a string. *)
Fixpoint occurs (c : ascii) (s : string) : bool :=
  match s with
  | EmptyString => false
  | String a r => orb (Ascii.eqb a c) (occurs c r)
  end.

(** The file [write_json] writes when it is entered at tick [t]: the
    time stamp is read at the next tick. *)
Definition json_filename (E : Env) (subdir prefix : string) (t : nat) : string :=
  path_join (path_join (base_dir E) subdir)
            (prefix +:+ "_" +:+ replace_char ":" "-" (utcnow_iso E (S t)) +:+ ".json").

(** The line [communicate_bluetooth] prints first. *)
Definition connecting_line (addr : string) : string :=
  "[+] Connecting to " +:+ addr +:+ " via RFCOMM...".

(** The access points [auto_communicate] pings. *)
Definition has_bssid (ap : WiFiRecord) : bool :=
  negb (String.eqb (wBSSID ap) "").

(** A host on which a cycle cannot raise: a Wi-Fi interface is present
    and answers, and the log directories can be created.  (The Bluetooth
    scans and the communication helpers contain their own errors.) *)
Definition cycle_safe_env (E : Env) : Prop :=
  (forall t, exists i rest, pywifi_interfaces E t = Ok (i :: rest)) /\
  (forall t i, iface_scan E t i = None) /\
  (forall t i, exists l, iface_scan_results E t i = Ok l) /\
  (forall t path, os_makedirs E t path = None).

(** The cycles started during [n] rounds of the loop by a job that is due
    in [d] seconds and takes 5 seconds (the pause of [scan_wifi]). *)
Fixpoint due_runs (n d : nat) : nat :=
  match n with
  | O => 0
  | S n' =>
      match d with
      | O => S (due_runs n' 3599)
      | S d' => due_runs n' d'
      end
  end.

(** ** Notions the proofs use *)

(** [keeps proj m]: running [m] never changes the [proj] part of the world,
    whether it returns or raises. *)
Definition keeps {A X} (proj : World -> X) (m : M A) : Prop :=
  forall w, proj (snd (m w)) = proj w.

(** [returns P m]: [m] never raises, and its result satisfies [P]. *)
Definition returns {A} (P : A -> Prop) (m : M A) : Prop :=
  forall w, exists a w', m w = (Ok a, w') /\ P a.

(** [clock_adds n m]: when [m] returns, [n] seconds have passed. *)
Definition clock_adds {A} (n : nat) (m : M A) : Prop :=
  forall w a w', m w = (Ok a, w') -> clock w' = clock w + n.

(** [quiet m]: [m] leaves the clock, the jobs and the count of started
    cycles as they are. *)
Definition quiet {A} (m : M A) : Prop :=
  keeps clock m /\ keeps jobs m /\ keeps cycles_started m.

(** What may follow a number for it to be read as this integer. *)
Definition ends_number (rest : string) : Prop :=
  match rest with
  | EmptyString => True
  | String c _ => is_digit c = false /\ float_follows rest = false
  end.

(** A character a value can start with: neither white space nor a
    closing bracket. *)
Definition opens_value (c : ascii) : Prop :=
  is_json_ws c = false /\ Ascii.eqb c "]" = false.

(** The first character of a number. *)
Definition opens_number (c : ascii) : Prop :=
  is_digit c = true \/ c = "-"%char.

(** The nested parts of [need] and [dumps_at], by name. *)
Fixpoint need_items (l : list pyval) : nat :=
  match l with [] => 0 | x :: r => S (need x + need_items r) end.

Fixpoint need_members (l : list (string * pyval)) : nat :=
  match l with [] => 0 | kv :: r => S (need (snd kv) + need_members r) end.

Definition dump_member (lvl : nat) (kv : string * pyval) : string :=
  encode_string (fst kv) +:+ ": " +:+ dumps_at lvl (snd kv).

(** A value reads back from its text, whatever text follows it, with
    any fuel from [need] on. *)
Definition reads_back (v : pyval) : Prop :=
  wf_pyval v ->
  forall lvl fuel rest,
    need v <= fuel -> ends_number rest ->
    scan_once fuel (dumps_at lvl v +:+ rest) = Some (v, rest).

(** The records a scan builds from what was discovered: one per item, in
    order, each stamped with the time read at the next tick. *)
Fixpoint stamp_all {A B} (E : Env) (mk : A -> string -> B) (l : list A) (t : nat)
  : list B :=
  match l with
  | [] => []
  | x :: r => mk x (utcnow_iso E t) :: stamp_all E mk r (S t)
  end.

(** The world after [n] readings of the clock and nothing else. *)
Definition after_ticks (n : nat) (w : World) : World :=
  mkWorld (clock w) (tick w + n) (fs w) (log w) (console w) (trace w) (jobs w).

(** The prompts shown to the user so far. *)
Definition is_input (ev : event) : bool :=
  match ev with EvInput _ => true | _ => false end.

Definition prompts (w : World) : list event := List.filter is_input (trace w).

(** The name a BLE record gets: [d.name or "Unknown"]. *)
Definition ble_name (d : BLEDevice) : string :=
  match name d with
  | Some n => if String.eqb n "" then "Unknown" else n
  | None => "Unknown"
  end.

Definition with_makedirs (f : nat -> string -> option exn) (E : Env) : Env :=
  mkEnv (base_dir E) (utcnow_iso E) f (file_open_w E)
        (file_write E) (pywifi_interfaces E) (iface_scan E)
        (iface_scan_results E) (bt_discover_devices E) (ble_discover E)
        (rfcomm_socket E) (rfcomm_connect E) (rfcomm_send E) (rfcomm_recv E)
        (rfcomm_close E) (subprocess_run E) (stdin_input E).

Definition with_scan_results (f : nat -> string -> result (list Profile))
    (E : Env) : Env :=
  mkEnv (base_dir E) (utcnow_iso E) (os_makedirs E) (file_open_w E)
        (file_write E) (pywifi_interfaces E) (iface_scan E)
        f (bt_discover_devices E) (ble_discover E)
        (rfcomm_socket E) (rfcomm_connect E) (rfcomm_send E) (rfcomm_recv E)
        (rfcomm_close E) (subprocess_run E) (stdin_input E).

Definition with_bt_discover (f : nat -> result (list (string * string)))
    (E : Env) : Env :=
  mkEnv (base_dir E) (utcnow_iso E) (os_makedirs E) (file_open_w E)
        (file_write E) (pywifi_interfaces E) (iface_scan E)
        (iface_scan_results E) f (ble_discover E)
        (rfcomm_socket E) (rfcomm_connect E) (rfcomm_send E) (rfcomm_recv E)
        (rfcomm_close E) (subprocess_run E) (stdin_input E).

Definition with_ble_discover (f : nat -> result (list BLEDevice)) (E : Env) : Env :=
  mkEnv (base_dir E) (utcnow_iso E) (os_makedirs E) (file_open_w E)
        (file_write E) (pywifi_interfaces E) (iface_scan E)
        (iface_scan_results E) (bt_discover_devices E) f
        (rfcomm_socket E) (rfcomm_connect E) (rfcomm_send E) (rfcomm_recv E)
        (rfcomm_close E) (subprocess_run E) (stdin_input E).

Definition with_recv (f : nat -> string -> Z -> result string) (E : Env) : Env :=
  mkEnv (base_dir E) (utcnow_iso E) (os_makedirs E) (file_open_w E)
        (file_write E) (pywifi_interfaces E) (iface_scan E)
        (iface_scan_results E) (bt_discover_devices E) (ble_discover E)
        (rfcomm_socket E) (rfcomm_connect E) (rfcomm_send E) f
        (rfcomm_close E) (subprocess_run E) (stdin_input E).

(** A host whose Bluetooth adapter is switched off. *)
Definition bt_off_env : Env :=
  with_ble_discover (fun _ => Raise (mkExn OSError "Bluetooth adapter is off"))
    (with_bt_discover (fun _ => Raise (mkExn OSError "No such device")) calm_env).

(** A host that sees two phones and two BLE beacons, one without a name. *)
Definition busy_env : Env :=
  with_ble_discover
    (fun _ => Ok [mkBLE "C0:00:00:00:00:01" (Some "tag") (-60);
                  mkBLE "C0:00:00:00:00:02" None (-80)])
    (with_bt_discover
       (fun _ => Ok [("00:11:22:33:44:55", "phone"); ("66:77:88:99:AA:BB", "watch")])
       (with_scan_results
          (fun _ _ => Ok [mkProfile "home" "aa:bb:cc:dd:ee:ff" (-40) 2412;
                          mkProfile "hidden" "" (-70) 5180])
          calm_env)).

(** A host on which the log directories cannot be created. *)
Definition no_dirs_env (E : Env) : Env :=
  with_makedirs (fun _ _ => Some (mkExn OSError "[Errno 13] Permission denied")) E.

(** A host whose Bluetooth peers accept the connection and then stay
    silent until the read fails. *)
Definition silent_peer_env : Env :=
  with_recv (fun _ _ _ => Raise (mkExn OSError "[Errno 110] Connection timed out"))
            calm_env.

(** The sockets closed so far. *)
Definition is_close (ev : event) : bool :=
  match ev with EvRfcommClose _ => true | _ => false end.

Definition closes (w : World) : list event := List.filter is_close (trace w).

(** The text [communicate_bluetooth] sends, and what it records as sent. *)
Definition greeting : string :=
  String.append "Hello Bluetooth Device!" (String "010" "").

(** The targets pinged so far. *)
Definition pings (w : World) : list string := ping_targets (trace w).

(** A host whose user picks the Bluetooth menu and types letters. *)
Definition pick_letters_env : Env :=
  with_input (fun t _ => Ok (match t with O => "1" | _ => "two" end)) calm_env.

(** A host whose user picks the Bluetooth menu and types [2]. *)
Definition pick_two_env : Env :=
  with_input (fun t _ => Ok (match t with O => "1" | _ => "2" end)) calm_env.

(** * Properties *)

Open Scope list_scope.

(** String concatenation computes on a known first argument. *)
#[local] Arguments String.append !s1 s2 : simpl nomatch.

(** ** Reasoning about runs *)

Lemma bind_ok {A B} (m : M A) (k : A -> M B) w a w' :
  m w = (Ok a, w') -> bind m k w = k a w'.
Proof. intros H. unfold bind. now rewrite H. Qed.

Lemma bind_raise {A B} (m : M A) (k : A -> M B) w e w' :
  m w = (Raise e, w') -> bind m k w = (Raise e, w').
Proof. intros H. unfold bind. now rewrite H. Qed.

Lemma try_ok {A} (m : M A) h w a w' :
  m w = (Ok a, w') -> try_except m h w = (Ok a, w').
Proof. intros H. unfold try_except. now rewrite H. Qed.

Lemma try_raise {A} (m : M A) h w e w' :
  m w = (Raise e, w') -> try_except m h w = h e w'.
Proof. intros H. unfold try_except. now rewrite H. Qed.

(** Unfolds the operations of the monad and the projections of the world. *)
Ltac run :=
  repeat (cbn [bind ret raise try_except ask logging print sleep of_result
               lift_opt timestamp input fst snd
               clock tick fs log console trace jobs
               set_clock set_tick set_fs set_log set_console set_trace set_jobs] in *;
          unfold bind, ret, raise, try_except, ask, logging, print, sleep,
                 of_result, timestamp, input in *).

(** ** C5: the Wi-Fi ping and its status *)

(** C5. A Wi-Fi communication attempt starts one external process,
    [ping -c 2 target] (two echo requests); whenever that process ends
    with an exit status, the attempt returns a record for the target
    whose status is "unreachable" exactly when the exit status is not
    zero, and "reachable" exactly when it is zero. *)
Theorem communicate_wifi_status (E : Env) (target : string) (w : World)
    (p : CompletedProcess) :
  subprocess_run E (tick w) ["ping"; "-c"; "2"; target] = Ok p ->
  exists r w',
    communicate_wifi E target w = (Ok (Some r), w') /\
    trace w' = trace w ++ [EvSubprocess ["ping"; "-c"; "2"; target]] /\
    pTarget r = target /\
    (pStatus r = "unreachable" <-> returncode p <> 0%Z) /\
    (pStatus r = "reachable" <-> returncode p = 0%Z).
Proof.
  intros Hp.
  unfold communicate_wifi, communicate_wifi_try, ping_argv. run.
  rewrite Hp. cbn.
  eexists _, _. split; [reflexivity|]. cbn.
  rewrite app_nil_r. split; [reflexivity|]. split; [reflexivity|].
  destruct (Z.eqb_spec (returncode p) 0) as [H0|H0]; split; split;
    intros; try easy.
Qed.

Lemma communicate_wifi_status_witness :
  exists r w',
    communicate_wifi calm_env "aa:bb:cc:dd:ee:ff" world0 = (Ok (Some r), w') /\
    pStatus r = "unreachable".
Proof.
  destruct (communicate_wifi_status calm_env "aa:bb:cc:dd:ee:ff" world0
              (mkProc 1 "" "Destination Host Unreachable") eq_refl)
    as (r & w' & Hrun & _ & _ & Hun & _).
  exists r, w'. split; [exact Hrun|]. apply Hun. cbn. lia.
Defined.

(** ** The definitions on small inputs *)

Example path_join_plain :
  path_join "/home/user/.scanner_logs" "wifi_scans"
  = "/home/user/.scanner_logs/wifi_scans".
Proof. reflexivity. Qed.

Example path_join_absolute : path_join "/home/user/.scanner_logs" "/tmp" = "/tmp".
Proof. reflexivity. Qed.

Example replace_char_stamp :
  replace_char ":" "-" "2024-05-06T07:08:09.123456" = "2024-05-06T07-08-09.123456".
Proof. reflexivity. Qed.

Example strip_response : strip (String "009" " ok  ") = "ok".
Proof. reflexivity. Qed.

Example py_index_first : py_index [10; 20; 30]%Z 0 = Ok 10%Z.
Proof. reflexivity. Qed.

Example py_index_last : py_index [10; 20; 30]%Z (-1) = Ok 30%Z.
Proof. reflexivity. Qed.

Example py_index_too_low :
  py_index [10; 20; 30]%Z (-4) = Raise (mkExn IndexError "list index out of range").
Proof. reflexivity. Qed.

Example py_index_too_high :
  py_index [10; 20; 30]%Z 3 = Raise (mkExn IndexError "list index out of range").
Proof. reflexivity. Qed.

Example py_int_spaces_sign : py_int " -1_2 " = Ok (-12)%Z.
Proof. reflexivity. Qed.

Example py_int_letters :
  py_int "two" = Raise (mkExn ValueError "invalid literal for int() with base 10: 'two'").
Proof. reflexivity. Qed.

Example dumps_empty_list : dumps (PList []) = "[]".
Proof. reflexivity. Qed.

Example dumps_numbers :
  dumps (PList [PInt 40; PInt (-7); PNone]) = "[
    40,
    -7,
    null
]".
Proof. reflexivity. Qed.

Example dumps_control_character :
  dumps (PStr (String "007" "a")) = String dquote ("\u0007a" +:+ String dquote "").
Proof. reflexivity. Qed.

Example loads_spread_out :
  loads " [1 , [true, null] ]" = Some (PList [PInt 1; PList [PBool true; PNone]]).
Proof. reflexivity. Qed.

Example loads_trailing_comma : loads "[1,]" = None.
Proof. reflexivity. Qed.

Example loads_leading_zero : loads "01" = None.
Proof. reflexivity. Qed.

Example loads_records :
  loads (dumps (PList (map wifi_to_py two_aps))) = Some (PList (map wifi_to_py two_aps)).
Proof. vm_compute. reflexivity. Qed.

Example one_cycle_on_a_calm_host :
  let (r, w) := scan_and_communicate calm_env false world0 in
  r = Ok tt /\ clock w = 5 /\ cycles_started w = 1 /\ List.length (trace w) = 14.
Proof. vm_compute. repeat split. Qed.

(** ** What a computation leaves untouched *)

Lemma keeps_bind {A B X} (proj : World -> X) (m : M A) (k : A -> M B) :
  keeps proj m -> (forall a, keeps proj (k a)) -> keeps proj (bind m k).
Proof.
  intros Hm Hk w. unfold bind. specialize (Hm w).
  destruct (m w) as [[a|e] w1]; cbn in *; [|exact Hm].
  now rewrite Hk.
Qed.

Lemma keeps_try {A X} (proj : World -> X) (m : M A) (h : exn -> M A) :
  keeps proj m -> (forall e, keeps proj (h e)) -> keeps proj (try_except m h).
Proof.
  intros Hm Hh w. unfold try_except. specialize (Hm w).
  destruct (m w) as [[a|e] w1]; cbn in *; [exact Hm|].
  now rewrite Hh.
Qed.

Lemma keeps_mapM {A B X} (proj : World -> X) (f : A -> M B) (l : list A) :
  (forall a, keeps proj (f a)) -> keeps proj (mapM f l).
Proof.
  intros Hf. induction l as [|x r IH]; cbn.
  - now intros w.
  - apply keeps_bind; [apply Hf|intros y].
    apply keeps_bind; [exact IH|intros ys]. now intros w.
Qed.

Create HintDb keeps discriminated.

(** Splits a computation along its binds and handlers; the primitives are
    settled by unfolding them. *)
Ltac keeps_tac :=
  repeat match goal with
         | |- keeps _ (bind _ _) => apply keeps_bind; [|intros ?; cbv beta]
         | |- keeps _ (try_except _ _) => apply keeps_try; [|intros ?; cbv beta]
         | |- keeps _ (mapM _ _) => apply keeps_mapM; intros ?; cbv beta
         | |- keeps _ (let _ := _ in _) => cbv zeta
         | |- keeps _ _ => solve [intros ?; reflexivity | auto with keeps]
         end.

Lemma keeps_fs_communicate_bluetooth E addr :
  keeps fs (communicate_bluetooth E addr).
Proof.
  unfold communicate_bluetooth, communicate_bluetooth_try, timestamp.
  keeps_tac.
Qed.

Lemma keeps_fs_communicate_wifi E target :
  keeps fs (communicate_wifi E target).
Proof.
  unfold communicate_wifi, communicate_wifi_try, timestamp.
  keeps_tac.
Qed.

Lemma print_menu_run {A} (a b : A -> string) (l : list A) i w :
  print_menu a b i l w = (Ok tt, set_console (console w ++ menu_lines a b i l) w).
Proof.
  revert i w. induction l as [|x r IH]; intros i w; cbn.
  - unfold ret, set_console. rewrite app_nil_r. now destruct w.
  - unfold bind, print. cbn. rewrite IH.
    unfold set_console; cbn. now rewrite <- app_assoc.
Qed.

Lemma keeps_fs_print_menu {A} (a b : A -> string) i (l : list A) :
  keeps fs (print_menu a b i l).
Proof. intros w. now rewrite print_menu_run. Qed.

#[export] Hint Resolve keeps_fs_communicate_bluetooth
  keeps_fs_communicate_wifi keeps_fs_print_menu : keeps.

Lemma keeps_fs_interactive_terminal E bt wifi :
  keeps fs (interactive_terminal E bt wifi).
Proof.
  unfold interactive_terminal, input.
  do 5 (apply keeps_bind; [keeps_tac|intros ?]).
  match goal with |- context [String.eqb ?x "1"] =>
    destruct (String.eqb x "1"); [keeps_tac|];
    destruct (String.eqb x "2"); keeps_tac
  end.
Qed.

(** ** Python indexing *)

Lemma py_index_out_of_range {A} (l : list A) (i : Z) :
  (i < - Z.of_nat (length l) \/ Z.of_nat (length l) <= i)%Z ->
  py_index l i = Raise (mkExn IndexError "list index out of range").
Proof.
  intros H. unfold py_index.
  destruct (Z.ltb_spec i 0) as [Hi|Hi].
  - destruct (Z.ltb_spec (i + Z.of_nat (length l)) 0) as [Hj|Hj]; [reflexivity|].
    lia.
  - destruct (Z.ltb_spec i 0); [lia|].
    destruct (nth_error l (Z.to_nat i)) eqn:Hn; [|reflexivity].
    assert (Z.to_nat i < length l)%nat by (apply nth_error_Some; congruence).
    lia.
Qed.

Lemma py_index_negative {A} (l : list A) (i : Z) :
  (- Z.of_nat (length l) <= i < 0)%Z ->
  exists x, py_index l i = Ok x /\
            nth_error l (Z.to_nat (Z.of_nat (length l) + i)) = Some x.
Proof.
  intros H. unfold py_index.
  destruct (Z.ltb_spec i 0) as [Hi|Hi]; [|lia].
  destruct (Z.ltb_spec (i + Z.of_nat (length l)) 0) as [Hj|Hj]; [lia|].
  replace (Z.of_nat (length l) + i)%Z with (i + Z.of_nat (length l))%Z by lia.
  destruct (nth_error l (Z.to_nat (i + Z.of_nat (length l)))) eqn:Hn.
  - now exists a.
  - apply nth_error_None in Hn. lia.
Qed.

Lemma nth_error_last {A} (l : list A) (x d : A) :
  nth_error l (Nat.pred (length l)) = Some x -> List.last l d = x.
Proof.
  induction l as [|a r IH]; cbn; [discriminate|].
  destruct r as [|b r']; cbn in *; [congruence|]. exact IH.
Qed.

Lemma communicate_bluetooth_returns E addr w :
  exists o w', communicate_bluetooth E addr w = (Ok o, w').
Proof.
  unfold communicate_bluetooth, try_except.
  destruct (communicate_bluetooth_try E addr w) as [[o|e] w1];
    cbn; eauto.
Qed.

Lemma communicate_wifi_returns E target w :
  exists o w', communicate_wifi E target w = (Ok o, w').
Proof.
  unfold communicate_wifi, try_except.
  destruct (communicate_wifi_try E target w) as [[o|e] w1];
    cbn; eauto.
Qed.

(** The manual prompt up to the moment the selected entry is looked up. *)
Lemma interactive_bluetooth_run E bt wifi w s :
  stdin_input E (tick w) ">> Choose: " = Ok "1" ->
  stdin_input E (S (tick w)) "Select device #: " = Ok s ->
  interactive_terminal E bt wifi w =
  (let! n := of_result (py_int s) in
   let! dev := of_result (py_index bt (n - 1)) in
   communicate_bluetooth E (bAddress dev) ;; ret tt)
    (after_selection (menu_lines bName bAddress 0 bt) "Select device #: " w).
Proof.
  intros H1 H2. unfold interactive_terminal, input.
  unfold bind at 1 2 3 4 5. cbn. rewrite H1. cbn.
  unfold bind at 1. rewrite print_menu_run. cbn.
  unfold bind at 1. cbn. rewrite H2.
  unfold after_selection, banner_lines. cbn.
  now rewrite <- !app_assoc.
Qed.

Lemma interactive_wifi_run E bt wifi w s :
  stdin_input E (tick w) ">> Choose: " = Ok "2" ->
  stdin_input E (S (tick w)) "Select Wi-Fi #: " = Ok s ->
  interactive_terminal E bt wifi w =
  (let! n := of_result (py_int s) in
   let! net := of_result (py_index wifi (n - 1)) in
   communicate_wifi E (wBSSID net) ;; ret tt)
    (after_selection (menu_lines wSSID wBSSID 0 wifi) "Select Wi-Fi #: " w).
Proof.
  intros H1 H2. unfold interactive_terminal, input.
  unfold bind at 1 2 3 4 5. cbn. rewrite H1. cbn.
  unfold bind at 1. rewrite print_menu_run. cbn.
  unfold bind at 1. cbn. rewrite H2.
  unfold after_selection, banner_lines. cbn.
  now rewrite <- !app_assoc.
Qed.

(** ** C9: a selection out of range leaves the files alone *)

(** C9. When the number typed at the manual-selection prompt is out of
    range for the listed devices (below [-(n-1)] or above [n] for [n]
    listed devices; Bluetooth menu or Wi-Fi menu), the prompt fails with an
    [IndexError] that it does not handle, and the file system is the one
    it started with: no file written before is modified. *)
Theorem manual_selection_out_of_range (E : Env) (bt : list BtRecord)
    (wifi : list WiFiRecord) (w : World) (s : string) (v : Z) :
  py_int s = Ok v ->
  (stdin_input E (tick w) ">> Choose: " = Ok "1" ->
   stdin_input E (S (tick w)) "Select device #: " = Ok s ->
   (v < 1 - Z.of_nat (length bt) \/ Z.of_nat (length bt) < v)%Z ->
   exists w',
     interactive_terminal E bt wifi w =
       (Raise (mkExn IndexError "list index out of range"), w') /\
     fs w' = fs w)
  /\
  (stdin_input E (tick w) ">> Choose: " = Ok "2" ->
   stdin_input E (S (tick w)) "Select Wi-Fi #: " = Ok s ->
   (v < 1 - Z.of_nat (length wifi) \/ Z.of_nat (length wifi) < v)%Z ->
   exists w',
     interactive_terminal E bt wifi w =
       (Raise (mkExn IndexError "list index out of range"), w') /\
     fs w' = fs w).
Proof.
  intros Hv. split; intros H1 H2 Hrange.
  - pose proof (keeps_fs_interactive_terminal E bt wifi w) as Hfs.
    rewrite (interactive_bluetooth_run E bt wifi w s H1 H2) in *.
    unfold bind at 1 in Hfs. unfold bind at 1.
    unfold of_result at 1 in Hfs. unfold of_result at 1.
    rewrite Hv in *.
    unfold bind at 1 in Hfs. unfold bind at 1.
    unfold of_result at 1 in Hfs. unfold of_result at 1.
    rewrite py_index_out_of_range in * by lia.
    eexists. split; [reflexivity|exact Hfs].
  - pose proof (keeps_fs_interactive_terminal E bt wifi w) as Hfs.
    rewrite (interactive_wifi_run E bt wifi w s H1 H2) in *.
    unfold bind at 1 in Hfs. unfold bind at 1.
    unfold of_result at 1 in Hfs. unfold of_result at 1.
    rewrite Hv in *.
    unfold bind at 1 in Hfs. unfold bind at 1.
    unfold of_result at 1 in Hfs. unfold of_result at 1.
    rewrite py_index_out_of_range in * by lia.
    eexists. split; [reflexivity|exact Hfs].
Qed.

Lemma manual_selection_out_of_range_witness :
  exists w',
    interactive_terminal pick_seven_env two_phones [] world_with_file =
      (Raise (mkExn IndexError "list index out of range"), w') /\
    fs w' = fs world_with_file.
Proof.
  refine (proj1 (manual_selection_out_of_range pick_seven_env two_phones []
                   world_with_file "7" 7 _) _ _ _).
  - reflexivity.
  - reflexivity.
  - reflexivity.
  - cbn. lia.
Defined.

(** ** C10: zero and negative selections wrap around *)

(** C10. With [n > 0] listed devices, a typed number [v] with
    [1 - n <= v <= 0] is not rejected: [l[v - 1]] is the device at
    position [n + v - 1] counted from zero (the last one for [v = 0]), and
    the prompt goes on to call the single-target helper on it and returns
    normally.  This holds for the Bluetooth menu and for the Wi-Fi menu. *)
Theorem manual_selection_wraps_around (E : Env) (bt : list BtRecord)
    (wifi : list WiFiRecord) (w : World) (s : string) (v : Z) :
  py_int s = Ok v ->
  (stdin_input E (tick w) ">> Choose: " = Ok "1" ->
   stdin_input E (S (tick w)) "Select device #: " = Ok s ->
   (1 - Z.of_nat (length bt) <= v <= 0)%Z ->
   exists dev,
     nth_error bt (Z.to_nat (Z.of_nat (length bt) + v - 1)) = Some dev /\
     (v = 0%Z -> forall d, List.last bt d = dev) /\
     interactive_terminal E bt wifi w =
       (communicate_bluetooth E (bAddress dev) ;; ret tt)
         (after_selection (menu_lines bName bAddress 0 bt) "Select device #: " w) /\
     fst (interactive_terminal E bt wifi w) = Ok tt)
  /\
  (stdin_input E (tick w) ">> Choose: " = Ok "2" ->
   stdin_input E (S (tick w)) "Select Wi-Fi #: " = Ok s ->
   (1 - Z.of_nat (length wifi) <= v <= 0)%Z ->
   exists net,
     nth_error wifi (Z.to_nat (Z.of_nat (length wifi) + v - 1)) = Some net /\
     (v = 0%Z -> forall d, List.last wifi d = net) /\
     interactive_terminal E bt wifi w =
       (communicate_wifi E (wBSSID net) ;; ret tt)
         (after_selection (menu_lines wSSID wBSSID 0 wifi) "Select Wi-Fi #: " w) /\
     fst (interactive_terminal E bt wifi w) = Ok tt).
Proof.
  intros Hv. split; intros H1 H2 Hrange.
  - destruct (py_index_negative bt (v - 1)) as (dev & Hidx & Hnth); [lia|].
    replace (Z.of_nat (length bt) + (v - 1))%Z
      with (Z.of_nat (length bt) + v - 1)%Z in Hnth by lia.
    exists dev. split; [exact Hnth|]. split.
    { intros -> d. apply nth_error_last.
      replace (Nat.pred (length bt))
        with (Z.to_nat (Z.of_nat (length bt) + 0 - 1)) by lia.
      exact Hnth. }
    rewrite (interactive_bluetooth_run E bt wifi w s H1 H2).
    unfold bind at 1 3. unfold of_result at 1 3. rewrite Hv.
    unfold bind at 1 3. unfold of_result at 1 2. rewrite Hidx.
    split; [reflexivity|].
    unfold bind.
    destruct (communicate_bluetooth_returns E (bAddress dev)
                (after_selection (menu_lines bName bAddress 0 bt)
                   "Select device #: " w)) as (o & w' & ->).
    reflexivity.
  - destruct (py_index_negative wifi (v - 1)) as (net & Hidx & Hnth); [lia|].
    replace (Z.of_nat (length wifi) + (v - 1))%Z
      with (Z.of_nat (length wifi) + v - 1)%Z in Hnth by lia.
    exists net. split; [exact Hnth|]. split.
    { intros -> d. apply nth_error_last.
      replace (Nat.pred (length wifi))
        with (Z.to_nat (Z.of_nat (length wifi) + 0 - 1)) by lia.
      exact Hnth. }
    rewrite (interactive_wifi_run E bt wifi w s H1 H2).
    unfold bind at 1 3. unfold of_result at 1 3. rewrite Hv.
    unfold bind at 1 3. unfold of_result at 1 2. rewrite Hidx.
    split; [reflexivity|].
    unfold bind.
    destruct (communicate_wifi_returns E (wBSSID net)
                (after_selection (menu_lines wSSID wBSSID 0 wifi)
                   "Select Wi-Fi #: " w)) as (o & w' & ->).
    reflexivity.
Qed.

Lemma manual_selection_wraps_around_witness :
  exists dev,
    nth_error two_phones 1 = Some dev /\
    bName dev = "watch" /\
    fst (interactive_terminal pick_zero_env two_phones [] world0) = Ok tt.
Proof.
  destruct (proj1 (manual_selection_wraps_around pick_zero_env two_phones []
                     world0 "0" 0 eq_refl) eq_refl eq_refl)
    as (dev & Hnth & _ & _ & Hok).
  - cbn. lia.
  - exists dev. split; [exact Hnth|]. split; [|exact Hok].
    cbn in Hnth. now inversion Hnth.
Defined.

(** ** The persistence helper *)

Lemma replace_char_removes (old new : ascii) (s : string) :
  old <> new -> occurs old (replace_char old new s) = false.
Proof.
  intros Hne. induction s as [|c r IH]; cbn; [reflexivity|].
  rewrite IH, orb_false_r.
  destruct (Ascii.eqb_spec c old) as [->|Hc].
  - apply Ascii.eqb_neq. congruence.
  - now apply Ascii.eqb_neq.
Qed.

(** Every way [write_json] can go, by what the environment answers to
    the directory creation, to the opening and to the writing. *)
Lemma write_json_run E data subdir prefix w :
  let t := tick w in
  let folder := path_join (base_dir E) subdir in
  let fname := json_filename E subdir prefix t in
  let entered :=
    set_tick (S (S t)) (set_trace (trace w ++ [EvMakedirs folder]) w) in
  let opened :=
    set_tick (S (S (S t))) (set_trace (trace entered ++ [EvOpenW fname]) entered) in
  write_json E data subdir prefix w =
  match os_makedirs E t folder with
  | Some e =>
      (Raise e, set_tick (S t) (set_trace (trace w ++ [EvMakedirs folder]) w))
  | None =>
      match file_open_w E (S (S t)) fname with
      | Some e =>
          (Ok tt, set_log (log w ++ [(ERROR, "JSON write error: " +:+ exn_msg e)])
                    opened)
      | None =>
          match file_write E (S (S (S t))) fname (dumps data) with
          | Some (k, e) =>
              (Ok tt,
               set_log (log w ++ [(ERROR, "JSON write error: " +:+ exn_msg e)])
                 (set_tick (S (S (S (S t))))
                    (set_fs (<[fname := String.substring 0 k (dumps data)]>
                               (<[fname := ""]> (fs w))) opened)))
          | None =>
              (Ok tt,
               set_log (log w ++ [(INFO, "Saved to " +:+ fname)])
                 (set_tick (S (S (S (S t))))
                    (set_fs (<[fname := dumps data]> (<[fname := ""]> (fs w)))
                       opened)))
          end
      end
  end.
Proof.
  cbv zeta. unfold write_json, json_filename, BASE_DIR, timestamp, open_and_dump.
  unfold bind at 1. unfold ask at 1. cbn.
  destruct (os_makedirs E (tick w) (path_join (base_dir E) subdir)) as [e|];
    cbn; [reflexivity|].
  unfold bind at 1. unfold ask at 1. cbn. rewrite app_nil_r.
  unfold try_except, bind, ask, logging. cbn.
  destruct (file_open_w E _ _) as [e|]; cbn; [reflexivity|].
  destruct (file_write E _ _ _) as [[k e]|]; cbn; reflexivity.
Qed.

Lemma write_json_returns E data subdir prefix w :
  os_makedirs E (tick w) (path_join (base_dir E) subdir) = None ->
  exists w', write_json E data subdir prefix w = (Ok tt, w').
Proof.
  intros Hdir. rewrite write_json_run. cbv zeta. rewrite Hdir.
  destruct (file_open_w E _ _) as [e|]; [eauto|].
  destruct (file_write E _ _ _) as [[k e]|]; eauto.
Qed.

(** ** C4: write failures are logged, not raised *)



(** What a successful [write_json] leaves in the file system. *)
Lemma write_json_success E data subdir prefix w :
  os_makedirs E (tick w) (path_join (base_dir E) subdir) = None ->
  file_open_w E (S (S (tick w))) (json_filename E subdir prefix (tick w)) = None ->
  file_write E (S (S (S (tick w)))) (json_filename E subdir prefix (tick w))
    (dumps data) = None ->
  exists w',
    write_json E data subdir prefix w = (Ok tt, w') /\
    fs w' = <[json_filename E subdir prefix (tick w) := dumps data]> (fs w) /\
    log w' = log w ++ [(INFO, "Saved to " +:+ json_filename E subdir prefix (tick w))].
Proof.
  intros Hdir Hopen Hwrite. rewrite write_json_run. cbv zeta.
  rewrite Hdir, Hopen, Hwrite. eexists. split; [reflexivity|]. cbn.
  split; [|reflexivity]. apply insert_insert_eq.
Qed.

(** ** C7: nothing discovered, an empty list is persisted *)



(** ** The communication loops *)

Lemma ping_targets_app (a b : list event) :
  ping_targets (a ++ b) = ping_targets a ++ ping_targets b.
Proof.
  induction a as [|ev r IH]; [reflexivity|].
  cbn [app ping_targets].
  destruct ev; try exact IH.
  destruct argv as [|a0 argv]; [exact IH|].
  repeat (match goal with
          | |- context [match ?x with _ => _ end] =>
              destruct x; try exact IH
          end).
  cbn. now rewrite IH.
Qed.

Lemma keeps_log_bluetooth_try E addr :
  keeps log (communicate_bluetooth_try E addr).
Proof. unfold communicate_bluetooth_try, timestamp. keeps_tac. Qed.

Lemma keeps_log_wifi_try E target :
  keeps log (communicate_wifi_try E target).
Proof. unfold communicate_wifi_try, timestamp. keeps_tac. Qed.

(** The first thing an attempt does is to print whom it connects to. *)
Lemma communicate_bluetooth_console E addr w :
  exists more,
    console (snd (communicate_bluetooth E addr w)) =
    console w ++ connecting_line addr :: more.
Proof.
  unfold communicate_bluetooth, communicate_bluetooth_try, connecting_line,
    try_except, bind, ask, print, timestamp, logging, ret, lift_opt.
  cbn.
  repeat (match goal with
          | |- context [match ?o with Some _ => _ | None => _ end] =>
              destruct o; cbn
          | |- context [match ?o with Ok _ => _ | Raise _ => _ end] =>
              destruct o; cbn
          end);
    rewrite <- ?app_assoc; cbn; eexists; reflexivity.
Qed.

Lemma communicate_wifi_trace E target w :
  trace (snd (communicate_wifi E target w)) =
  trace w ++ [EvSubprocess (ping_argv target)].
Proof.
  unfold communicate_wifi, communicate_wifi_try,
    try_except, bind, ask, print, timestamp, logging, ret.
  cbn.
  destruct (subprocess_run E (tick w) (ping_argv target)); cbn;
    now rewrite ?app_nil_r.
Qed.

Lemma console_grows_bluetooth E addr w line :
  In line (console w) -> In line (console (snd (communicate_bluetooth E addr w))).
Proof.
  intros H. destruct (communicate_bluetooth_console E addr w) as (more & ->).
  apply in_or_app. now left.
Qed.

(** The Bluetooth loop always runs to its end, appends to the results it
    was given, and has tried every device it was given. *)
Lemma bt_loop_returns E (l : list BtRecord) :
  forall acc w,
  exists results w',
    bt_loop E l acc w = (Ok (acc ++ results), w') /\
    (forall line, In line (console w) -> In line (console w')) /\
    Forall (fun d => In (connecting_line (bAddress d)) (console w')) l.
Proof.
  induction l as [|d rest IH]; intros acc w.
  - exists [], w. cbn. rewrite app_nil_r. auto.
  - cbn [bt_loop]. unfold bind.
    pose proof (communicate_bluetooth_console E (bAddress d) w) as (more & Hc).
    destruct (communicate_bluetooth_returns E (bAddress d) w) as (o & w1 & Hrun).
    rewrite Hrun in *. cbn in Hc.
    assert (Hmono : forall line, In line (console w) -> In line (console w1)).
    { intros line Hin. rewrite Hc. apply in_or_app. now left. }
    assert (Hd : In (connecting_line (bAddress d)) (console w1)).
    { rewrite Hc. apply in_or_app. right. now left. }
    destruct o as [r|].
    + destruct (IH (acc ++ [r]) w1) as (res & w' & Hloop & Hm & Hall).
      exists (r :: res), w'. rewrite Hloop, <- app_assoc. auto.
    + destruct (IH acc w1) as (res & w' & Hloop & Hm & Hall).
      exists res, w'. rewrite Hloop. auto.
Qed.

(** The Wi-Fi loop always runs to its end, and the processes it starts
    are the pings of the access points that have a BSSID, in order. *)
Lemma wifi_loop_returns E (l : list WiFiRecord) :
  forall acc w,
  exists results w' evs,
    wifi_loop E l acc w = (Ok (acc ++ results), w') /\
    trace w' = trace w ++ evs /\
    ping_targets evs = map wBSSID (List.filter has_bssid l).
Proof.
  induction l as [|ap rest IH]; intros acc w.
  - exists [], w, []. cbn. now rewrite !app_nil_r.
  - cbn [wifi_loop List.filter]. unfold has_bssid at 1.
    destruct (negb (String.eqb (wBSSID ap) "")).
    + unfold bind.
      pose proof (communicate_wifi_trace E (wBSSID ap) w) as Ht.
      destruct (communicate_wifi_returns E (wBSSID ap) w) as (o & w1 & Hrun).
      rewrite Hrun in *. cbn in Ht.
      destruct o as [r|].
      * destruct (IH (acc ++ [r]) w1) as (res & w' & evs & Hloop & Htr & Hp).
        exists (r :: res), w', (EvSubprocess (ping_argv (wBSSID ap)) :: evs).
        rewrite Hloop, <- app_assoc, Htr, Ht, <- app_assoc.
        unfold ping_argv. cbn. now rewrite Hp.
      * destruct (IH acc w1) as (res & w' & evs & Hloop & Htr & Hp).
        exists res, w', (EvSubprocess (ping_argv (wBSSID ap)) :: evs).
        rewrite Hloop, Htr, Ht, <- app_assoc.
        unfold ping_argv. cbn. now rewrite Hp.
    + destruct (IH acc w) as (res & w' & evs & Hloop & Htr & Hp).
      exists res, w', evs. auto.
Qed.

(** [write_json] starts no process. *)
Lemma write_json_trace E data subdir prefix w :
  exists evs,
    trace (snd (write_json E data subdir prefix w)) = trace w ++ evs /\
    ping_targets evs = [].
Proof.
  rewrite write_json_run. cbv zeta.
  destruct (os_makedirs E _ _) as [e|]; cbn.
  - eexists. split; reflexivity.
  - destruct (file_open_w E _ _) as [e|]; cbn.
    + rewrite <- app_assoc. eexists. split; reflexivity.
    + destruct (file_write E _ _ _) as [[k e]|]; cbn;
        rewrite <- app_assoc; eexists; split; reflexivity.
Qed.

(** ** C6: a failed attempt is skipped, the others go on *)



(** ** C8: only access points with a BSSID are pinged *)



(** ** C1: a failing Wi-Fi scan is not contained *)

(** The two Bluetooth scans do contain their errors: they return, and
    they return the empty list when the discovery raises. *)
Lemma scan_bluetooth_classic_returns E w :
  exists data w',
    scan_bluetooth_classic E w = (Ok data, w') /\
    (forall e, bt_discover_devices E (tick w) = Raise e -> data = []).
Proof.
  unfold scan_bluetooth_classic, try_except.
  destruct (bind _ _ w) as [[data|e] w1] eqn:Hbody.
  - exists data, w1. split; [reflexivity|]. intros e He.
    unfold bind, ask in Hbody. cbn in Hbody. rewrite He in Hbody.
    discriminate.
  - unfold bind, logging, ret. cbn. eexists _, _. split; [reflexivity|]. auto.
Qed.

Lemma scan_bluetooth_ble_returns E w :
  exists data w',
    scan_bluetooth_ble E w = (Ok data, w') /\
    (forall e, ble_discover E (tick w) = Raise e -> data = []).
Proof.
  unfold scan_bluetooth_ble, try_except.
  destruct (bind _ _ w) as [[data|e] w1] eqn:Hbody.
  - exists data, w1. split; [reflexivity|]. intros e He.
    unfold bind, ask in Hbody. cbn in Hbody. rewrite He in Hbody.
    discriminate.
  - unfold bind, logging, ret. cbn. eexists _, _. split; [reflexivity|]. auto.
Qed.

(** C1, where the code departs from it.  When listing the Wi-Fi
    interfaces raises [e], or lists no interface (then [e] is the
    [IndexError] of [interfaces()[0]]), [scan_wifi] raises [e] instead of
    returning an empty list, and the whole cycle ends with [e] before any
    Bluetooth discovery is started. *)
Theorem scan_wifi_error_escapes (E : Env) (interactive : bool) (w : World)
    (e : exn) :
  pywifi_interfaces E (tick w) = Raise e \/
  (pywifi_interfaces E (tick w) = Ok [] /\
   e = mkExn IndexError "list index out of range") ->
  fst (scan_wifi E w) = Raise e /\
  exists w',
    scan_and_communicate E interactive w = (Raise e, w') /\
    List.filter is_bt_discover (trace w') = List.filter is_bt_discover (trace w).
Proof.
  intros H.
  assert (Hscan : exists w1, scan_wifi E w = (Raise e, w1) /\ trace w1 = trace w).
  { unfold scan_wifi, bind, ask. cbn.
    destruct H as [H|[H ->]]; rewrite H; cbn;
      eexists; (split; [reflexivity|]); cbn; now rewrite app_nil_r. }
  destruct Hscan as (w1 & Hscan & Htr).
  split; [now rewrite Hscan|].
  unfold scan_and_communicate. unfold bind at 1. unfold logging at 1.
  unfold bind at 1.
  destruct H as [H|[H ->]].
  - unfold scan_wifi, bind, ask in *. cbn in *. rewrite H in *. cbn.
    eexists. split; [reflexivity|]. cbn. now rewrite app_nil_r.
  - unfold scan_wifi, bind, ask in *. cbn in *. rewrite H in *. cbn.
    eexists. split; [reflexivity|]. cbn. now rewrite app_nil_r.
Qed.

Lemma scan_wifi_error_escapes_witness :
  fst (scan_wifi no_wifi_env world0) =
    Raise (mkExn IndexError "list index out of range") /\
  fst (scan_and_communicate no_wifi_env false world0) =
    Raise (mkExn IndexError "list index out of range").
Proof.
  destruct (scan_wifi_error_escapes no_wifi_env false world0
              (mkExn IndexError "list index out of range")
              (or_intror (conj eq_refl eq_refl))) as (H1 & w' & H2 & _).
  split; [exact H1|]. now rewrite H2.
Defined.

(** ** The text written by [json.dump] reads back *)

Lemma append_assoc (a b c : string) : (a +:+ b) +:+ c = a +:+ (b +:+ c).
Proof. induction a as [|x a IH]; simpl; [reflexivity|]. now rewrite IH. Qed.

Lemma append_length (a b : string) :
  String.length (a +:+ b) = String.length a + String.length b.
Proof. induction a as [|x a IH]; simpl; [reflexivity|]. now rewrite IH. Qed.

(** *** Strings *)

(** The three kinds of steps of [scanstring]. *)
Lemma scanstring_plain (c : ascii) (t : string) :
  Ascii.eqb c dquote = false -> Ascii.eqb c "\" = false ->
  (nat_of_ascii c <? 32)%nat = false ->
  scanstring (String c t) = cons_fst c (scanstring t).
Proof. intros H1 H2 H3. simpl. now rewrite H1, H2, H3. Qed.

Lemma scanstring_short (e ch : ascii) (t : string) :
  Ascii.eqb e "u" = false -> unescape e = Some ch ->
  scanstring (String "\" (String e t)) = cons_fst ch (scanstring t).
Proof. intros H1 H2. simpl. now rewrite H1, H2. Qed.

Lemma scanstring_u (h1 h2 h3 h4 : ascii) (n : nat) (t : string) :
  hex4 h1 h2 h3 h4 = Some n -> (n <? 256)%nat = true ->
  scanstring (String "\" (String "u" (String h1 (String h2 (String h3 (String h4 t))))))
  = cons_fst (ascii_of_nat n) (scanstring t).
Proof. intros H1 H2. simpl. now rewrite H1, H2. Qed.

Lemma hex_val_hex_digit (k : nat) :
  k < 16 -> hex_val (hex_digit k) = Some k.
Proof.
  intros Hk. do 16 (destruct k as [|k]; [vm_compute; reflexivity|]). lia.
Qed.

Lemma ascii_of_code (c : ascii) (n : nat) :
  nat_of_ascii c = n -> c = ascii_of_nat n.
Proof. intros <-. now rewrite ascii_nat_embedding. Qed.

(** One character: what [escape_char] writes is read back as it. *)
Lemma scanstring_escape_char (c : ascii) (t : string) :
  scanstring (escape_char c +:+ t) = cons_fst c (scanstring t).
Proof.
  unfold escape_char.
  destruct (Ascii.eqb_spec c dquote) as [->|Hq]; [reflexivity|].
  destruct (Ascii.eqb_spec c "\") as [->|Hb]; [reflexivity|].
  destruct (Nat.eqb_spec (nat_of_ascii c) 10) as [H|_];
    [apply ascii_of_code in H; subst c; reflexivity|].
  destruct (Nat.eqb_spec (nat_of_ascii c) 13) as [H|_];
    [apply ascii_of_code in H; subst c; reflexivity|].
  destruct (Nat.eqb_spec (nat_of_ascii c) 9) as [H|_];
    [apply ascii_of_code in H; subst c; reflexivity|].
  destruct (Nat.eqb_spec (nat_of_ascii c) 8) as [H|_];
    [apply ascii_of_code in H; subst c; reflexivity|].
  destruct (Nat.eqb_spec (nat_of_ascii c) 12) as [H|_];
    [apply ascii_of_code in H; subst c; reflexivity|].
  apply Ascii.eqb_neq in Hq, Hb.
  destruct (andb (32 <=? nat_of_ascii c)%nat (nat_of_ascii c <=? 126)%nat)
    eqn:Hprint.
  - apply andb_true_iff in Hprint as [Hlo _]. apply Nat.leb_le in Hlo.
    simpl String.append. apply scanstring_plain; auto.
    apply Nat.ltb_ge. exact Hlo.
  - cbn [String.append].
    pose proof (nat_ascii_bounded c) as Hlt.
    rewrite (scanstring_u _ _ _ _ (nat_of_ascii c)).
    + now rewrite ascii_nat_embedding.
    + unfold hex4. change (hex_val "0") with (Some 0).
      rewrite !hex_val_hex_digit.
      * f_equal. pose proof (Nat.div_mod_eq (nat_of_ascii c) 16). lia.
      * apply Nat.mod_upper_bound. lia.
      * apply Nat.Div0.div_lt_upper_bound. lia.
    + now apply Nat.ltb_lt.
Qed.

Lemma scanstring_escape (s rest : string) :
  scanstring (escape_body s +:+ String dquote rest) = Some (s, rest).
Proof.
  induction s as [|c s IH]; [reflexivity|].
  cbn [escape_body]. rewrite append_assoc, scanstring_escape_char, IH.
  reflexivity.
Qed.

Lemma scanstring_encode (s rest : string) :
  exists t, encode_string s +:+ rest = String dquote t /\
            scanstring t = Some (s, rest).
Proof.
  unfold encode_string. cbn. eexists. split; [reflexivity|].
  rewrite append_assoc. apply scanstring_escape.
Qed.

(** *** Numbers *)

Lemma nzhead_not_D0 (u u' : uint) : nzhead u <> D0 u'.
Proof. induction u; cbn; congruence. Qed.

Lemma unorm_fixed_head (d : uint) :
  unorm d = d -> d <> D0 Nil -> forall u, d <> D0 u.
Proof.
  intros Hn Hz u ->. unfold unorm in Hn. cbn [nzhead] in Hn.
  destruct (nzhead u) eqn:Hh; try discriminate.
  - apply Hz. now rewrite <- Hn.
  - injection Hn as ->. now apply nzhead_not_D0 in Hh.
Qed.

Lemma pos_to_uint_head (p : positive) : forall u, Pos.to_uint p <> D0 u.
Proof.
  apply unorm_fixed_head.
  - rewrite <- (DecimalPos.Unsigned.to_of (Pos.to_uint p)).
    now rewrite DecimalPos.Unsigned.of_to.
  - apply Unsigned.to_uint_nonzero.
Qed.

Lemma span_digits_uint (d : uint) (rest : string) :
  ends_number rest ->
  span_digits (NilEmpty.string_of_uint d +:+ rest)
  = (NilEmpty.string_of_uint d, rest).
Proof.
  intros Hrest. induction d; cbn;
    try (rewrite IHd; reflexivity).
  destruct rest as [|c r]; [reflexivity|].
  destruct Hrest as [Hd _]. cbn. now rewrite Hd.
Qed.

Lemma scan_uint_pos (p : positive) (rest : string) :
  ends_number rest ->
  scan_uint (NilEmpty.string_of_uint (Pos.to_uint p) +:+ rest)
  = Some (Pos.to_uint p, rest).
Proof.
  intros Hrest.
  pose proof (pos_to_uint_head p) as Hhead.
  pose proof (Unsigned.to_uint_nonnil p) as Hnil.
  pose proof (span_digits_uint (Pos.to_uint p) rest Hrest) as Hspan.
  pose proof (NilEmpty.usu (Pos.to_uint p)) as Husu.
  destruct (Pos.to_uint p) as [|u|u|u|u|u|u|u|u|u|u];
    try congruence; try (now exfalso; eapply Hhead);
    unfold scan_uint;
    cbn [NilEmpty.string_of_uint String.append] in *;
    rewrite Hspan, Husu; reflexivity.
Qed.

Lemma float_follows_ends (rest : string) :
  ends_number rest -> float_follows rest = false.
Proof. destruct rest; [reflexivity|]. now intros [_ H]. Qed.

Lemma scan_number_str_of_Z (z : Z) (rest : string) :
  ends_number rest ->
  scan_number (str_of_Z z +:+ rest) = Some (z, rest).
Proof.
  intros Hrest. pose proof (float_follows_ends rest Hrest) as Hf.
  pose proof (DecimalZ.of_to z) as Hz.
  unfold str_of_Z. destruct z as [|p|p]; cbn [Z.to_int] in *.
  - cbn. now rewrite Hf.
  - unfold NilZero.string_of_int, NilZero.string_of_uint.
    pose proof (Unsigned.to_uint_nonnil p) as Hnil.
    pose proof (pos_to_uint_head p) as Hhead.
    pose proof (scan_uint_pos p rest Hrest) as Hscan.
    unfold scan_number.
    destruct (Pos.to_uint p) as [|u|u|u|u|u|u|u|u|u|u] eqn:Hp;
      try congruence; try (now exfalso; eapply Hhead);
      cbn [NilEmpty.string_of_uint String.append] in *;
      rewrite Hscan, Hf, Hz; reflexivity.
  - unfold NilZero.string_of_int, NilZero.string_of_uint.
    pose proof (Unsigned.to_uint_nonnil p) as Hnil.
    pose proof (scan_uint_pos p rest Hrest) as Hscan.
    unfold scan_number.
    destruct (Pos.to_uint p) as [|u|u|u|u|u|u|u|u|u|u] eqn:Hp;
      try congruence;
      cbn [NilEmpty.string_of_uint String.append] in *;
      rewrite Hscan, Hf, Hz; reflexivity.
Qed.

(** *** White space and first characters *)

Lemma skip_ws_spaces (n : nat) (t : string) :
  skip_ws (spaces n +:+ t) = skip_ws t.
Proof. induction n as [|n IH]; [reflexivity|]. exact IH. Qed.

Lemma skip_ws_newline_indent (k : nat) (t : string) :
  skip_ws (newline_indent k +:+ t) = skip_ws t.
Proof. unfold newline_indent. cbn. apply skip_ws_spaces. Qed.

Lemma skip_ws_head (c : ascii) (t : string) :
  is_json_ws c = false -> skip_ws (String c t) = String c t.
Proof. intros H. cbn. now rewrite H. Qed.

Lemma opens_number_not (c d : ascii) :
  opens_number c -> is_digit d = false -> d <> "-"%char ->
  Ascii.eqb c d = false /\ Ascii.eqb d c = false.
Proof.
  intros Hc Hd Hm.
  assert (c <> d) by (intros ->; destruct Hc; congruence).
  split; apply Ascii.eqb_neq; congruence.
Qed.

Lemma opens_number_value (c : ascii) : opens_number c -> opens_value c.
Proof.
  intros Hc. unfold opens_value, is_json_ws.
  rewrite (proj1 (opens_number_not c " " Hc eq_refl ltac:(discriminate))).
  rewrite (proj1 (opens_number_not c "009" Hc eq_refl ltac:(discriminate))).
  rewrite (proj1 (opens_number_not c "010" Hc eq_refl ltac:(discriminate))).
  rewrite (proj1 (opens_number_not c "013" Hc eq_refl ltac:(discriminate))).
  rewrite (proj1 (opens_number_not c "]" Hc eq_refl ltac:(discriminate))).
  now split.
Qed.

Lemma str_of_Z_head (z : Z) :
  exists c t, str_of_Z z = String c t /\ opens_number c.
Proof.
  unfold str_of_Z, opens_number.
  destruct z as [|p|p]; cbn [Z.to_int].
  - eexists _, _. split; [reflexivity|]. now left.
  - pose proof (Unsigned.to_uint_nonnil p) as Hnil.
    unfold NilZero.string_of_int, NilZero.string_of_uint.
    destruct (Pos.to_uint p); try congruence;
      cbn; eexists _, _; (split; [reflexivity|]); now left.
  - eexists _, _. split; [reflexivity|]. now right.
Qed.

Lemma scan_once_number (f : nat) (c : ascii) (t : string) :
  opens_number c ->
  scan_once (S f) (String c t) =
  match scan_number (String c t) with
  | Some (z, rest) => Some (PInt z, rest)
  | None => None
  end.
Proof.
  intros Hc. cbn [scan_once strip_prefix].
  rewrite (proj1 (opens_number_not c dquote Hc eq_refl ltac:(discriminate))).
  rewrite (proj1 (opens_number_not c "{" Hc eq_refl ltac:(discriminate))).
  rewrite (proj1 (opens_number_not c "[" Hc eq_refl ltac:(discriminate))).
  rewrite (proj2 (opens_number_not c "n" Hc eq_refl ltac:(discriminate))).
  rewrite (proj2 (opens_number_not c "t" Hc eq_refl ltac:(discriminate))).
  rewrite (proj2 (opens_number_not c "f" Hc eq_refl ltac:(discriminate))).
  reflexivity.
Qed.

(** *** The nested parts of the definitions, by name *)

Lemma need_list (l : list pyval) : need (PList l) = S (need_items l).
Proof. reflexivity. Qed.

Lemma need_dict (l : list (string * pyval)) :
  need (PDict l) = S (need_members l).
Proof.
  cbn [need]. f_equal.
  induction l as [|[k x] r IH]; cbn [need_members snd]; congruence.
Qed.

Lemma dumps_list (lvl : nat) (x : pyval) (r : list pyval) :
  dumps_at lvl (PList (x :: r)) =
  "[" +:+ newline_indent (S lvl)
  +:+ join_items ("," +:+ newline_indent (S lvl)) (map (dumps_at (S lvl)) (x :: r))
  +:+ newline_indent lvl +:+ "]".
Proof.
  reflexivity.
Qed.

Lemma dump_members_map (lvl : nat) (l : list (string * pyval)) :
  (fix members (l : list (string * pyval)) : list string :=
     match l with
     | [] => []
     | (k, x) :: r =>
         (encode_string k +:+ ": " +:+ dumps_at lvl x) :: members r
     end) l
  = map (dump_member lvl) l.
Proof.
  induction l as [|[k x] r IH]; [reflexivity|].
  rewrite IH. reflexivity.
Qed.

Lemma dumps_dict (lvl : nat) (kv : string * pyval) (r : list (string * pyval)) :
  dumps_at lvl (PDict (kv :: r)) =
  "{" +:+ newline_indent (S lvl)
  +:+ join_items ("," +:+ newline_indent (S lvl)) (map (dump_member (S lvl)) (kv :: r))
  +:+ newline_indent lvl +:+ "}".
Proof.
  rewrite <- dump_members_map. reflexivity.
Qed.

Lemma wf_list (l : list pyval) : wf_pyval (PList l) <-> Forall wf_pyval l.
Proof.
  cbn. induction l as [|x r IH]; [now split|].
  rewrite Forall_cons_iff, IH. reflexivity.
Qed.

Lemma wf_dict (l : list (string * pyval)) :
  wf_pyval (PDict l) <->
  List.NoDup (map fst l) /\ Forall (fun kv => wf_pyval (snd kv)) l.
Proof.
  cbn. apply and_iff_compat_l.
  induction l as [|[k x] r IH]; [now split|].
  rewrite Forall_cons_iff, IH. reflexivity.
Qed.

(** Induction over values that reaches into lists and dictionaries. *)
Lemma pyval_nested_ind (P : pyval -> Prop) :
  P PNone -> (forall b, P (PBool b)) -> (forall z, P (PInt z)) ->
  (forall s, P (PStr s)) ->
  (forall l, Forall P l -> P (PList l)) ->
  (forall l, Forall (fun kv => P (snd kv)) l -> P (PDict l)) ->
  forall v, P v.
Proof.
  intros Hnone Hbool Hint Hstr Hlist Hdict.
  fix IH 1. intros [| b | z | s | l | l].
  - exact Hnone.
  - apply Hbool.
  - apply Hint.
  - apply Hstr.
  - apply Hlist. induction l as [|x r IHl]; constructor; [apply IH|exact IHl].
  - apply Hdict. induction l as [|[k x] r IHl]; constructor;
      [apply IH|exact IHl].
Qed.

Lemma dumps_head (v : pyval) (lvl : nat) :
  exists c t, dumps_at lvl v = String c t /\ opens_value c.
Proof.
  destruct v as [| [|] | z | s | [|x r] | [|kv r]];
    try (eexists _, _; split; [reflexivity|now split]).
  destruct (str_of_Z_head z) as (c & t & Hz & Hc).
  exists c, t. split; [exact Hz|]. now apply opens_number_value.
Qed.

Lemma join_items_head (sep : string) (lvl : nat) (x : pyval) (r : list pyval)
    (tail : string) :
  exists c t,
    join_items sep (map (dumps_at lvl) (x :: r)) +:+ tail = String c t /\
    opens_value c.
Proof.
  destruct (dumps_head x lvl) as (c & t & Hx & Hc).
  destruct r as [|y r]; cbn [map join_items]; rewrite Hx; cbn;
    eexists _, _; (split; [reflexivity|exact Hc]).
Qed.

(** *** Values *)

Lemma ends_number_newline (k : nat) (t : string) :
  ends_number (newline_indent k +:+ t).
Proof. now split. Qed.

Lemma ends_number_comma (t : string) : ends_number (String "," t).
Proof. now split. Qed.

Lemma skip_ws_to_items (sep : string) (k lvl : nat) (x : pyval)
    (r : list pyval) (tail : string) :
  skip_ws (newline_indent k +:+ join_items sep (map (dumps_at lvl) (x :: r)) +:+ tail)
  = join_items sep (map (dumps_at lvl) (x :: r)) +:+ tail.
Proof.
  rewrite skip_ws_newline_indent.
  destruct (join_items_head sep lvl x r tail) as (c & t & -> & Hc & _).
  now apply skip_ws_head.
Qed.

Lemma scan_items_dumps (lvl : nat) (l : list pyval) :
  Forall reads_back l -> Forall wf_pyval l -> l <> [] ->
  forall fuel rest,
    need_items l <= fuel ->
    scan_items fuel
      (join_items ("," +:+ newline_indent (S lvl)) (map (dumps_at (S lvl)) l)
       +:+ newline_indent lvl +:+ String "]" rest)
    = Some (l, rest).
Proof.
  induction 1 as [|x r Hx Hr IH]; intros Hwf Hne fuel rest Hfuel;
    [congruence|].
  apply Forall_cons_iff in Hwf as [Hwx Hwr].
  cbn [need_items] in Hfuel.
  destruct fuel as [|f]; [lia|]. cbn [scan_items].
  destruct r as [|y r'].
  - cbn [map join_items].
    rewrite (Hx Hwx (S lvl) f _ ltac:(lia) (ends_number_newline _ _)).
    rewrite skip_ws_newline_indent. reflexivity.
  - change (join_items ("," +:+ newline_indent (S lvl))
              (map (dumps_at (S lvl)) (x :: y :: r')))
      with (dumps_at (S lvl) x +:+ ("," +:+ newline_indent (S lvl))
            +:+ join_items ("," +:+ newline_indent (S lvl))
                  (map (dumps_at (S lvl)) (y :: r'))).
    rewrite !append_assoc.
    change ("," +:+ ?t) with (String "," t).
    rewrite (Hx Hwx (S lvl) f _ ltac:(lia) (ends_number_comma _)).
    change (skip_ws (String "," ?t)) with (String "," t).
    cbn [Ascii.eqb Bool.eqb].
    rewrite skip_ws_to_items.
    rewrite (IH Hwr ltac:(discriminate) f rest ltac:(lia)).
    reflexivity.
Qed.

Lemma join_members_head (sep : string) (lvl : nat) (kv : string * pyval)
    (r : list (string * pyval)) (tail : string) :
  exists t,
    join_items sep (map (dump_member lvl) (kv :: r)) +:+ tail = String dquote t.
Proof.
  destruct r as [|kv' r]; cbn [map join_items]; unfold dump_member at 1,
    encode_string; cbn; eexists; reflexivity.
Qed.

Lemma skip_ws_to_members (sep : string) (k lvl : nat) (kv : string * pyval)
    (r : list (string * pyval)) (tail : string) :
  skip_ws (newline_indent k +:+ join_items sep (map (dump_member lvl) (kv :: r)) +:+ tail)
  = join_items sep (map (dump_member lvl) (kv :: r)) +:+ tail.
Proof.
  rewrite skip_ws_newline_indent.
  destruct (join_members_head sep lvl kv r tail) as (t & ->).
  reflexivity.
Qed.

(** Reading one member: the key, the colon, the value. *)
Lemma scan_member_step (f lvl : nat) (k : string) (x : pyval) (rest : string) :
  reads_back x -> wf_pyval x -> need x <= f -> ends_number rest ->
  exists t,
    dump_member lvl (k, x) +:+ rest = String dquote t /\
    scanstring t = Some (k, String ":" (String " " (dumps_at lvl x +:+ rest))) /\
    scan_once f (skip_ws (String " " (dumps_at lvl x +:+ rest))) = Some (x, rest).
Proof.
  intros Hx Hwx Hfuel Hrest.
  unfold dump_member. cbn [fst snd].
  rewrite append_assoc.
  destruct (scanstring_encode k ((": " +:+ dumps_at lvl x) +:+ rest))
    as (t & Ht & Hscan).
  exists t. split; [exact Ht|]. split.
  - rewrite Hscan. now rewrite append_assoc.
  - destruct (dumps_head x lvl) as (c & u & Hd & Hc & _).
    change (skip_ws (String " " ?s)) with (skip_ws s).
    rewrite Hd. cbn [String.append]. rewrite skip_ws_head by exact Hc.
    change (String c (u +:+ rest)) with (String c u +:+ rest).
    rewrite <- Hd. now apply Hx.
Qed.

Lemma scan_members_dumps (lvl : nat) (l : list (string * pyval)) :
  Forall (fun kv => reads_back (snd kv)) l ->
  Forall (fun kv => wf_pyval (snd kv)) l -> l <> [] ->
  forall fuel rest,
    need_members l <= fuel ->
    scan_members fuel
      (join_items ("," +:+ newline_indent (S lvl)) (map (dump_member (S lvl)) l)
       +:+ newline_indent lvl +:+ String "}" rest)
    = Some (l, rest).
Proof.
  induction 1 as [|[k x] r Hx Hr IH]; intros Hwf Hne fuel rest Hfuel;
    [congruence|].
  apply Forall_cons_iff in Hwf as [Hwx Hwr].
  cbn [need_members snd] in Hfuel. cbn [snd] in Hx, Hwx.
  destruct fuel as [|f]; [lia|].
  destruct r as [|kv' r'].
  - cbn [map join_items].
    destruct (scan_member_step f (S lvl) k x
                (newline_indent lvl +:+ String "}" rest) Hx Hwx ltac:(lia)
                (ends_number_newline _ _)) as (t & -> & Hkey & Hval).
    cbn [scan_members Ascii.eqb Bool.eqb]. rewrite Hkey.
    change (skip_ws (String ":" ?s)) with (String ":" s).
    cbn [Ascii.eqb Bool.eqb]. rewrite Hval.
    rewrite skip_ws_newline_indent. reflexivity.
  - change (join_items ("," +:+ newline_indent (S lvl))
              (map (dump_member (S lvl)) ((k, x) :: kv' :: r')))
      with (dump_member (S lvl) (k, x) +:+ ("," +:+ newline_indent (S lvl))
            +:+ join_items ("," +:+ newline_indent (S lvl))
                  (map (dump_member (S lvl)) (kv' :: r'))).
    rewrite !append_assoc.
    change ("," +:+ ?t) with (String "," t).
    match goal with
    | |- context [dump_member (S lvl) (k, x) +:+ ?tail] =>
        destruct (scan_member_step f (S lvl) k x tail Hx Hwx ltac:(lia)
                    (ends_number_comma _)) as (t & -> & Hkey & Hval)
    end.
    cbn [scan_members Ascii.eqb Bool.eqb]. rewrite Hkey.
    change (skip_ws (String ":" ?s)) with (String ":" s).
    cbn [Ascii.eqb Bool.eqb]. rewrite Hval.
    change (skip_ws (String "," ?t)) with (String "," t).
    cbn [Ascii.eqb Bool.eqb].
    rewrite skip_ws_to_members.
    rewrite (IH Hwr ltac:(discriminate) f rest ltac:(lia)).
    reflexivity.
Qed.

(** *** Dictionaries built from pairs with distinct keys *)

Lemma dict_set_fresh (k : string) (v : pyval) (d : list (string * pyval)) :
  ~ In k (map fst d) -> dict_set k v d = d ++ [(k, v)].
Proof.
  induction d as [|[k' v'] r IH]; intros Hnin; [reflexivity|].
  cbn in *. destruct (String.eqb_spec k' k) as [->|Hne]; [tauto|].
  rewrite IH; [reflexivity|tauto].
Qed.

Lemma dict_of_pairs_distinct (l : list (string * pyval)) :
  List.NoDup (map fst l) -> dict_of_pairs l = l.
Proof.
  unfold dict_of_pairs.
  enough (H : forall acc, List.NoDup (map fst (acc ++ l)) ->
            fold_left (fun d kv => dict_set (fst kv) (snd kv) d) l acc = acc ++ l)
    by (intros Hnd; exact (H [] Hnd)).
  induction l as [|[k v] r IH]; intros acc Hnd; cbn [fold_left fst snd].
  - now rewrite app_nil_r.
  - rewrite dict_set_fresh.
    + rewrite IH; rewrite <- app_assoc; [reflexivity|exact Hnd].
    + rewrite map_app in Hnd. cbn in Hnd.
      apply NoDup_remove_2 in Hnd. intros Hin. apply Hnd.
      apply in_or_app. now left.
Qed.

(** Every well-formed value reads back from its text, whatever text
    follows it, and with any fuel from [need] on. *)
Lemma scan_once_dumps (v : pyval) : reads_back v.
Proof.
  induction v as [| b | z | s | l IHl | l IHl] using pyval_nested_ind;
    intros Hwf lvl fuel rest Hfuel Hrest;
    (destruct fuel as [|f]; [cbn in Hfuel; lia|]).
  - reflexivity.
  - destruct b; reflexivity.
  - cbn [dumps_at].
    destruct (str_of_Z_head z) as (c & t & Hz & Hc).
    pose proof (scan_number_str_of_Z z rest Hrest) as Hnum.
    rewrite Hz in *. cbn [String.append] in *.
    rewrite scan_once_number by exact Hc. now rewrite Hnum.
  - cbn [dumps_at].
    destruct (scanstring_encode s rest) as (t & -> & Hscan).
    cbn [scan_once Ascii.eqb Bool.eqb]. now rewrite Hscan.
  - apply wf_list in Hwf. rewrite need_list in Hfuel.
    destruct l as [|x r]; [reflexivity|].
    rewrite dumps_list, !append_assoc.
    change ("[" +:+ ?t) with (String "[" t).
    change ("]" +:+ rest) with (String "]" rest).
    cbn [scan_once Ascii.eqb Bool.eqb].
    rewrite skip_ws_to_items.
    destruct (join_items_head ("," +:+ newline_indent (S lvl)) (S lvl) x r
                (newline_indent lvl +:+ String "]" rest))
      as (c & t & Hhead & _ & Hc).
    pose proof (scan_items_dumps lvl (x :: r) IHl Hwf ltac:(discriminate) f rest
                  ltac:(lia)) as Hitems.
    rewrite Hhead in *. rewrite Hc, Hitems. reflexivity.
  - apply wf_dict in Hwf as [Hnd Hwf]. rewrite need_dict in Hfuel.
    destruct l as [|kv r]; [reflexivity|].
    rewrite dumps_dict, !append_assoc.
    change ("{" +:+ ?t) with (String "{" t).
    change ("}" +:+ rest) with (String "}" rest).
    cbn [scan_once Ascii.eqb Bool.eqb].
    rewrite skip_ws_to_members.
    destruct (join_members_head ("," +:+ newline_indent (S lvl)) (S lvl) kv r
                (newline_indent lvl +:+ String "}" rest)) as (t & Hhead).
    pose proof (scan_members_dumps lvl (kv :: r) IHl Hwf ltac:(discriminate) f
                  rest ltac:(lia)) as Hmembers.
    rewrite Hhead in *. cbn [Ascii.eqb Bool.eqb]. rewrite Hmembers.
    now rewrite dict_of_pairs_distinct.
Qed.

(** *** Enough fuel: the length of the text *)

Lemma join_items_need (sep : string) (lvl : nat) (l : list pyval) :
  1 <= String.length sep ->
  Forall (fun x => need x <= String.length (dumps_at lvl x)) l ->
  need_items l <= String.length (join_items sep (map (dumps_at lvl) l)) + 1.
Proof.
  intros Hsep. induction 1 as [|x r Hx Hr IH]; [cbn; lia|].
  destruct r as [|y r'].
  - cbn [map join_items need_items]. lia.
  - change (join_items sep (map (dumps_at lvl) (x :: y :: r')))
      with (dumps_at lvl x +:+ sep +:+ join_items sep (map (dumps_at lvl) (y :: r'))).
    rewrite !append_length. cbn [need_items] in *. lia.
Qed.

Lemma join_members_need (sep : string) (lvl : nat) (l : list (string * pyval)) :
  1 <= String.length sep ->
  Forall (fun kv => need (snd kv) <= String.length (dumps_at lvl (snd kv))) l ->
  need_members l <= String.length (join_items sep (map (dump_member lvl) l)) + 1.
Proof.
  intros Hsep. induction 1 as [|[k x] r Hx Hr IH]; [cbn; lia|].
  assert (Hm : need x <= String.length (dump_member lvl (k, x))).
  { unfold dump_member. rewrite !append_length. cbn [snd] in *. lia. }
  destruct r as [|kv' r'].
  - cbn [map join_items need_members snd]. lia.
  - change (join_items sep (map (dump_member lvl) ((k, x) :: kv' :: r')))
      with (dump_member lvl (k, x) +:+ sep
            +:+ join_items sep (map (dump_member lvl) (kv' :: r'))).
    rewrite !append_length. cbn [need_members snd] in *. lia.
Qed.

Lemma need_le_length (v : pyval) :
  forall lvl, need v <= String.length (dumps_at lvl v).
Proof.
  induction v as [| b | z | s | l IHl | l IHl] using pyval_nested_ind;
    intros lvl.
  - cbn. lia.
  - destruct b; cbn; lia.
  - destruct (str_of_Z_head z) as (c & t & Hz & _).
    cbn [need dumps_at]. rewrite Hz. cbn. lia.
  - cbn. lia.
  - rewrite need_list. destruct l as [|x r]; [cbn; lia|].
    rewrite dumps_list, !append_length.
    pose proof (join_items_need ("," +:+ newline_indent (S lvl)) (S lvl) (x :: r)
                  ltac:(cbn; lia)) as Hj.
    cbn [String.length] in *.
    assert (Hall : Forall (fun x => need x <= String.length (dumps_at (S lvl) x))
                     (x :: r)).
    { eapply List.Forall_impl; [|exact IHl]. intros a Ha. apply Ha. }
    specialize (Hj Hall). unfold newline_indent in *. cbn [String.length]. lia.
  - rewrite need_dict. destruct l as [|kv r]; [cbn; lia|].
    rewrite dumps_dict, !append_length.
    pose proof (join_members_need ("," +:+ newline_indent (S lvl)) (S lvl) (kv :: r)
                  ltac:(cbn; lia)) as Hj.
    cbn [String.length] in *.
    assert (Hall : Forall (fun kv => need (snd kv)
                              <= String.length (dumps_at (S lvl) (snd kv)))
                     (kv :: r)).
    { eapply List.Forall_impl; [|exact IHl]. intros a Ha. apply Ha. }
    specialize (Hj Hall). unfold newline_indent in *. cbn [String.length]. lia.
Qed.

Lemma append_empty_r (s : string) : s +:+ "" = s.
Proof. induction s as [|c s IH]; cbn; [reflexivity|]. now rewrite IH. Qed.

(** [json.loads(json.dumps(v, indent=4)) == v] *)
Lemma loads_dumps (v : pyval) : wf_pyval v -> loads (dumps v) = Some v.
Proof.
  intros Hwf. unfold loads, dumps.
  destruct (dumps_head v 0) as (c & t & Hd & Hc & _).
  pose proof (need_le_length v 0) as Hneed.
  pose proof (scan_once_dumps v Hwf 0 (S (String.length (dumps_at 0 v))) ""
                ltac:(lia) I) as Hscan.
  rewrite append_empty_r in Hscan.
  rewrite Hd in *. rewrite skip_ws_head by exact Hc.
  now rewrite Hscan.
Qed.

(** The record lists the program persists are well formed. *)
Lemma wf_records {A} (to_py : A -> pyval) (l : list A) :
  (forall r, wf_pyval (to_py r)) -> wf_pyval (PList (map to_py l)).
Proof.
  intros H. apply wf_list. induction l; constructor; auto.
Qed.

Ltac distinct_keys :=
  repeat (constructor; [cbn; intuition discriminate|]); constructor.

Lemma wf_wifi_record r : wf_pyval (wifi_to_py r).
Proof. cbn. repeat split. distinct_keys. Qed.

Lemma wf_bt_record r : wf_pyval (bt_to_py r).
Proof. cbn. repeat split. distinct_keys. Qed.

Lemma wf_ble_record r : wf_pyval (ble_to_py r).
Proof. cbn. repeat split. distinct_keys. Qed.

Lemma wf_btcomm_record r : wf_pyval (btcomm_to_py r).
Proof. cbn. repeat split. distinct_keys. Qed.

Lemma wf_wificomm_record r : wf_pyval (wificomm_to_py r).
Proof. cbn. repeat split. distinct_keys. Qed.

(** ** C3: what a persisted file is called and what it holds *)

(** C3. For every record set (a value whose dictionaries have distinct
    keys, as Python dictionaries do), subdirectory and prefix: an
    invocation of the persistence helper during which the directory
    creation, the opening and the writing succeed writes one file.  Its
    name is the prefix, an underscore, the time stamp with every colon
    replaced by a hyphen (no colon is left in it), and [.json], inside the
    subdirectory; no other file changes; and the text in the file, read
    with [json.loads], is the record set that was passed in. *)
Theorem write_json_round_trip (E : Env) (data : pyval) (subdir prefix : string)
    (w : World) :
  wf_pyval data ->
  os_makedirs E (tick w) (path_join (base_dir E) subdir) = None ->
  file_open_w E (S (S (tick w))) (json_filename E subdir prefix (tick w)) = None ->
  file_write E (S (S (S (tick w)))) (json_filename E subdir prefix (tick w))
    (dumps data) = None ->
  let stamp := replace_char ":" "-" (utcnow_iso E (S (tick w))) in
  let fname :=
    path_join (path_join (base_dir E) subdir)
              (prefix +:+ "_" +:+ stamp +:+ ".json") in
  occurs ":" stamp = false /\
  exists w' text,
    write_json E data subdir prefix w = (Ok tt, w') /\
    fs w' = <[fname := text]> (fs w) /\
    fs w' !! fname = Some text /\
    (forall other, other <> fname -> fs w' !! other = fs w !! other) /\
    loads text = Some data.
Proof.
  intros Hwf Hdir Hopen Hwrite stamp fname.
  split; [apply replace_char_removes; discriminate|].
  destruct (write_json_success E data subdir prefix w Hdir Hopen Hwrite)
    as (w' & Hrun & Hfs & _).
  exists w', (dumps data).
  split; [exact Hrun|]. split; [exact Hfs|].
  split; [rewrite Hfs; apply lookup_insert_eq|].
  split; [|now apply loads_dumps].
  intros other Hother. rewrite Hfs. now apply lookup_insert_ne.
Qed.

Lemma write_json_round_trip_witness :
  exists w' text,
    write_json calm_env (PList (map wifi_to_py two_aps)) "wifi_scans" "wifi" world0
      = (Ok tt, w') /\
    fs w' !! "/home/user/.scanner_logs/wifi_scans/wifi_2024-05-06T07-08-09.123456.json"
      = Some text /\
    loads text = Some (PList (map wifi_to_py two_aps)).
Proof.
  destruct (write_json_round_trip calm_env (PList (map wifi_to_py two_aps))
              "wifi_scans" "wifi" world0
              (wf_records wifi_to_py two_aps wf_wifi_record)
              eq_refl eq_refl eq_refl)
    as (_ & w' & text & Hrun & _ & Hfile & _ & Hload).
  exists w', text. split; [exact Hrun|]. split; [exact Hfile|exact Hload].
Defined.

(** ** The scheduler *)

(** *** Computations that return *)

Lemma returns_bind {A B} (P : A -> Prop) (Q : B -> Prop) (m : M A)
    (k : A -> M B) :
  returns P m -> (forall a, P a -> returns Q (k a)) -> returns Q (bind m k).
Proof.
  intros Hm Hk w. destruct (Hm w) as (a & w1 & Hrun & Ha).
  destruct (Hk a Ha w1) as (b & w2 & Hrun2 & Hb).
  exists b, w2. unfold bind. now rewrite Hrun.
Qed.

Lemma returns_try {A} (P : A -> Prop) (m : M A) (h : exn -> M A) :
  (forall e, returns P (h e)) -> returns (fun _ => True) (try_except m h).
Proof.
  intros Hh w. unfold try_except.
  destruct (m w) as [[a|e] w1]; [eauto|].
  destruct (Hh e w1) as (a & w2 & Hrun & _). eauto.
Qed.

Lemma returns_weaken {A} (P Q : A -> Prop) (m : M A) :
  returns P m -> (forall a, P a -> Q a) -> returns Q m.
Proof.
  intros Hm HPQ w. destruct (Hm w) as (a & w' & Hrun & Ha). eauto.
Qed.

Lemma returns_ret {A} (P : A -> Prop) (a : A) : P a -> returns P (ret a).
Proof. intros Ha w. now exists a, w. Qed.

Lemma returns_logging lv msg : returns (fun _ => True) (logging lv msg).
Proof. intros w. eexists _, _. split; [reflexivity|exact I]. Qed.

Lemma returns_sleep n : returns (fun _ => True) (sleep n).
Proof. intros w. eexists _, _. split; [reflexivity|exact I]. Qed.

Lemma returns_ask {A} (P : A -> Prop) ev (oracle : nat -> result A) :
  (forall t, exists a, oracle t = Ok a /\ P a) -> returns P (ask ev oracle).
Proof.
  intros H w. destruct (H (tick w)) as (a & Ho & Ha).
  exists a. eexists. unfold ask. rewrite Ho. split; [reflexivity|exact Ha].
Qed.

Lemma returns_timestamp E : returns (fun _ => True) (timestamp E).
Proof. apply returns_ask. intros t. eauto. Qed.

Lemma returns_mapM {A B} (f : A -> M B) (l : list A) :
  (forall a, returns (fun _ => True) (f a)) ->
  returns (fun _ => True) (mapM f l).
Proof.
  intros Hf. induction l as [|x r IH]; cbn [mapM].
  - now apply returns_ret.
  - eapply returns_bind; [apply Hf|intros y _].
    eapply returns_bind; [apply IH|intros ys _]. now apply returns_ret.
Qed.

(** *** The clock *)

Lemma clock_adds_bind {A B} (n k : nat) (m : M A) (f : A -> M B) :
  clock_adds n m -> (forall a, clock_adds k (f a)) ->
  clock_adds (n + k) (bind m f).
Proof.
  intros Hm Hf w b w'. unfold bind.
  destruct (m w) as [[a|e] w1] eqn:Hrun; [|discriminate].
  intros Hk. apply Hm in Hrun. apply Hf in Hk. lia.
Qed.

Lemma clock_adds_keeps {A} (m : M A) : keeps clock m -> clock_adds 0 m.
Proof.
  intros Hm w a w' Hrun. specialize (Hm w). rewrite Hrun in Hm. cbn in Hm. lia.
Qed.

Lemma clock_adds_sleep n : clock_adds n (sleep n).
Proof. intros w a w' [= <- <-]. reflexivity. Qed.

(** *** What the log shows, and the jobs *)

Lemma cycles_started_logging lv msg w :
  is_cycle_start (lv, msg) = false ->
  cycles_started (set_log (log w ++ [(lv, msg)]) w) = cycles_started w.
Proof.
  intros H. unfold cycles_started. cbn [log set_log].
  rewrite List.filter_app, length_app. cbn [List.filter]. rewrite H.
  cbn. lia.
Qed.

Lemma keeps_cycles_logging lv msg :
  is_cycle_start (lv, msg) = false -> keeps cycles_started (logging lv msg).
Proof. intros H w. now apply cycles_started_logging. Qed.

Ltac quiet_tac :=
  repeat split;
  repeat match goal with
         | |- keeps _ (bind _ _) => apply keeps_bind; [|intros ?; cbv beta]
         | |- keeps _ (try_except _ _) => apply keeps_try; [|intros ?; cbv beta]
         | |- keeps _ (mapM _ _) => apply keeps_mapM; intros ?; cbv beta
         | |- keeps cycles_started (logging _ _) =>
             apply keeps_cycles_logging; reflexivity
         | H : quiet ?m |- keeps _ ?m => apply H
         | |- keeps _ _ => solve [intros ?; reflexivity | auto with keeps]
         end.

Lemma quiet_open_and_dump E filename data : quiet (open_and_dump E filename data).
Proof.
  unfold open_and_dump.
  repeat split; (apply keeps_bind; [quiet_tac|intros _]);
    (apply keeps_bind; [quiet_tac|intros _]);
    intros w; destruct (file_write E (tick w) filename (dumps data)) as [[k e]|];
    reflexivity.
Qed.

Lemma quiet_write_json E data subdir prefix :
  quiet (write_json E data subdir prefix).
Proof.
  pose proof (quiet_open_and_dump E) as Hdump.
  unfold write_json, timestamp. cbv zeta.
  repeat split;
    (apply keeps_bind; [quiet_tac|intros _]);
    (apply keeps_bind; [quiet_tac|intros ts]);
    (apply keeps_try; [|intros e; quiet_tac]);
    (apply keeps_bind; [apply Hdump|intros _]); quiet_tac.
Qed.

Lemma quiet_scan_bluetooth_classic E : quiet (scan_bluetooth_classic E).
Proof.
  pose proof (quiet_write_json E) as Hw.
  unfold scan_bluetooth_classic, timestamp.
  repeat split;
    (apply keeps_try; [|intros e; quiet_tac]);
    (apply keeps_bind; [quiet_tac|intros devices]);
    (apply keeps_bind; [quiet_tac|intros data]);
    (apply keeps_bind; [apply Hw|intros _]); quiet_tac.
Qed.

Lemma quiet_scan_bluetooth_ble E : quiet (scan_bluetooth_ble E).
Proof.
  pose proof (quiet_write_json E) as Hw.
  unfold scan_bluetooth_ble, timestamp.
  repeat split;
    (apply keeps_try; [|intros e; quiet_tac]);
    (apply keeps_bind; [quiet_tac|intros devices]);
    (apply keeps_bind; [quiet_tac|intros data]);
    (apply keeps_bind; [apply Hw|intros _]); quiet_tac.
Qed.

Lemma quiet_communicate_bluetooth E addr : quiet (communicate_bluetooth E addr).
Proof.
  unfold communicate_bluetooth, communicate_bluetooth_try, timestamp.
  quiet_tac.
Qed.

Lemma quiet_communicate_wifi E target : quiet (communicate_wifi E target).
Proof.
  unfold communicate_wifi, communicate_wifi_try, timestamp. quiet_tac.
Qed.

Lemma quiet_bt_loop E l : forall acc, quiet (bt_loop E l acc).
Proof.
  induction l as [|d rest IH]; intros acc; cbn [bt_loop]; [quiet_tac|].
  pose proof (quiet_communicate_bluetooth E (bAddress d)) as Hc.
  repeat split; (apply keeps_bind; [apply Hc|intros [r|]]); apply IH.
Qed.

Lemma quiet_wifi_loop E l : forall acc, quiet (wifi_loop E l acc).
Proof.
  induction l as [|ap rest IH]; intros acc; cbn [wifi_loop]; [quiet_tac|].
  pose proof (quiet_communicate_wifi E (wBSSID ap)) as Hc.
  destruct (negb (String.eqb (wBSSID ap) "")); [|apply IH].
  repeat split; (apply keeps_bind; [apply Hc|intros [r|]]); apply IH.
Qed.

Lemma quiet_auto_communicate E bt wifi : quiet (auto_communicate E bt wifi).
Proof.
  pose proof (quiet_write_json E) as Hw.
  pose proof (quiet_bt_loop E bt []) as Hb.
  pose proof (quiet_wifi_loop E wifi []) as Hl.
  unfold auto_communicate, bt_comm_phase, wifi_comm_phase.
  repeat split;
    (apply keeps_bind; [apply keeps_bind; [apply Hb|intros ?; apply Hw]|intros _]);
    (apply keeps_bind; [apply Hl|intros ?; apply Hw]).
Qed.

(** *** A cycle on a safe host *)

Lemma returns_write_json E data subdir prefix :
  cycle_safe_env E -> returns (fun _ => True) (write_json E data subdir prefix).
Proof.
  intros (_ & _ & _ & Hdir) w.
  destruct (write_json_returns E data subdir prefix w (Hdir _ _)) as (w' & ->).
  eauto.
Qed.

Lemma returns_auto_communicate E bt wifi :
  cycle_safe_env E -> returns (fun _ => True) (auto_communicate E bt wifi).
Proof.
  intros Hsafe. unfold auto_communicate, bt_comm_phase, wifi_comm_phase.
  eapply returns_bind with (P := fun _ => True).
  - eapply returns_bind with (P := fun _ => True).
    + intros w. destruct (bt_loop_returns E bt [] w) as (res & w' & -> & _).
      eauto.
    + intros a _. now apply returns_write_json.
  - intros _ _. eapply returns_bind with (P := fun _ => True).
    + intros w. destruct (wifi_loop_returns E wifi [] w)
        as (res & w' & evs & -> & _). eauto.
    + intros a _. now apply returns_write_json.
Qed.

Lemma returns_scan_wifi E :
  cycle_safe_env E -> returns (fun _ => True) (scan_wifi E).
Proof.
  intros Hsafe. pose proof Hsafe as (Hif & Hscan & Hres & _).
  unfold scan_wifi.
  eapply returns_bind with (P := fun l => l <> []).
  { apply returns_ask. intros t. destruct (Hif t) as (i & rest & ->).
    eexists. split; [reflexivity|discriminate]. }
  intros [|i rest] Hne; [congruence|].
  eapply returns_bind with (P := fun _ => True).
  { intros w. eexists _, _. split; [reflexivity|exact I]. }
  intros iface _.
  eapply returns_bind with (P := fun _ => True).
  { apply returns_ask. intros t. rewrite Hscan. now exists tt. }
  intros _ _.
  eapply returns_bind; [apply returns_sleep|intros _ _].
  eapply returns_bind with (P := fun _ => True).
  { apply returns_ask. intros t. destruct (Hres t iface) as (l & ->). eauto. }
  intros results _.
  eapply returns_bind with (P := fun _ => True).
  { apply returns_mapM. intros net.
    eapply returns_bind; [apply returns_timestamp|intros ts _].
    now apply returns_ret. }
  intros data _.
  eapply returns_bind; [now apply returns_write_json|intros _ _].
  now apply returns_ret.
Qed.

Lemma scan_wifi_effect E :
  clock_adds 5 (scan_wifi E) /\ keeps jobs (scan_wifi E) /\
  keeps cycles_started (scan_wifi E).
Proof.
  pose proof (quiet_write_json E) as Hw.
  unfold scan_wifi, timestamp. split; [|split].
  - change 5 with (0 + (0 + (0 + (5 + (0 + (0 + (0 + 0))))))).
    apply clock_adds_bind; [apply clock_adds_keeps; quiet_tac|intros ifaces].
    apply clock_adds_bind; [apply clock_adds_keeps; quiet_tac|intros iface].
    apply clock_adds_bind; [apply clock_adds_keeps; quiet_tac|intros _].
    apply clock_adds_bind; [apply clock_adds_sleep|intros _].
    apply clock_adds_bind; [apply clock_adds_keeps; quiet_tac|intros results].
    apply clock_adds_bind; [apply clock_adds_keeps; quiet_tac|intros data].
    apply clock_adds_bind; [apply clock_adds_keeps; apply Hw|intros _].
    apply clock_adds_keeps. quiet_tac.
  - do 6 (apply keeps_bind; [quiet_tac|intros ?]).
    apply keeps_bind; [apply Hw|intros _]. quiet_tac.
  - do 6 (apply keeps_bind; [quiet_tac|intros ?]).
    apply keeps_bind; [apply Hw|intros _]. quiet_tac.
Qed.

(** On a safe host a cycle returns; it takes the five seconds of the
    pause in [scan_wifi], leaves the jobs alone and shows in the log as one
    more started cycle. *)
Lemma scan_and_communicate_effect E w :
  cycle_safe_env E ->
  exists w',
    scan_and_communicate E false w = (Ok tt, w') /\
    clock w' = clock w + 5 /\
    jobs w' = jobs w /\
    cycles_started w' = S (cycles_started w).
Proof.
  intros Hsafe. unfold scan_and_communicate.
  unfold bind at 1. unfold logging at 1.
  set (w0 := set_log _ w).
  assert (H0 : clock w0 = clock w /\ jobs w0 = jobs w /\
               cycles_started w0 = S (cycles_started w)).
  { subst w0. repeat split. unfold cycles_started. cbn [log set_log].
    rewrite List.filter_app, length_app. cbn. lia. }
  destruct H0 as (Hc0 & Hj0 & Hn0).
  destruct (returns_scan_wifi E Hsafe w0) as (wifi & w1 & Hrun1 & _).
  destruct (scan_wifi_effect E) as (Hclk & Hjobs & Hcyc).
  pose proof (Hclk _ _ _ Hrun1) as Hc1.
  pose proof (Hjobs w0) as Hj1. pose proof (Hcyc w0) as Hn1.
  rewrite Hrun1 in Hj1, Hn1. cbn [snd] in Hj1, Hn1.
  unfold bind at 1. rewrite Hrun1.
  destruct (scan_bluetooth_classic_returns E w1) as (bt & w2 & Hrun2 & _).
  destruct (quiet_scan_bluetooth_classic E) as (Q2c & Q2j & Q2n).
  specialize (Q2c w1). specialize (Q2j w1). specialize (Q2n w1).
  rewrite Hrun2 in Q2c, Q2j, Q2n. cbn [snd] in Q2c, Q2j, Q2n.
  unfold bind at 1. rewrite Hrun2.
  destruct (scan_bluetooth_ble_returns E w2) as (ble & w3 & Hrun3 & _).
  destruct (quiet_scan_bluetooth_ble E) as (Q3c & Q3j & Q3n).
  specialize (Q3c w2). specialize (Q3j w2). specialize (Q3n w2).
  rewrite Hrun3 in Q3c, Q3j, Q3n. cbn [snd] in Q3c, Q3j, Q3n.
  unfold bind at 1. rewrite Hrun3.
  destruct (returns_auto_communicate E bt wifi Hsafe w3) as ([] & w4 & Hrun4 & _).
  destruct (quiet_auto_communicate E bt wifi) as (Q4c & Q4j & Q4n).
  specialize (Q4c w3). specialize (Q4j w3). specialize (Q4n w3).
  rewrite Hrun4 in Q4c, Q4j, Q4n. cbn [snd] in Q4c, Q4j, Q4n.
  unfold bind at 1. rewrite Hrun4.
  exists w4. split; [reflexivity|].
  repeat split; congruence || lia.
Qed.

(** *** One job in the scheduler *)

Lemma run_pending_idle E w j :
  jobs w = [j] -> clock w < next_run j -> run_pending E w = (Ok tt, w).
Proof.
  intros Hj Hlt. unfold run_pending, runnable_jobs. rewrite Hj.
  cbn [enumerate_from List.filter snd].
  destruct (Nat.leb_spec (next_run j) (clock w)) as [Hle|_]; [lia|].
  reflexivity.
Qed.

Lemma run_pending_due E w j :
  jobs w = [j] -> next_run j <= clock w ->
  run_pending E w = (run_job_func E (job_fn j) ;; reschedule 0 ;; ret tt) w.
Proof.
  intros Hj Hle. unfold run_pending, runnable_jobs. rewrite Hj.
  cbn [enumerate_from List.filter snd].
  destruct (Nat.leb_spec (next_run j) (clock w)) as [_|Hlt]; [|lia].
  reflexivity.
Qed.

(** While the job is not due, a round of the loop is a pause of a second. *)
Lemma poll_loop_idle E (n : nat) :
  forall w j,
    jobs w = [j] -> clock w + n <= next_run j ->
    poll_loop E n w = (Ok tt, set_clock (clock w + n) w).
Proof.
  induction n as [|n IH]; intros w j Hj Hle.
  - cbn. unfold ret, set_clock. rewrite Nat.add_0_r. now destruct w.
  - cbn [poll_loop]. unfold bind at 1.
    rewrite (run_pending_idle E w j Hj) by lia.
    unfold bind at 1. unfold sleep at 1.
    rewrite (IH (set_clock (clock w + 1) w) j); cbn [jobs clock set_clock];
      [|exact Hj|lia].
    unfold set_clock. cbn [clock tick fs log console trace jobs].
    replace (clock w + 1 + n) with (clock w + S n) by lia. reflexivity.
Qed.

Lemma poll_loop_safe E (n : nat) :
  cycle_safe_env E ->
  forall w d,
    jobs w = [mkJob 3600 (clock w + d) JobScanAndCommunicate] ->
    exists w',
      poll_loop E n w = (Ok tt, w') /\
      cycles_started w' = cycles_started w + due_runs n d /\
      clock w' = clock w + n + 5 * due_runs n d.
Proof.
  intros Hsafe. induction n as [|n IH]; intros w d Hj.
  - exists w. cbn [poll_loop due_runs]. unfold ret. repeat split; lia.
  - cbn [poll_loop due_runs]. unfold bind at 1.
    destruct d as [|d'].
    + rewrite (run_pending_due E w _ Hj) by (cbn [next_run]; lia).
      cbn [job_fn run_job_func].
      destruct (scan_and_communicate_effect E w Hsafe)
        as (w1 & Hrun & Hc1 & Hj1 & Hn1).
      unfold bind at 1. rewrite Hrun.
      unfold bind at 1. unfold reschedule at 1. rewrite Hj1, Hj.
      cbn [lookup list_lookup period job_fn].
      unfold ret at 1. unfold bind at 1. unfold sleep at 1.
      match goal with
      | |- context [poll_loop E n ?w3] =>
          destruct (IH w3 3599) as (w' & Hloop & Hn & Hc)
      end.
      { cbn [jobs clock set_clock set_jobs insert list_insert].
        replace (clock w1 + 1 + 3599) with (clock w1 + 3600) by lia.
        reflexivity. }
      exists w'. split; [exact Hloop|].
      cbn [clock set_clock set_jobs] in Hc.
      unfold cycles_started in *. cbn [log set_clock set_jobs] in Hn.
      split; lia.
    + rewrite (run_pending_idle E w _ Hj) by (cbn [next_run]; lia).
      unfold bind at 1. unfold sleep at 1.
      destruct (IH (set_clock (clock w + 1) w) d') as (w' & Hloop & Hn & Hc).
      { cbn [jobs clock set_clock]. rewrite Hj.
        replace (clock w + 1 + d') with (clock w + S d') by lia.
        reflexivity. }
      exists w'. split; [exact Hloop|].
      cbn [clock set_clock] in Hc.
      unfold cycles_started in *. cbn [log set_clock] in Hn.
      split; lia.
Qed.

Lemma due_runs_closed (n : nat) :
  forall d, d <= 3600 -> due_runs n d = (n + 3599 - d) / 3600.
Proof.
  induction n as [|n IH]; intros d Hd.
  - cbn [due_runs]. symmetry. apply Nat.div_small. lia.
  - cbn [due_runs]. destruct d as [|d'].
    + rewrite IH by lia.
      replace (S n + 3599 - 0) with ((n + 3599 - 3599) + 1 * 3600) by lia.
      rewrite Nat.div_add by lia. lia.
    + rewrite IH by lia. reflexivity.
Qed.

(** The state in which the loop of [hourly_scheduler] is entered. *)
Lemma hourly_scheduler_start E n w :
  jobs w = [] ->
  hourly_scheduler E n w =
  poll_loop E n
    (set_log (log w ++ [(INFO, "Hourly auto-scan running. Ctrl+C to stop.")])
       (set_jobs [mkJob 3600 (clock w + 3600) JobScanAndCommunicate] w)).
Proof.
  intros Hj. unfold hourly_scheduler, schedule_every_hours_do.
  unfold bind at 1. rewrite Hj, Nat.mul_1_l. cbn [app].
  unfold bind at 1. unfold logging at 1. reflexivity.
Qed.

(** Hourly mode: [--hourly] given, [--once] and [--manual] not. *)
Lemma main_hourly E argv n :
  in_argv "--once" argv = false -> in_argv "--manual" argv = false ->
  in_argv "--hourly" argv = true ->
  main E argv n = hourly_scheduler E n.
Proof. intros H1 H2 H3. unfold main. now rewrite H1, H2, H3. Qed.

(** During the first hour no cycle starts, whatever the host. *)
Lemma hourly_scheduler_idle_hour E w0 n :
  jobs w0 = [] -> n <= 3600 ->
  exists w',
    hourly_scheduler E n w0 = (Ok tt, w') /\
    cycles_started w' = cycles_started w0 /\
    clock w' = clock w0 + n.
Proof.
  intros Hj Hn. rewrite hourly_scheduler_start by exact Hj.
  erewrite poll_loop_idle;
    [|reflexivity|cbn [clock set_log set_jobs next_run]; lia].
  eexists. split; [reflexivity|].
  split; [|reflexivity].
  exact (cycles_started_logging INFO "Hourly auto-scan running. Ctrl+C to stop."
           (set_jobs _ w0) eq_refl).
Qed.

Lemma calm_env_safe : cycle_safe_env calm_env.
Proof.
  repeat split; intros; cbn; eauto.
Qed.

(** ** C2: the first cycle comes after an hour *)

(** C2, as the code has it.  Started in hourly mode with no job
    registered yet, the scheduler does not run the cycle at start: the job
    is due one hour later.  During the first 3600 rounds of the loop (one
    pause of a second each) no cycle starts, on any host.  On a host where
    a cycle cannot raise, the loop never ends by itself, and after [n]
    rounds [(n - 1) / 3600] cycles have started: the first one in the
    round after the 3600th pause, the next ones every 3600 rounds, that is
    one hour after the previous cycle ended. *)
Theorem hourly_scheduler_first_run_after_an_hour (E : Env) (w0 : World) :
  jobs w0 = [] ->
  (forall n, n <= 3600 ->
     exists w',
       hourly_scheduler E n w0 = (Ok tt, w') /\
       cycles_started w' = cycles_started w0 /\
       clock w' = clock w0 + n)
  /\
  (cycle_safe_env E ->
   forall n,
     exists w',
       hourly_scheduler E n w0 = (Ok tt, w') /\
       cycles_started w' = cycles_started w0 + (n - 1) / 3600 /\
       clock w' = clock w0 + n + 5 * ((n - 1) / 3600)).
Proof.
  intros Hj. split.
  - intros n Hn. now apply hourly_scheduler_idle_hour.
  - intros Hsafe n. rewrite hourly_scheduler_start by exact Hj.
    match goal with
    | |- context [poll_loop E n ?w1] =>
        destruct (poll_loop_safe E n Hsafe w1 3600 eq_refl)
          as (w' & Hloop & Hn & Hc)
    end.
    exists w'. split; [exact Hloop|].
    rewrite due_runs_closed in Hn, Hc by lia.
    replace (n + 3599 - 3600) with (n - 1) in Hn, Hc by lia.
    cbn [clock set_log set_jobs] in Hc.
    rewrite (cycles_started_logging INFO "Hourly auto-scan running. Ctrl+C to stop."
               (set_jobs _ w0) eq_refl) in Hn.
    split; [exact Hn|exact Hc].
Qed.

Lemma hourly_scheduler_first_run_after_an_hour_witness :
  (exists w',
     hourly_scheduler calm_env 3600 world0 = (Ok tt, w') /\
     cycles_started w' = 0) /\
  (exists w',
     hourly_scheduler calm_env 3601 world0 = (Ok tt, w') /\
     cycles_started w' = 1).
Proof.
  destruct (hourly_scheduler_first_run_after_an_hour calm_env world0 eq_refl)
    as [Hidle Hsafe].
  split.
  - destruct (Hidle 3600 (le_n _)) as (w' & Hrun & Hn & _).
    exists w'. split; [exact Hrun|exact Hn].
  - destruct (Hsafe calm_env_safe 3601) as (w' & Hrun & Hn & _).
    exists w'. split; [exact Hrun|].
    rewrite Hn. change (3601 - 1) with (1 * 3600).
    rewrite Nat.div_mul by discriminate. reflexivity.
Defined.

(** C2 as the specification states it fails: on a calm host no cycle
    starts at any moment of the first hour after the start. *)
Lemma hourly_scheduler_not_immediate :
  ~ (exists n w',
       n <= 3600 /\
       hourly_scheduler calm_env n world0 = (Ok tt, w') /\
       1 <= cycles_started w').
Proof.
  intros (n & w' & Hn & Hrun & Hstarted).
  destruct (hourly_scheduler_idle_hour calm_env world0 n eq_refl Hn)
    as (w1 & Hrun1 & Hzero & _).
  rewrite Hrun in Hrun1. injection Hrun1 as <-.
  rewrite Hzero in Hstarted. cbn in Hstarted. lia.
Qed.

(** * Further properties of the program *)

(** Computes the parts of a world that was built step by step. *)
Ltac wsimpl :=
  cbn [clock tick fs log console trace jobs
       set_clock set_tick set_fs set_log set_console set_trace set_jobs
       after_ticks fst snd].

(** ** Building the records of a scan *)

Lemma mapM_stamp_run {A B} E (mk : A -> string -> B) (l : list A) :
  forall w,
    mapM (fun x => let! ts := timestamp E in ret (mk x ts)) l w
    = (Ok (stamp_all E mk l (tick w)), after_ticks (length l) w).
Proof.
  induction l as [|x r IH]; intros w.
  - cbn. unfold ret, after_ticks. rewrite Nat.add_0_r. now destruct w.
  - cbn [mapM stamp_all length]. unfold bind at 1 2. unfold timestamp at 1.
    unfold ask at 1. cbn [fst snd]. unfold ret at 1. unfold bind at 1.
    rewrite IH. unfold ret, after_ticks.
    cbn [clock tick fs log console trace jobs set_tick set_trace].
    rewrite app_nil_r.
    replace (tick w + S (length r)) with (S (tick w) + length r) by lia.
    reflexivity.
Qed.

Lemma stamp_all_length {A B} E (mk : A -> string -> B) (l : list A) t :
  length (stamp_all E mk l t) = length l.
Proof. revert t. induction l; intros t; cbn; congruence. Qed.

Lemma stamp_all_map {A B C} E (mk : A -> string -> B) (f : B -> C) (g : A -> C)
    (l : list A) t :
  (forall x ts, f (mk x ts) = g x) ->
  map f (stamp_all E mk l t) = map g l.
Proof.
  intros H. revert t. induction l as [|x r IH]; intros t; cbn; [reflexivity|].
  now rewrite H, IH.
Qed.

Lemma stamp_all_Forall {A B} E (mk : A -> string -> B) (P : B -> Prop)
    (l : list A) t :
  (forall x ts, P (mk x ts)) -> Forall P (stamp_all E mk l t).
Proof.
  intros H. revert t. induction l as [|x r IH]; intros t; constructor; auto.
Qed.

(** ** The Bluetooth scans *)

(** X1. When the classic discovery raises, [scan_bluetooth_classic]
    returns the empty list, logs the error and writes no file. *)
Theorem scan_bluetooth_classic_error_contained (E : Env) (w : World) (e : exn) :
  bt_discover_devices E (tick w) = Raise e ->
  exists w',
    scan_bluetooth_classic E w = (Ok [], w') /\
    log w' = log w ++ [(ERROR, "Bluetooth Classic scan error: " +:+ exn_msg e)] /\
    fs w' = fs w /\
    trace w' = trace w ++ [EvBtDiscover].
Proof.
  intros He. unfold scan_bluetooth_classic, try_except.
  unfold bind at 1. unfold ask at 1. rewrite He. cbn.
  eexists. repeat split; reflexivity.
Qed.

Lemma scan_bluetooth_classic_error_contained_witness :
  exists w',
    scan_bluetooth_classic bt_off_env world0 = (Ok [], w') /\
    log w' = [(ERROR, "Bluetooth Classic scan error: No such device")].
Proof.
  destruct (scan_bluetooth_classic_error_contained bt_off_env world0
              (mkExn OSError "No such device") eq_refl)
    as (w' & Hrun & Hlog & _).
  exists w'. split; [exact Hrun|exact Hlog].
Defined.

(** X2. When the BLE discovery raises, [scan_bluetooth_ble] returns the
    empty list, logs the error and writes no file. *)
Theorem scan_bluetooth_ble_error_contained (E : Env) (w : World) (e : exn) :
  ble_discover E (tick w) = Raise e ->
  exists w',
    scan_bluetooth_ble E w = (Ok [], w') /\
    log w' = log w ++ [(ERROR, "BLE scan error: " +:+ exn_msg e)] /\
    fs w' = fs w /\
    trace w' = trace w ++ [EvBleDiscover].
Proof.
  intros He. unfold scan_bluetooth_ble, try_except.
  unfold bind at 1. unfold ask at 1. rewrite He. cbn.
  eexists. repeat split; reflexivity.
Qed.

Lemma scan_bluetooth_ble_error_contained_witness :
  exists w',
    scan_bluetooth_ble bt_off_env world0 = (Ok [], w') /\
    log w' = [(ERROR, "BLE scan error: Bluetooth adapter is off")].
Proof.
  destruct (scan_bluetooth_ble_error_contained bt_off_env world0
              (mkExn OSError "Bluetooth adapter is off") eq_refl)
    as (w' & Hrun & Hlog & _).
  exists w'. split; [exact Hrun|exact Hlog].
Defined.

(** The classic scan up to the call of [write_json]. *)
Lemma scan_bluetooth_classic_run E w devices :
  bt_discover_devices E (tick w) = Ok devices ->
  let data :=
    stamp_all E (fun d ts => mkBt (fst d) (snd d) "Classic" ts) devices
      (S (tick w)) in
  let w2 :=
    after_ticks (length devices)
      (set_tick (S (tick w)) (set_trace (trace w ++ [EvBtDiscover]) w)) in
  scan_bluetooth_classic E w =
  match write_json E (PList (map bt_to_py data)) "bt_scans" "classic" w2 with
  | (Ok _, w3) => (Ok data, w3)
  | (Raise e, w3) =>
      (Ok [], set_log (log w3 ++ [(ERROR, "Bluetooth Classic scan error: "
                                           +:+ exn_msg e)]) w3)
  end.
Proof.
  intros Hd data w2. unfold scan_bluetooth_classic, try_except.
  unfold bind at 1. unfold ask at 1. rewrite Hd. cbn [fst snd].
  unfold bind at 1.
  rewrite (mapM_stamp_run E (fun d ts => mkBt (fst d) (snd d) "Classic" ts)).
  unfold bind at 1. wsimpl. fold data. fold w2.
  destruct (write_json E (PList (map bt_to_py data)) "bt_scans" "classic" w2)
    as [[[]|e] w3]; reflexivity.
Qed.

(** X3. When the classic discovery answers and the log directory can be
    created, [scan_bluetooth_classic] returns one record per discovered
    device, in the order of discovery, with the address and the name of
    the device and the type tag "Classic", whether or not the file could
    be written. *)
Theorem scan_bluetooth_classic_records (E : Env) (w : World)
    (devices : list (string * string)) :
  bt_discover_devices E (tick w) = Ok devices ->
  os_makedirs E (S (tick w) + length devices) (path_join (base_dir E) "bt_scans")
    = None ->
  exists data w',
    scan_bluetooth_classic E w = (Ok data, w') /\
    map bAddress data = map fst devices /\
    map bName data = map snd devices /\
    Forall (fun r => bType r = "Classic") data.
Proof.
  intros Hd Hdir. rewrite (scan_bluetooth_classic_run E w devices Hd). cbv zeta.
  set (data := stamp_all E _ devices (S (tick w))).
  set (w2 := after_ticks _ _).
  destruct (write_json_returns E (PList (map bt_to_py data)) "bt_scans" "classic"
              w2 Hdir) as (w3 & ->).
  exists data, w3. split; [reflexivity|].
  split; [now apply stamp_all_map|]. split; [now apply stamp_all_map|].
  now apply stamp_all_Forall.
Qed.

Lemma scan_bluetooth_classic_records_witness :
  exists data w',
    scan_bluetooth_classic busy_env world0 = (Ok data, w') /\
    map bAddress data = ["00:11:22:33:44:55"; "66:77:88:99:AA:BB"] /\
    map bName data = ["phone"; "watch"].
Proof.
  destruct (scan_bluetooth_classic_records busy_env world0
              [("00:11:22:33:44:55", "phone"); ("66:77:88:99:AA:BB", "watch")]
              eq_refl eq_refl) as (data & w' & Hrun & Ha & Hn & _).
  exists data, w'. split; [exact Hrun|]. split; [exact Ha|exact Hn].
Defined.

(** X4. When the devices were discovered but the log directory cannot
    be created, the error of [write_json] is caught by the scan: it logs
    it as a scan error and returns the empty list, so the discovered
    devices are lost to the rest of the cycle. *)
Theorem scan_bluetooth_classic_loses_devices (E : Env) (w : World)
    (devices : list (string * string)) (e : exn) :
  bt_discover_devices E (tick w) = Ok devices ->
  os_makedirs E (S (tick w) + length devices) (path_join (base_dir E) "bt_scans")
    = Some e ->
  exists w',
    scan_bluetooth_classic E w = (Ok [], w') /\
    log w' = log w ++ [(ERROR, "Bluetooth Classic scan error: " +:+ exn_msg e)] /\
    fs w' = fs w.
Proof.
  intros Hd Hdir. rewrite (scan_bluetooth_classic_run E w devices Hd). cbv zeta.
  rewrite write_json_run. cbv zeta.
  wsimpl. rewrite Hdir.
  eexists. repeat split; reflexivity.
Qed.

Lemma scan_bluetooth_classic_loses_devices_witness :
  exists w',
    scan_bluetooth_classic (no_dirs_env busy_env) world0 = (Ok [], w') /\
    log w' = [(ERROR, "Bluetooth Classic scan error: [Errno 13] Permission denied")].
Proof.
  destruct (scan_bluetooth_classic_loses_devices (no_dirs_env busy_env) world0
              [("00:11:22:33:44:55", "phone"); ("66:77:88:99:AA:BB", "watch")]
              (mkExn OSError "[Errno 13] Permission denied") eq_refl eq_refl)
    as (w' & Hrun & Hlog & _).
  exists w'. split; [exact Hrun|exact Hlog].
Defined.

(** X5. When the BLE discovery answers and the log directory can be
    created, [scan_bluetooth_ble] returns one record per device, in order,
    with its address and signal strength and the type tag "BLE"; the name
    is the one of the device, or "Unknown" when the device has none or an
    empty one, so no record has an empty name. *)
Theorem scan_bluetooth_ble_records (E : Env) (w : World) (devices : list BLEDevice) :
  ble_discover E (tick w) = Ok devices ->
  os_makedirs E (S (tick w) + length devices) (path_join (base_dir E) "bt_scans")
    = None ->
  exists data w',
    scan_bluetooth_ble E w = (Ok data, w') /\
    map eAddress data = map address devices /\
    map eName data = map ble_name devices /\
    map eRSSI data = map rssi devices /\
    Forall (fun r => eType r = "BLE" /\ eName r <> "") data.
Proof.
  intros Hd Hdir. unfold scan_bluetooth_ble, try_except.
  unfold bind at 1. unfold ask at 1. rewrite Hd. cbn [fst snd].
  unfold bind at 1.
  rewrite (mapM_stamp_run E
             (fun d ts => mkBleRec (address d) (ble_name d) (rssi d) "BLE" ts)).
  unfold bind at 1. wsimpl.
  set (data := stamp_all E _ devices (S (tick w))).
  set (w2 := after_ticks _ _).
  destruct (write_json_returns E (PList (map ble_to_py data)) "bt_scans" "ble"
              w2 Hdir) as (w3 & ->).
  exists data, w3. split; [reflexivity|].
  split; [now apply stamp_all_map|]. split; [now apply stamp_all_map|].
  split; [now apply stamp_all_map|].
  apply stamp_all_Forall. intros d ts. cbn. split; [reflexivity|].
  unfold ble_name. destruct (name d) as [n|]; [|discriminate].
  destruct (String.eqb_spec n ""); [discriminate|assumption].
Qed.

Lemma scan_bluetooth_ble_records_witness :
  exists data w',
    scan_bluetooth_ble busy_env world0 = (Ok data, w') /\
    map eName data = ["tag"; "Unknown"].
Proof.
  destruct (scan_bluetooth_ble_records busy_env world0
              [mkBLE "C0:00:00:00:00:01" (Some "tag") (-60);
               mkBLE "C0:00:00:00:00:02" None (-80)]
              eq_refl eq_refl) as (data & w' & Hrun & _ & Hn & _).
  exists data, w'. split; [exact Hrun|exact Hn].
Defined.

(** ** The Wi-Fi scan *)



(** X7. [scan_wifi] returns only when every step of it went well: an
    interface was listed, it accepted the scan, it handed over its
    results, and the log directory could be created.  An error at any of
    these steps escapes the function. *)
Theorem scan_wifi_returns_only_if (E : Env) (w w' : World)
    (data : list WiFiRecord) :
  scan_wifi E w = (Ok data, w') ->
  exists iface others results,
    pywifi_interfaces E (tick w) = Ok (iface :: others) /\
    iface_scan E (S (tick w)) iface = None /\
    iface_scan_results E (S (S (tick w))) iface = Ok results /\
    os_makedirs E (3 + tick w + length results)
      (path_join (base_dir E) "wifi_scans") = None /\
    length data = length results.
Proof.
  unfold scan_wifi.
  unfold bind at 1. unfold ask at 1.
  destruct (pywifi_interfaces E (tick w)) as [[|iface others]|e] eqn:Hif;
    cbn [fst snd]; try discriminate.
  unfold bind at 1. unfold of_result at 1.
  change (py_index (iface :: others) 0) with (Ok iface).
  unfold bind at 1. unfold ask at 1. wsimpl.
  destruct (iface_scan E (S (tick w)) iface) as [e|] eqn:Hscan;
    cbn [lift_opt]; [discriminate|].
  unfold bind at 1. unfold sleep at 1.
  unfold bind at 1. unfold ask at 1. wsimpl.
  destruct (iface_scan_results E (S (S (tick w))) iface) as [results|e] eqn:Hres;
    [|discriminate].
  unfold bind at 1.
  rewrite (mapM_stamp_run E
             (fun net ts => mkWiFi (ssid net) (bssid net) (signal net) (freq net) ts)).
  wsimpl.
  set (stamped := stamp_all E _ results _).
  set (w5 := after_ticks _ _).
  unfold bind at 1. rewrite write_json_run. cbv zeta.
  replace (tick w5) with (3 + tick w + length results)
    by (subst w5; wsimpl; lia).
  destruct (os_makedirs E (3 + tick w + length results)
              (path_join (base_dir E) "wifi_scans")) as [e|] eqn:Hdir;
    [discriminate|].
  intros Hrun.
  assert (Hdata : data = stamped).
  { destruct (file_open_w E _ _) as [e|];
      [|destruct (file_write E _ _ _) as [[k e]|]];
      unfold ret in Hrun; now injection Hrun as <- _. }
  exists iface, others, results. repeat split; try assumption.
  rewrite Hdata. subst stamped. apply stamp_all_length.
Qed.

Lemma scan_wifi_returns_only_if_witness :
  exists iface others,
    pywifi_interfaces busy_env 0 = Ok (iface :: others) /\ iface = "wlan0".
Proof.
  destruct (scan_wifi busy_env world0) as [[data|e] w'] eqn:Hrun;
    [|vm_compute in Hrun; discriminate].
  destruct (scan_wifi_returns_only_if busy_env world0 w' data Hrun)
    as (iface & others & results & Hif & _).
  exists iface, others. split; [exact Hif|].
  cbn in Hif. now injection Hif as <- _.
Defined.

(** ** The persistence helper, continued *)

Lemma write_json_makedirs_failure E data subdir prefix w e :
  os_makedirs E (tick w) (path_join (base_dir E) subdir) = Some e ->
  exists w',
    write_json E data subdir prefix w = (Raise e, w') /\
    fs w' = fs w /\
    trace w' = trace w ++ [EvMakedirs (path_join (base_dir E) subdir)].
Proof.
  intros Hdir. rewrite write_json_run. cbv zeta. rewrite Hdir.
  eexists. repeat split; reflexivity.
Qed.

(** X8. When the log directory cannot be created, [write_json] raises
    the error of [os.makedirs] to its caller: nothing is opened, written or
    logged. *)
Theorem write_json_makedirs_propagates (E : Env) (data : pyval)
    (subdir prefix : string) (w : World) (e : exn) :
  os_makedirs E (tick w) (path_join (base_dir E) subdir) = Some e ->
  exists w',
    write_json E data subdir prefix w = (Raise e, w') /\
    fs w' = fs w /\
    log w' = log w /\
    trace w' = trace w ++ [EvMakedirs (path_join (base_dir E) subdir)].
Proof.
  intros Hdir. rewrite write_json_run. cbv zeta. rewrite Hdir.
  eexists. repeat split; reflexivity.
Qed.

Lemma write_json_makedirs_propagates_witness :
  exists w',
    write_json (no_dirs_env calm_env) (PList []) "wifi_scans" "wifi" world0
      = (Raise (mkExn OSError "[Errno 13] Permission denied"), w') /\
    fs w' = fs world0.
Proof.
  destruct (write_json_makedirs_propagates (no_dirs_env calm_env) (PList [])
              "wifi_scans" "wifi" world0
              (mkExn OSError "[Errno 13] Permission denied") eq_refl)
    as (w' & Hrun & Hfs & _).
  exists w'. split; [exact Hrun|exact Hfs].
Defined.

(** X9. Whatever happens during a call of [write_json], every file
    other than the one it names is left as it was. *)
Theorem write_json_leaves_other_files (E : Env) (data : pyval)
    (subdir prefix : string) (w : World) (other : string) :
  other <> json_filename E subdir prefix (tick w) ->
  fs (snd (write_json E data subdir prefix w)) !! other = fs w !! other.
Proof.
  intros Hother. rewrite write_json_run. cbv zeta.
  destruct (os_makedirs E _ _) as [e|]; [reflexivity|].
  destruct (file_open_w E _ _) as [e|]; [reflexivity|].
  destruct (file_write E _ _ _) as [[k e]|]; cbn [snd];
    unfold set_log, set_tick, set_fs, set_trace; cbn [fs];
    rewrite !lookup_insert_ne by congruence; reflexivity.
Qed.

Lemma write_json_leaves_other_files_witness :
  fs (snd (write_json calm_env (PList []) "bt_scans" "classic" world_with_file))
    !! "/home/user/.scanner_logs/bt_scans/classic_x.json" = Some "[]".
Proof.
  rewrite (write_json_leaves_other_files calm_env (PList []) "bt_scans" "classic"
             world_with_file "/home/user/.scanner_logs/bt_scans/classic_x.json").
  - reflexivity.
  - intros H. vm_compute in H. discriminate H.
Defined.

(** ** One Bluetooth exchange *)

(** X10. When every socket operation succeeds, [communicate_bluetooth]
    connects to channel 1 of the address, sends the greeting, reads at
    most 1024 bytes and closes the socket, in this order, and returns a
    record with the address, the greeting without its line break and the
    answer without surrounding white space; nothing is logged. *)
Theorem communicate_bluetooth_success (E : Env) (addr : string) (w : World)
    (response : string) :
  rfcomm_socket E (tick w) = None ->
  rfcomm_connect E (S (tick w)) addr 1 = None ->
  rfcomm_send E (S (S (tick w))) addr greeting = None ->
  rfcomm_recv E (S (S (S (tick w)))) addr 1024 = Ok response ->
  rfcomm_close E (S (S (S (S (tick w))))) addr = None ->
  exists w',
    communicate_bluetooth E addr w
    = (Ok (Some (mkBtComm addr "Hello Bluetooth Device!" (strip response)
                   (utcnow_iso E (S (S (S (S (S (tick w))))))))), w') /\
    trace w' = trace w ++ [EvRfcommConnect addr 1; EvRfcommSend addr greeting;
                           EvRfcommRecv addr 1024; EvRfcommClose addr] /\
    log w' = log w /\
    fs w' = fs w.
Proof.
  intros Hsock Hconn Hsend Hrecv Hclose.
  unfold communicate_bluetooth, communicate_bluetooth_try, try_except, greeting in *.
  unfold bind, ask, print, timestamp, ret. wsimpl.
  rewrite Hsock. cbn [lift_opt]. wsimpl.
  rewrite Hconn. cbn [lift_opt]. wsimpl.
  rewrite Hsend. cbn [lift_opt]. wsimpl.
  rewrite Hrecv. wsimpl.
  rewrite Hclose. cbn [lift_opt]. wsimpl.
  eexists. split; [reflexivity|]. wsimpl.
  rewrite !app_nil_r, <- !app_assoc. repeat split; reflexivity.
Qed.

Lemma communicate_bluetooth_success_witness :
  exists r w',
    communicate_bluetooth calm_env "00:11:22:33:44:55" world0 = (Ok (Some r), w') /\
    cReceived r = "ok".
Proof.
  destruct (communicate_bluetooth_success calm_env "00:11:22:33:44:55" world0 "ok"
              eq_refl eq_refl eq_refl eq_refl eq_refl) as (w' & Hrun & _).
  eexists _, w'. split; [exact Hrun|reflexivity].
Defined.

(** X11. When an exchange fails before the socket is closed (at the
    creation of the socket, at the connection, at the sending or at the
    reading), [communicate_bluetooth] returns [None], logs the error, and
    never closes the socket. *)
Theorem communicate_bluetooth_failure_leaves_socket (E : Env) (addr : string)
    (w : World) (e : exn) :
  rfcomm_socket E (tick w) = Some e \/
  (rfcomm_socket E (tick w) = None /\
   (rfcomm_connect E (S (tick w)) addr 1 = Some e \/
    (rfcomm_connect E (S (tick w)) addr 1 = None /\
     (rfcomm_send E (S (S (tick w))) addr greeting = Some e \/
      (rfcomm_send E (S (S (tick w))) addr greeting = None /\
       rfcomm_recv E (S (S (S (tick w)))) addr 1024 = Raise e))))) ->
  exists w',
    communicate_bluetooth E addr w = (Ok None, w') /\
    log w' = log w ++ [(ERROR, "Bluetooth comm error: " +:+ exn_msg e)] /\
    closes w' = closes w.
Proof.
  intros H.
  unfold communicate_bluetooth, communicate_bluetooth_try, try_except, greeting,
    closes in *.
  unfold bind, ask, print, timestamp, ret, logging. wsimpl.
  destruct H as [Hs|[Hs [Hc|[Hc [Hd|[Hd Hr]]]]]].
  - rewrite Hs. cbn [lift_opt]. wsimpl.
    eexists. split; [reflexivity|]. wsimpl. now rewrite app_nil_r.
  - rewrite Hs. cbn [lift_opt]. wsimpl. rewrite Hc. cbn [lift_opt]. wsimpl.
    eexists. split; [reflexivity|]. wsimpl.
    rewrite !List.filter_app, app_nil_r. cbn. now rewrite app_nil_r.
  - rewrite Hs. cbn [lift_opt]. wsimpl. rewrite Hc. cbn [lift_opt]. wsimpl.
    rewrite Hd. cbn [lift_opt]. wsimpl.
    eexists. split; [reflexivity|]. wsimpl.
    rewrite !List.filter_app, app_nil_r. cbn. now rewrite !app_nil_r.
  - rewrite Hs. cbn [lift_opt]. wsimpl. rewrite Hc. cbn [lift_opt]. wsimpl.
    rewrite Hd. cbn [lift_opt]. wsimpl. rewrite Hr. wsimpl.
    eexists. split; [reflexivity|]. wsimpl.
    rewrite !List.filter_app, app_nil_r. cbn. now rewrite !app_nil_r.
Qed.

Lemma communicate_bluetooth_failure_leaves_socket_witness :
  exists w',
    communicate_bluetooth silent_peer_env "00:11:22:33:44:55" world0 = (Ok None, w') /\
    closes w' = [].
Proof.
  destruct (communicate_bluetooth_failure_leaves_socket silent_peer_env
              "00:11:22:33:44:55" world0
              (mkExn OSError "[Errno 110] Connection timed out")
              (or_intror (conj eq_refl (or_intror (conj eq_refl
                 (or_intror (conj eq_refl eq_refl)))))))
    as (w' & Hrun & _ & Hcl).
  exists w'. split; [exact Hrun|exact Hcl].
Defined.

(** ** The communication loops, continued *)

Lemma communicate_bluetooth_record E addr w r w' :
  communicate_bluetooth E addr w = (Ok (Some r), w') ->
  cTo r = addr /\ cSent r = "Hello Bluetooth Device!".
Proof.
  unfold communicate_bluetooth, communicate_bluetooth_try, try_except.
  unfold bind, ask, print, timestamp, ret, logging. wsimpl.
  destruct (rfcomm_socket E _) as [e|]; cbn [lift_opt]; [discriminate|]. wsimpl.
  destruct (rfcomm_connect E _ _ _) as [e|]; cbn [lift_opt]; [discriminate|]. wsimpl.
  destruct (rfcomm_send E _ _ _) as [e|]; cbn [lift_opt]; [discriminate|]. wsimpl.
  destruct (rfcomm_recv E _ _ _) as [resp|e]; [|discriminate]. wsimpl.
  destruct (rfcomm_close E _ _) as [e|]; cbn [lift_opt]; [discriminate|]. wsimpl.
  intros [= <- _]. split; reflexivity.
Qed.

Lemma communicate_wifi_record E target w r w' :
  communicate_wifi E target w = (Ok (Some r), w') ->
  pTarget r = target /\ (pStatus r = "reachable" \/ pStatus r = "unreachable").
Proof.
  unfold communicate_wifi, communicate_wifi_try, try_except.
  unfold bind, ask, print, timestamp, ret, logging. wsimpl.
  destruct (subprocess_run E _ _) as [p|e]; [|discriminate]. wsimpl.
  intros [= <- _]. split; [reflexivity|].
  cbn. destruct (returncode p =? 0)%Z; auto.
Qed.

(** X12. The Bluetooth loop adds to the results it was given at most
    one record per device, in the order of the devices: the addresses of
    the new records are a subsequence of the addresses of the devices,
    and each record carries the greeting that was sent. *)
Theorem bt_loop_results_in_order (E : Env) (devices : list BtRecord) :
  forall (acc : list BtComm) (w : World),
  exists results w',
    bt_loop E devices acc w = (Ok (acc ++ results), w') /\
    sublist (map cTo results) (map bAddress devices) /\
    Forall (fun r => cSent r = "Hello Bluetooth Device!") results.
Proof.
  induction devices as [|d rest IH]; intros acc w.
  - exists [], w. cbn. rewrite app_nil_r. repeat split; constructor.
  - cbn [bt_loop]. unfold bind.
    destruct (communicate_bluetooth_returns E (bAddress d) w) as (o & w1 & Hrun).
    rewrite Hrun. destruct o as [r|].
    + destruct (communicate_bluetooth_record E _ _ _ _ Hrun) as [Hto Hsent].
      destruct (IH (acc ++ [r]) w1) as (res & w' & Hloop & Hsub & Hall).
      exists (r :: res), w'. rewrite Hloop, <- app_assoc.
      split; [reflexivity|]. split.
      * cbn [map]. rewrite Hto. now constructor.
      * now constructor.
    + destruct (IH acc w1) as (res & w' & Hloop & Hsub & Hall).
      exists res, w'. rewrite Hloop. split; [reflexivity|].
      split; [|exact Hall]. cbn [map]. now constructor.
Qed.

Lemma bt_loop_results_in_order_witness :
  exists results w',
    bt_loop bt_down_env two_phones [] world0 = (Ok results, w') /\
    sublist (map cTo results) ["00:11:22:33:44:55"; "66:77:88:99:AA:BB"].
Proof.
  destruct (bt_loop_results_in_order bt_down_env two_phones [] world0)
    as (results & w' & Hrun & Hsub & _).
  exists results, w'. split; [exact Hrun|exact Hsub].
Defined.

(** X13. The Wi-Fi loop adds at most one record per access point that
    has a BSSID, in the order of the list: the targets of the new records
    are a subsequence of the non-empty BSSIDs, and every record says
    either "reachable" or "unreachable". *)
Theorem wifi_loop_results_in_order (E : Env) (wifi_list : list WiFiRecord) :
  forall (acc : list WifiComm) (w : World),
  exists results w',
    wifi_loop E wifi_list acc w = (Ok (acc ++ results), w') /\
    sublist (map pTarget results) (map wBSSID (List.filter has_bssid wifi_list)) /\
    Forall (fun r => pTarget r <> "" /\
                     (pStatus r = "reachable" \/ pStatus r = "unreachable"))
           results.
Proof.
  induction wifi_list as [|ap rest IH]; intros acc w.
  - exists [], w. cbn. rewrite app_nil_r. repeat split; constructor.
  - cbn [wifi_loop List.filter]. unfold has_bssid at 1.
    destruct (String.eqb_spec (wBSSID ap) "") as [Hempty|Hne]; cbn [negb].
    + exact (IH acc w).
    + unfold bind.
      destruct (communicate_wifi_returns E (wBSSID ap) w) as (o & w1 & Hrun).
      rewrite Hrun. destruct o as [r|].
      * destruct (communicate_wifi_record E _ _ _ _ Hrun) as [Hto Hst].
        destruct (IH (acc ++ [r]) w1) as (res & w' & Hloop & Hsub & Hall).
        exists (r :: res), w'. rewrite Hloop, <- app_assoc.
        split; [reflexivity|]. split.
        -- cbn [map]. rewrite Hto. now constructor.
        -- constructor; [|exact Hall]. split; [congruence|exact Hst].
      * destruct (IH acc w1) as (res & w' & Hloop & Hsub & Hall).
        exists res, w'. rewrite Hloop. split; [reflexivity|].
        split; [|exact Hall]. cbn [map]. now constructor.
Qed.

Lemma wifi_loop_results_in_order_witness :
  exists results w',
    wifi_loop calm_env two_aps [] world0 = (Ok results, w') /\
    sublist (map pTarget results) ["aa:bb:cc:dd:ee:ff"].
Proof.
  destruct (wifi_loop_results_in_order calm_env two_aps [] world0)
    as (results & w' & Hrun & Hsub & _).
  exists results, w'. split; [exact Hrun|exact Hsub].
Defined.

(** ** The two result files of [auto_communicate] *)

Lemma keeps_fs_bt_loop E l : forall acc, keeps fs (bt_loop E l acc).
Proof.
  induction l as [|d rest IH]; intros acc; cbn [bt_loop]; [now intros w|].
  apply keeps_bind; [apply keeps_fs_communicate_bluetooth|].
  intros [r|]; apply IH.
Qed.

Lemma keeps_fs_wifi_loop E l : forall acc, keeps fs (wifi_loop E l acc).
Proof.
  induction l as [|ap rest IH]; intros acc; cbn [wifi_loop]; [now intros w|].
  destruct (negb (String.eqb (wBSSID ap) "")); [|apply IH].
  apply keeps_bind; [apply keeps_fs_communicate_wifi|].
  intros [r|]; apply IH.
Qed.

Lemma append_cancel_l (a x y : string) : a +:+ x = a +:+ y -> x = y.
Proof.
  induction a as [|c a IH]; cbn; [trivial|]. intros [= H]. now apply IH.
Qed.

Lemma comm_files_differ E subdir t1 t2 :
  json_filename E subdir "bt_comm" t1 <> json_filename E subdir "wifi_comm" t2.
Proof.
  unfold json_filename, path_join. cbn [String.append starts_with_slash].
  destruct (orb _ _); intros H; apply append_cancel_l in H; discriminate H.
Qed.



(** ** What the events of a computation cannot be *)

Lemma keeps_filter_ask {A} (p : event -> bool) ev (oracle : nat -> result A) :
  match ev with Some e => p e = false | None => True end ->
  keeps (fun w => List.filter p (trace w)) (ask ev oracle).
Proof.
  intros H w. unfold ask. wsimpl. rewrite List.filter_app.
  destruct ev as [e|]; cbn [List.filter]; [rewrite H|]; apply app_nil_r.
Qed.

Lemma keeps_pings_ask {A} ev (oracle : nat -> result A) :
  ping_targets (match ev with Some e => [e] | None => [] end) = [] ->
  keeps pings (ask ev oracle).
Proof.
  intros H w. unfold ask, pings. wsimpl.
  now rewrite ping_targets_app, H, app_nil_r.
Qed.

(** Splits a computation like [keeps_tac], for the projections of the
    trace. *)
Ltac events_tac :=
  repeat match goal with
         | |- keeps _ (bind _ _) => apply keeps_bind; [|intros ?; cbv beta]
         | |- keeps _ (try_except _ _) => apply keeps_try; [|intros ?; cbv beta]
         | |- keeps _ (mapM _ _) => apply keeps_mapM; intros ?; cbv beta
         | |- keeps (fun w => List.filter _ (trace w)) (ask _ _) =>
             apply keeps_filter_ask; exact I || reflexivity
         | |- keeps prompts (ask _ _) =>
             apply (keeps_filter_ask is_input); exact I || reflexivity
         | |- keeps closes (ask _ _) =>
             apply (keeps_filter_ask is_close); exact I || reflexivity
         | |- keeps pings (ask _ _) => apply keeps_pings_ask; reflexivity
         | H : forall x, keeps ?p (?f x) |- keeps ?p (?f _) => apply H
         | H : keeps ?p ?m |- keeps ?p ?m => exact H
         | |- keeps _ _ => solve [intros ?; reflexivity | auto with keeps]
         end.

Lemma keeps_trace_open_and_dump {X} (proj : list event -> X) E filename data :
  keeps (fun w => proj (trace w))
        (ask (Some (EvOpenW filename))
             (fun t => lift_opt (file_open_w E t filename))) ->
  keeps (fun w => proj (trace w)) (open_and_dump E filename data).
Proof.
  intros Hask. unfold open_and_dump.
  apply keeps_bind; [exact Hask|intros _].
  apply keeps_bind; [now intros w|intros _].
  intros w. destruct (file_write E (tick w) filename (dumps data)) as [[k e]|];
    reflexivity.
Qed.

Lemma keeps_pings_write_json E data subdir prefix :
  keeps pings (write_json E data subdir prefix).
Proof.
  intros w. unfold pings.
  destruct (write_json_trace E data subdir prefix w) as (evs & -> & Hp).
  now rewrite ping_targets_app, Hp, app_nil_r.
Qed.

Lemma keeps_pings_bt_loop E l : forall acc, keeps pings (bt_loop E l acc).
Proof.
  induction l as [|d rest IH]; intros acc; cbn [bt_loop]; [now intros w|].
  apply keeps_bind.
  - unfold communicate_bluetooth, communicate_bluetooth_try, timestamp.
    events_tac.
  - intros [r|]; apply IH.
Qed.

(** X15. When the log directory cannot be created, [auto_communicate]
    ends with that error after the Bluetooth attempts: the Wi-Fi half
    does not run, no access point is pinged and no file is written. *)
Theorem auto_communicate_directory_failure (E : Env) (bt : list BtRecord)
    (wifi : list WiFiRecord) (w : World) (e : exn) :
  (forall t path, os_makedirs E t path = Some e) ->
  exists w',
    auto_communicate E bt wifi w = (Raise e, w') /\
    pings w' = pings w /\
    fs w' = fs w.
Proof.
  intros Hdir. unfold auto_communicate, bt_comm_phase.
  destruct (bt_loop_returns E bt [] w) as (bres & w1 & Hbt & _).
  pose proof (keeps_pings_bt_loop E bt [] w) as Hp1.
  pose proof (keeps_fs_bt_loop E bt [] w) as Hf1.
  rewrite Hbt in Hp1, Hf1. cbn [snd] in Hp1, Hf1.
  unfold bind at 1 2. rewrite Hbt.
  destruct (write_json_makedirs_failure E (PList (map btcomm_to_py ([] ++ bres)))
              "comm_logs" "bt_comm" w1 e (Hdir _ _)) as (w2 & Hrun & Hfs & Htr).
  rewrite Hrun. exists w2. split; [reflexivity|].
  split; [|congruence].
  unfold pings in *. rewrite Htr, ping_targets_app, Hp1. apply app_nil_r.
Qed.

Lemma auto_communicate_directory_failure_witness :
  exists w',
    auto_communicate (no_dirs_env calm_env) two_phones two_aps world0
      = (Raise (mkExn OSError "[Errno 13] Permission denied"), w') /\
    pings w' = [].
Proof.
  destruct (auto_communicate_directory_failure (no_dirs_env calm_env) two_phones
              two_aps world0 (mkExn OSError "[Errno 13] Permission denied")
              (fun _ _ => eq_refl)) as (w' & Hrun & Hp & _).
  exists w'. split; [exact Hrun|exact Hp].
Defined.

(** ** The manual prompt, continued *)



(** X17. Any answer to the first prompt other than "1" and "2" ends the
    manual mode: the prompt prints that it exits and returns, after one
    question only; nobody is contacted and no file changes. *)
Theorem manual_other_choice_exits (E : Env) (bt : list BtRecord)
    (wifi : list WiFiRecord) (w : World) (choice : string) :
  stdin_input E (tick w) ">> Choose: " = Ok choice ->
  choice <> "1" -> choice <> "2" ->
  exists w',
    interactive_terminal E bt wifi w = (Ok tt, w') /\
    console w' = console w ++ banner_lines ++ ["Exiting manual mode."] /\
    trace w' = trace w ++ [EvInput ">> Choose: "] /\
    fs w' = fs w /\ log w' = log w.
Proof.
  intros Hin H1 H2. unfold interactive_terminal, input.
  unfold bind at 1 2 3 4 5. unfold print at 1 2 3 4. unfold ask at 1. wsimpl.
  rewrite Hin.
  apply String.eqb_neq in H1, H2. rewrite H1, H2.
  unfold print, banner_lines. wsimpl.
  eexists. split; [reflexivity|]. wsimpl.
  rewrite <- !app_assoc. repeat split; reflexivity.
Qed.

Lemma manual_other_choice_exits_witness :
  exists w',
    interactive_terminal calm_env two_phones two_aps world0 = (Ok tt, w') /\
    trace w' = [EvInput ">> Choose: "].
Proof.
  destruct (manual_other_choice_exits calm_env two_phones two_aps world0 "3"
              eq_refl ltac:(discriminate) ltac:(discriminate))
    as (w' & Hrun & _ & Htr & _).
  exists w'. split; [exact Hrun|exact Htr].
Defined.

Lemma py_index_in_range {A} (l : list A) (i : Z) :
  (0 <= i < Z.of_nat (length l))%Z ->
  exists x, py_index l i = Ok x /\ nth_error l (Z.to_nat i) = Some x.
Proof.
  intros H. unfold py_index.
  destruct (Z.ltb_spec i 0) as [Hi|_]; [lia|].
  destruct (Z.ltb_spec i 0) as [Hi|_]; [lia|].
  destruct (nth_error l (Z.to_nat i)) eqn:Hn; [eauto|].
  apply nth_error_None in Hn. lia.
Qed.

Lemma menu_lines_nth {A} (a b : A -> string) (l : list A) :
  forall i k x,
    nth_error l k = Some x ->
    nth_error (menu_lines a b i l) k
    = Some (str_of_Z (Z.of_nat (i + k) + 1) +:+ ". " +:+ a x +:+ " - " +:+ b x).
Proof.
  induction l as [|y r IH]; intros i k x Hk; [now destruct k|].
  destruct k as [|k]; cbn [menu_lines nth_error] in *.
  - injection Hk as ->. now rewrite Nat.add_0_r.
  - rewrite (IH (S i) k x Hk).
    replace (S i + k) with (i + S k) by lia. reflexivity.
Qed.

(** X18. The number printed in front of an entry of the menu selects
    that entry: for a typed number [v] between 1 and the number of
    entries, the helper is called on the entry whose menu line starts
    with [v].  Bluetooth menu and Wi-Fi menu. *)
Theorem manual_selection_follows_menu (E : Env) (bt : list BtRecord)
    (wifi : list WiFiRecord) (w : World) (s : string) (v : Z) :
  py_int s = Ok v ->
  (stdin_input E (tick w) ">> Choose: " = Ok "1" ->
   stdin_input E (S (tick w)) "Select device #: " = Ok s ->
   (1 <= v <= Z.of_nat (length bt))%Z ->
   exists dev,
     nth_error bt (Z.to_nat (v - 1)) = Some dev /\
     nth_error (menu_lines bName bAddress 0 bt) (Z.to_nat (v - 1))
       = Some (str_of_Z v +:+ ". " +:+ bName dev +:+ " - " +:+ bAddress dev) /\
     interactive_terminal E bt wifi w =
       (communicate_bluetooth E (bAddress dev) ;; ret tt)
         (after_selection (menu_lines bName bAddress 0 bt) "Select device #: " w))
  /\
  (stdin_input E (tick w) ">> Choose: " = Ok "2" ->
   stdin_input E (S (tick w)) "Select Wi-Fi #: " = Ok s ->
   (1 <= v <= Z.of_nat (length wifi))%Z ->
   exists net,
     nth_error wifi (Z.to_nat (v - 1)) = Some net /\
     nth_error (menu_lines wSSID wBSSID 0 wifi) (Z.to_nat (v - 1))
       = Some (str_of_Z v +:+ ". " +:+ wSSID net +:+ " - " +:+ wBSSID net) /\
     interactive_terminal E bt wifi w =
       (communicate_wifi E (wBSSID net) ;; ret tt)
         (after_selection (menu_lines wSSID wBSSID 0 wifi) "Select Wi-Fi #: " w)).
Proof.
  intros Hv. split; intros H1 H2 Hrange.
  - destruct (py_index_in_range bt (v - 1)) as (dev & Hidx & Hnth); [lia|].
    exists dev. split; [exact Hnth|]. split.
    + rewrite (menu_lines_nth _ _ _ 0 _ dev Hnth).
      replace (Z.of_nat (0 + Z.to_nat (v - 1)) + 1)%Z with v by lia.
      reflexivity.
    + rewrite (interactive_bluetooth_run E bt wifi w s H1 H2).
      unfold bind at 1. unfold of_result at 1. rewrite Hv.
      unfold bind at 1. unfold of_result at 1. now rewrite Hidx.
  - destruct (py_index_in_range wifi (v - 1)) as (net & Hidx & Hnth); [lia|].
    exists net. split; [exact Hnth|]. split.
    + rewrite (menu_lines_nth _ _ _ 0 _ net Hnth).
      replace (Z.of_nat (0 + Z.to_nat (v - 1)) + 1)%Z with v by lia.
      reflexivity.
    + rewrite (interactive_wifi_run E bt wifi w s H1 H2).
      unfold bind at 1. unfold of_result at 1. rewrite Hv.
      unfold bind at 1. unfold of_result at 1. now rewrite Hidx.
Qed.

Lemma manual_selection_follows_menu_witness :
  exists dev,
    nth_error two_phones 1 = Some dev /\
    nth_error (menu_lines bName bAddress 0 two_phones) 1
      = Some "2. watch - 66:77:88:99:AA:BB".
Proof.
  destruct (proj1 (manual_selection_follows_menu pick_two_env two_phones []
                     world0 "2" 2 eq_refl) eq_refl eq_refl)
    as (dev & Hnth & Hline & _).
  - cbn. lia.
  - exists dev. split; [exact Hnth|].
    cbn in Hnth. injection Hnth as <-. exact Hline.
Defined.

(** ** A cycle, from outside *)

Lemma keeps_prompts_write_json E data subdir prefix :
  keeps prompts (write_json E data subdir prefix).
Proof.
  unfold write_json, timestamp. cbv zeta.
  apply keeps_bind; [events_tac|intros _].
  apply keeps_bind; [events_tac|intros ts].
  apply keeps_try; [|intros e; events_tac].
  apply keeps_bind; [|intros _; events_tac].
  apply (keeps_trace_open_and_dump (List.filter is_input)). events_tac.
Qed.

Lemma keeps_prompts_auto_communicate E bt wifi :
  keeps prompts (auto_communicate E bt wifi).
Proof.
  pose proof (keeps_prompts_write_json E) as Hw.
  assert (Hb : forall l acc, keeps prompts (bt_loop E l acc)).
  { induction l as [|d rest IH]; intros acc; cbn [bt_loop]; [now intros w|].
    apply keeps_bind; [|intros [r|]; apply IH].
    unfold communicate_bluetooth, communicate_bluetooth_try, timestamp.
    events_tac. }
  assert (Hl : forall l acc, keeps prompts (wifi_loop E l acc)).
  { induction l as [|ap rest IH]; intros acc; cbn [wifi_loop]; [now intros w|].
    destruct (negb (String.eqb (wBSSID ap) "")); [|apply IH].
    apply keeps_bind; [|intros [r|]; apply IH].
    unfold communicate_wifi, communicate_wifi_try, timestamp. events_tac. }
  unfold auto_communicate, bt_comm_phase, wifi_comm_phase.
  apply keeps_bind; [apply keeps_bind; [apply Hb|intros ?; apply Hw]|intros _].
  apply keeps_bind; [apply Hl|intros ?; apply Hw].
Qed.

(** A cycle without the manual prompt asks the user nothing. *)
Lemma keeps_prompts_cycle E : keeps prompts (scan_and_communicate E false).
Proof.
  pose proof (keeps_prompts_write_json E) as Hw.
  unfold scan_and_communicate.
  apply keeps_bind; [events_tac|intros _].
  apply keeps_bind.
  { unfold scan_wifi, timestamp.
    do 6 (apply keeps_bind; [events_tac|intros ?]).
    apply keeps_bind; [apply Hw|intros _]. events_tac. }
  intros wifi. apply keeps_bind.
  { unfold scan_bluetooth_classic, timestamp.
    apply keeps_try; [|intros e; events_tac].
    do 2 (apply keeps_bind; [events_tac|intros ?]).
    apply keeps_bind; [apply Hw|intros _]. events_tac. }
  intros bt. apply keeps_bind.
  { unfold scan_bluetooth_ble, timestamp.
    apply keeps_try; [|intros e; events_tac].
    do 2 (apply keeps_bind; [events_tac|intros ?]).
    apply keeps_bind; [apply Hw|intros _]. events_tac. }
  intros _. apply keeps_bind; [apply keeps_prompts_auto_communicate|intros _].
  events_tac.
Qed.

Lemma keeps_after_banner {X} (proj : World -> X) E :
  keeps proj (scan_wifi E) -> keeps proj (scan_bluetooth_classic E) ->
  keeps proj (scan_bluetooth_ble E) ->
  (forall bt wifi, keeps proj (auto_communicate E bt wifi)) ->
  keeps proj
    (let! wifi_list := scan_wifi E in
     let! bt_classic := scan_bluetooth_classic E in
     scan_bluetooth_ble E ;;
     auto_communicate E bt_classic wifi_list ;;
     if false then interactive_terminal E bt_classic wifi_list else ret tt).
Proof.
  intros H1 H2 H3 H4.
  apply keeps_bind; [exact H1|intros wifi].
  apply keeps_bind; [exact H2|intros bt].
  apply keeps_bind; [exact H3|intros _].
  apply keeps_bind; [apply H4|intros _]. now intros w0.
Qed.

(** A cycle registers no job, whatever happens in it; and it shows in
    the log as one started cycle. *)
Lemma cycle_jobs_and_banner E w :
  jobs (snd (scan_and_communicate E false w)) = jobs w /\
  cycles_started (snd (scan_and_communicate E false w)) = S (cycles_started w).
Proof.
  destruct (scan_wifi_effect E) as (_ & Hwj & Hwc).
  destruct (quiet_scan_bluetooth_classic E) as (_ & Hcj & Hcc).
  destruct (quiet_scan_bluetooth_ble E) as (_ & Hbj & Hbc).
  unfold scan_and_communicate. unfold bind at 1. unfold logging at 1.
  split.
  - etransitivity.
    + apply (keeps_after_banner jobs E Hwj Hcj Hbj).
      intros bt wifi. apply (quiet_auto_communicate E bt wifi).
    + reflexivity.
  - etransitivity.
    + apply (keeps_after_banner cycles_started E Hwc Hcc Hbc).
      intros bt wifi. apply (quiet_auto_communicate E bt wifi).
    + unfold cycles_started. wsimpl.
      rewrite List.filter_app, length_app. cbn. lia.
Qed.

(** X19. Given [--once], whatever other flags are given with it, the
    program runs one cycle: one start of a cycle shows in the log, no job
    is registered with the scheduler, and the user is asked nothing. *)
Theorem once_mode_runs_one_cycle (E : Env) (argv : list string) (rounds : nat)
    (w : World) :
  in_argv "--once" argv = true ->
  cycles_started (snd (main E argv rounds w)) = S (cycles_started w) /\
  jobs (snd (main E argv rounds w)) = jobs w /\
  prompts (snd (main E argv rounds w)) = prompts w.
Proof.
  intros Honce. unfold main. rewrite Honce.
  destruct (cycle_jobs_and_banner E w) as [Hj Hc].
  split; [exact Hc|]. split; [exact Hj|]. apply keeps_prompts_cycle.
Qed.

Lemma once_mode_runs_one_cycle_witness :
  cycles_started
    (snd (main calm_env ["device_comm_full.py"; "--hourly"; "--once"] 10 world0)) = 1.
Proof.
  exact (proj1 (once_mode_runs_one_cycle calm_env
                  ["device_comm_full.py"; "--hourly"; "--once"] 10 world0 eq_refl)).
Defined.

(** ** The modes of the program *)

Lemma keeps_prompts_run_jobs E l : keeps prompts (run_jobs E l).
Proof.
  induction l as [|[i j] r IH]; cbn [run_jobs]; [now intros w|].
  apply keeps_bind.
  { destruct (job_fn j). apply keeps_prompts_cycle. }
  intros _. apply keeps_bind; [|intros _; exact IH].
  intros w. unfold reschedule. reflexivity.
Qed.

Lemma keeps_prompts_poll_loop E n : keeps prompts (poll_loop E n).
Proof.
  induction n as [|n IH]; cbn [poll_loop]; [now intros w|].
  apply keeps_bind.
  { intros w. unfold run_pending. apply keeps_prompts_run_jobs. }
  intros _. apply keeps_bind; [now intros w|intros _; exact IH].
Qed.

(** X20. Only [--manual] makes the program ask the user anything:
    without this flag no prompt is shown, in any mode and for any number
    of rounds of the hourly loop. *)
Theorem only_manual_mode_prompts (E : Env) (argv : list string) (rounds : nat)
    (w : World) :
  in_argv "--manual" argv = false ->
  prompts (snd (main E argv rounds w)) = prompts w.
Proof.
  intros Hmanual. unfold main. rewrite Hmanual.
  destruct (in_argv "--once" argv); [apply keeps_prompts_cycle|].
  destruct (in_argv "--hourly" argv); [|reflexivity].
  unfold hourly_scheduler.
  apply keeps_bind; [now intros w0|intros _].
  apply keeps_bind; [now intros w0|intros _].
  apply keeps_prompts_poll_loop.
Qed.

Lemma only_manual_mode_prompts_witness :
  prompts (snd (main calm_env ["device_comm_full.py"; "--hourly"] 3601 world0)) = [].
Proof.
  exact (only_manual_mode_prompts calm_env ["device_comm_full.py"; "--hourly"]
           3601 world0 eq_refl).
Defined.

(** A cycle on a host without Wi-Fi interface: the banner, then the
    [IndexError]. *)
Lemma cycle_without_interface E interactive w :
  pywifi_interfaces E (tick w) = Ok [] ->
  scan_and_communicate E interactive w
  = (Raise (mkExn IndexError "list index out of range"),
     set_tick (S (tick w)) (set_log (log w ++ [(INFO, cycle_banner)]) w)).
Proof.
  intros Hif. unfold scan_and_communicate, scan_wifi.
  unfold bind, logging, ask, of_result. wsimpl. rewrite Hif. cbn [py_index].
  unfold set_tick, set_trace, set_log. wsimpl. now rewrite app_nil_r.
Qed.

Lemma poll_loop_raise E (n : nat) w e w' :
  run_pending E w = (Raise e, w') -> poll_loop E (S n) w = (Raise e, w').
Proof. intros H. cbn [poll_loop]. unfold bind at 1. now rewrite H. Qed.

Lemma poll_loop_add E (a b : nat) :
  forall w, poll_loop E (a + b) w = (poll_loop E a ;; poll_loop E b) w.
Proof.
  induction a as [|a IH]; intros w; [reflexivity|].
  cbn [Nat.add poll_loop]. unfold bind, sleep.
  destruct (run_pending E w) as [[u|e] w1]; [|reflexivity].
  rewrite IH. unfold bind. reflexivity.
Qed.

(** X23. In hourly mode a cycle that raises ends the scheduler: on a
    host without a Wi-Fi interface, the first cycle starts after an hour,
    raises, and the error leaves [hourly_scheduler]; however many rounds
    the loop would have gone on, no second cycle starts. *)
Theorem hourly_scheduler_stops_at_failing_cycle (E : Env) (w0 : World) (n : nat) :
  jobs w0 = [] ->
  pywifi_interfaces E (tick w0) = Ok [] ->
  3600 < n ->
  exists w',
    hourly_scheduler E n w0
      = (Raise (mkExn IndexError "list index out of range"), w') /\
    cycles_started w' = S (cycles_started w0) /\
    clock w' = clock w0 + 3600.
Proof.
  intros Hj Hif Hn. rewrite hourly_scheduler_start by exact Hj.
  replace n with (3600 + S (n - 3601)) by lia.
  rewrite poll_loop_add. unfold bind at 1.
  erewrite poll_loop_idle;
    [|reflexivity|cbn [clock set_log set_jobs next_run]; lia].
  match goal with |- context [poll_loop E (S _) ?w1] => set (w1' := w1) end.
  assert (Hrun : run_pending E w1'
                 = (Raise (mkExn IndexError "list index out of range"),
                    set_tick (S (tick w1'))
                      (set_log (log w1' ++ [(INFO, cycle_banner)]) w1'))).
  { erewrite run_pending_due;
      [|subst w1'; reflexivity|subst w1'; cbn [clock set_clock set_log set_jobs next_run]; lia].
    cbn [job_fn run_job_func]. unfold bind at 1.
    rewrite cycle_without_interface by (subst w1'; exact Hif). reflexivity. }
  rewrite (poll_loop_raise E _ _ _ _ Hrun).
  eexists. split; [reflexivity|]. subst w1'. split; [|reflexivity].
  unfold cycles_started. wsimpl.
  rewrite !List.filter_app, !length_app. cbn. lia.
Qed.

Lemma hourly_scheduler_stops_at_failing_cycle_witness :
  exists w',
    hourly_scheduler no_wifi_env 4000 world0
      = (Raise (mkExn IndexError "list index out of range"), w') /\
    cycles_started w' = 1 /\ clock w' = 3600.
Proof.
  destruct (hourly_scheduler_stops_at_failing_cycle no_wifi_env world0 4000
              eq_refl eq_refl) as (w' & Hrun & Hc & Hclk).
  - lia.
  - exists w'. split; [exact Hrun|]. split; [exact Hc|exact Hclk].
Defined.

(** X24. On a host where a Wi-Fi interface answers and the log
    directories can be created, a cycle without the manual prompt never
    raises, whatever the Bluetooth discoveries, the exchanges, the pings
    and the writing of the files do. *)
Theorem cycle_returns_on_safe_host (E : Env) (w : World) :
  cycle_safe_env E ->
  exists w',
    scan_and_communicate E false w = (Ok tt, w') /\
    cycles_started w' = S (cycles_started w) /\
    jobs w' = jobs w.
Proof.
  intros Hsafe.
  destruct (scan_and_communicate_effect E w Hsafe) as (w' & Hrun & _ & Hj & Hc).
  exists w'. split; [exact Hrun|]. split; [exact Hc|exact Hj].
Qed.

Lemma cycle_returns_on_safe_host_witness :
  exists w', scan_and_communicate (with_open
                 (fun _ _ => Some (mkExn OSError "[Errno 30] Read-only file system"))
                 bt_off_env) false world0 = (Ok tt, w').
Proof.
  destruct (cycle_returns_on_safe_host
              (with_open
                 (fun _ _ => Some (mkExn OSError "[Errno 30] Read-only file system"))
                 bt_off_env) world0) as (w' & Hrun & _).
  - repeat split; intros; cbn; eauto.
  - exists w'. exact Hrun.
Defined.

(** ** What a scan returns is what it stores *)

(** X25. When the Wi-Fi scan and the writing of its file go well, the
    file written holds the records that [scan_wifi] returns: read back
    with [json.loads] it is the list of the returned records, field by
    field. *)
Theorem scan_wifi_file_matches_result (E : Env) (w : World) (iface : string)
    (others : list string) (results : list Profile) :
  pywifi_interfaces E (tick w) = Ok (iface :: others) ->
  iface_scan E (S (tick w)) iface = None ->
  iface_scan_results E (S (S (tick w))) iface = Ok results ->
  (forall t path, os_makedirs E t path = None) ->
  (forall t path, file_open_w E t path = None) ->
  (forall t path text, file_write E t path text = None) ->
  exists data w' text,
    scan_wifi E w = (Ok data, w') /\
    length data = length results /\
    fs w' !! json_filename E "wifi_scans" "wifi" (3 + tick w + length results)
      = Some text /\
    loads text = Some (PList (map wifi_to_py data)).
Proof.
  intros Hif Hscan Hres Hdir Hopen Hwrite. unfold scan_wifi.
  unfold bind at 1. unfold ask at 1. rewrite Hif. cbn [fst snd].
  unfold bind at 1. unfold of_result at 1.
  change (py_index (iface :: others) 0) with (Ok iface).
  unfold bind at 1. unfold ask at 1. wsimpl.
  rewrite Hscan. cbn [lift_opt].
  unfold bind at 1. unfold sleep at 1.
  unfold bind at 1. unfold ask at 1. wsimpl.
  rewrite Hres.
  unfold bind at 1.
  rewrite (mapM_stamp_run E
             (fun net ts => mkWiFi (ssid net) (bssid net) (signal net) (freq net) ts)).
  wsimpl.
  set (data := stamp_all E _ results _).
  set (w5 := after_ticks _ _).
  destruct (write_json_success E (PList (map wifi_to_py data)) "wifi_scans" "wifi"
              w5 (Hdir _ _) (Hopen _ _) (Hwrite _ _ _)) as (w6 & Hrun & Hfs & _).
  unfold bind at 1. rewrite Hrun.
  exists data, w6, (dumps (PList (map wifi_to_py data))).
  split; [reflexivity|]. split; [apply stamp_all_length|]. split.
  - rewrite Hfs.
    replace (tick w5) with (3 + tick w + length results)
      by (subst w5; wsimpl; lia).
    apply lookup_insert_eq.
  - apply loads_dumps, wf_records, wf_wifi_record.
Qed.

Lemma scan_wifi_file_matches_result_witness :
  exists data w' text,
    scan_wifi busy_env world0 = (Ok data, w') /\
    fs w' !! "/home/user/.scanner_logs/wifi_scans/wifi_2024-05-06T07-08-09.123456.json"
      = Some text /\
    loads text = Some (PList (map wifi_to_py data)).
Proof.
  destruct (scan_wifi_file_matches_result busy_env world0 "wlan0" []
              [mkProfile "home" "aa:bb:cc:dd:ee:ff" (-40) 2412;
               mkProfile "hidden" "" (-70) 5180]
              eq_refl eq_refl eq_refl (fun _ _ => eq_refl) (fun _ _ => eq_refl)
              (fun _ _ _ => eq_refl))
    as (data & w' & text & Hrun & _ & Hfile & Hload).
  exists data, w', text. split; [exact Hrun|]. split; [exact Hfile|exact Hload].
Defined.
